(** * Client glue of the streaming front-end: platform wrappers and handlers

    A shallow embedding of the TypeScript wrappers around the ad SDK, the
    status-bar and fullscreen plugins, the Web Fullscreen API, the in-app
    browser and the purchase remote procedure, together with the
    properties the specification states about them.

    Asynchronous functions are embedded as command trees ([prog]): every
    external call is a node whose continuation receives the settled
    promise, so [await], [try]/[catch]/[finally] and module-level
    variables keep the meaning they have in the source. *)

From Stdlib Require Import String List Bool ZArith QArith Lia.
Import ListNotations.

Local Open Scope string_scope.
Local Open Scope list_scope.

(* ===================================================================== *)
(** ** JavaScript values shared by the modules *)
(* ===================================================================== *)

Module Js.

(** A thrown value or a rejected promise's reason; the handlers only
    ever read [error.message]. *)
Record Error := mkError { message : string }.

(** A settled promise. *)
Inductive result (X : Type) : Type :=
| Resolved (x : X)
| Rejected (e : Error).
Arguments Resolved {X} x.
Arguments Rejected {X} e.

(** How a function body ends. *)
Inductive completion (R : Type) : Type :=
| Returned (r : R)
| Threw (e : Error).
Arguments Returned {R} r.
Arguments Threw {R} e.

(** A promise handed back to the caller that may stay pending. *)
Inductive promise (X : Type) : Type :=
| Settled (x : X)
| Pending.
Arguments Settled {X} x.
Arguments Pending {X}.

(** [a || b] on strings: the empty string is falsy. *)
Definition or_string (a b : string) : string :=
  if String.eqb a "" then b else a.

(** JSON numbers that reach the handlers are finite, so they compare
    as rationals. *)
Definition number := Q.

Definition lt (a b : number) : bool := negb (Qle_bool b a).

End Js.
Export Js.

(* ===================================================================== *)
(** ** The native bridge: [Capacitor.isNativePlatform()], [getPlatform()] *)
(* ===================================================================== *)

Record CapacitorEnv := mkCapacitor {
  isNativePlatform : bool;
  getPlatform : string
}.

(* ===================================================================== *)
(** ** DOM objects as far as the fullscreen code inspects them *)
(* ===================================================================== *)

(** Which vendor-prefixed methods an element offers. *)
Record Element := mkElement {
  elementId : string;
  has_requestFullscreen : bool;
  has_webkitRequestFullscreen : bool;
  has_mozRequestFullScreen : bool;
  has_msRequestFullscreen : bool
}.

(** The [document]: truthiness of the fullscreen-element properties and
    presence of the exit methods; [documentElement] is the default target. *)
Record Document := mkDocument {
  fullscreenElement : bool;
  webkitFullscreenElement : bool;
  mozFullScreenElement : bool;
  msFullscreenElement : bool;
  has_exitFullscreen : bool;
  has_webkitExitFullscreen : bool;
  has_mozCancelFullScreen : bool;
  has_msExitFullscreen : bool;
  documentElement : Element
}.

Inductive RequestMethod :=
| m_requestFullscreen | m_webkitRequestFullscreen
| m_mozRequestFullScreen | m_msRequestFullscreen.

Inductive ExitMethod :=
| m_exitFullscreen | m_webkitExitFullscreen
| m_mozCancelFullScreen | m_msExitFullscreen.

(* ===================================================================== *)
(** ** Records exchanged with the collaborators *)
(* ===================================================================== *)

Inductive BannerAdPosition := TOP_CENTER | BOTTOM_CENTER.
Inductive BannerAdSize := ADAPTIVE_BANNER.
Inductive Position := top | bottom.
Inductive Style := Style_Light | Style_Dark.
Inductive StyleName := light | dark.

Record BannerAdOptions := mkBannerAdOptions {
  adId : string;
  adSize : BannerAdSize;
  position : BannerAdPosition;
  margin : option Z;
  isTesting : bool
}.

Record AdMobRewardItem := mkReward { reward_type : string; reward_amount : Z }.

(** Options of [Browser.open]. *)
Record OpenOptions := mkOpenOptions {
  url : string;
  presentationStyle : option string;
  toolbarColor : option string
}.

(** Arguments object of the purchase remote procedure. *)
Record RpcArgs := mkRpcArgs {
  p_user_id : string;
  p_plan_id : string;
  p_amount : number
}.

(** A row of [app_ads]. *)
Record AppAd := mkAppAd {
  ad_name : string;
  ad_type : string;
  ad_unit_id : string;
  ad_placement : string;
  is_active : bool;
  is_test_mode : bool
}.

(** [setting_value] of an [app_ad_settings] row: [None] in a field is a
    missing or non-boolean property. *)
Record SettingValue := mkSettingValue {
  sv_enabled : option bool;
  sv_test_mode : option bool
}.

Record SettingRow := mkSettingRow {
  setting_key : string;
  setting_value : option SettingValue
}.

(* ===================================================================== *)
(** ** Command trees *)
(* ===================================================================== *)

Module Effects.

(** Calls to a collaborator: each may throw or reject. *)
Inductive label :=
| AdMob_initialize (initializeForTesting : bool)
| AdMob_showBanner (options : BannerAdOptions)
| AdMob_hideBanner
| AdMob_prepareInterstitial (adId : string) (isTesting : bool)
| AdMob_showInterstitial
| AdMob_addListener (eventName : string)
| AdMob_prepareRewardVideoAd (adId : string) (isTesting : bool)
| AdMob_showRewardVideoAd
| StatusBar_hide
| StatusBar_show
| StatusBar_setOverlaysWebView (overlay : bool)
| StatusBar_setStyle (style : Style)
| StatusBar_setBackgroundColor (color : string)
| import_capacitor_fullscreen
| Fullscreen_activateImmersiveMode
| Fullscreen_deactivateImmersiveMode
| requestFullscreen (target : string) (m : RequestMethod)
                    (navigationUI : option string)
| exitFullscreen (m : ExitMethod)
| Browser_open (o : OpenOptions)
| supabase_rpc (fn : string) (args : RpcArgs)
| select_app_ad_settings
| select_app_ads (platform : string)
| select_slot_ad (placement platform : string)
| select_global_settings
| select_web_ad (placement : string)
| onOrientationLocked
| onOrientationUnlocked.

(** What a call resolves to.  The remote procedure resolves to the
    [error] field of its response; a query to its [data] field;
    [showRewardVideoAd] is paired with the reward the [Rewarded]
    listener received while the ad was up, if the event fired.  The ad
    slot's [maybeSingle] queries resolve to a row or [null], the web-ad
    query to the row's [ad_code] when it has a truthy one. *)
Definition resp (l : label) : Type :=
  match l with
  | supabase_rpc _ _ => option Error
  | select_app_ad_settings => option (list SettingRow)
  | select_app_ads _ => option (list AppAd)
  | select_slot_ad _ _ => option AppAd
  | select_global_settings => option SettingRow
  | select_web_ad _ => option string
  | AdMob_showRewardVideoAd => option AdMobRewardItem
  | _ => unit
  end.

(** The collaborator method behind a call, its arguments dropped. *)
Inductive method :=
| M_AdMob_initialize | M_AdMob_showBanner | M_AdMob_hideBanner
| M_AdMob_prepareInterstitial | M_AdMob_showInterstitial
| M_AdMob_addListener | M_AdMob_prepareRewardVideoAd
| M_AdMob_showRewardVideoAd
| M_StatusBar_hide | M_StatusBar_show | M_StatusBar_setOverlaysWebView
| M_StatusBar_setStyle | M_StatusBar_setBackgroundColor
| M_import_fullscreen | M_Fullscreen_activate | M_Fullscreen_deactivate
| M_requestFullscreen | M_exitFullscreen | M_Browser_open
| M_supabase_rpc | M_supabase_select
| M_onOrientationLocked | M_onOrientationUnlocked.

Definition method_of (l : label) : method :=
  match l with
  | AdMob_initialize _ => M_AdMob_initialize
  | AdMob_showBanner _ => M_AdMob_showBanner
  | AdMob_hideBanner => M_AdMob_hideBanner
  | AdMob_prepareInterstitial _ _ => M_AdMob_prepareInterstitial
  | AdMob_showInterstitial => M_AdMob_showInterstitial
  | AdMob_addListener _ => M_AdMob_addListener
  | AdMob_prepareRewardVideoAd _ _ => M_AdMob_prepareRewardVideoAd
  | AdMob_showRewardVideoAd => M_AdMob_showRewardVideoAd
  | StatusBar_hide => M_StatusBar_hide
  | StatusBar_show => M_StatusBar_show
  | StatusBar_setOverlaysWebView _ => M_StatusBar_setOverlaysWebView
  | StatusBar_setStyle _ => M_StatusBar_setStyle
  | StatusBar_setBackgroundColor _ => M_StatusBar_setBackgroundColor
  | import_capacitor_fullscreen => M_import_fullscreen
  | Fullscreen_activateImmersiveMode => M_Fullscreen_activate
  | Fullscreen_deactivateImmersiveMode => M_Fullscreen_deactivate
  | requestFullscreen _ _ _ => M_requestFullscreen
  | exitFullscreen _ => M_exitFullscreen
  | Browser_open _ => M_Browser_open
  | supabase_rpc _ _ => M_supabase_rpc
  | select_app_ad_settings => M_supabase_select
  | select_app_ads _ => M_supabase_select
  | select_slot_ad _ _ => M_supabase_select
  | select_global_settings => M_supabase_select
  | select_web_ad _ => M_supabase_select
  | onOrientationLocked => M_onOrientationLocked
  | onOrientationUnlocked => M_onOrientationUnlocked
  end.

Definition method_eqb (a b : method) : bool :=
  match a, b with
  | M_AdMob_initialize, M_AdMob_initialize
  | M_AdMob_showBanner, M_AdMob_showBanner
  | M_AdMob_hideBanner, M_AdMob_hideBanner
  | M_AdMob_prepareInterstitial, M_AdMob_prepareInterstitial
  | M_AdMob_showInterstitial, M_AdMob_showInterstitial
  | M_AdMob_addListener, M_AdMob_addListener
  | M_AdMob_prepareRewardVideoAd, M_AdMob_prepareRewardVideoAd
  | M_AdMob_showRewardVideoAd, M_AdMob_showRewardVideoAd
  | M_StatusBar_hide, M_StatusBar_hide
  | M_StatusBar_show, M_StatusBar_show
  | M_StatusBar_setOverlaysWebView, M_StatusBar_setOverlaysWebView
  | M_StatusBar_setStyle, M_StatusBar_setStyle
  | M_StatusBar_setBackgroundColor, M_StatusBar_setBackgroundColor
  | M_import_fullscreen, M_import_fullscreen
  | M_Fullscreen_activate, M_Fullscreen_activate
  | M_Fullscreen_deactivate, M_Fullscreen_deactivate
  | M_requestFullscreen, M_requestFullscreen
  | M_exitFullscreen, M_exitFullscreen
  | M_Browser_open, M_Browser_open
  | M_supabase_rpc, M_supabase_rpc
  | M_supabase_select, M_supabase_select
  | M_onOrientationLocked, M_onOrientationLocked
  | M_onOrientationUnlocked, M_onOrientationUnlocked => true
  | _, _ => false
  end.

Inductive ToastVariant := default_variant | destructive.

(** Local effects that do not fail: logging, timers, notifications,
    React state setters and navigation.  [spawn] starts another async
    function of the component without awaiting it. *)
Inductive action :=
| console_log (msg : string)
| console_error (msg : string)
| setTimeout_resolve (ms : Z)
| toast (title : string) (variant : ToastVariant)
| setState (name : string) (value : string)
| setBannerShown (b : bool)
| notify_listener (listener : nat) (value : bool)
| onOpenChange (open : bool)
| navigate (path : string)
| spawn (fn : string).

(** A function body over module state [St] returning [R]. *)
Inductive prog (St R : Type) : Type :=
| Ret (r : R)
| Throw (e : Error)
| Act (a : action) (k : prog St R)
| Call (l : label) (k : result (resp l) -> prog St R)
| Get (k : St -> prog St R)
| Put (s : St) (k : prog St R).
Arguments Ret {St R} r.
Arguments Throw {St R} e.
Arguments Act {St R} a k.
Arguments Call {St R} l k.
Arguments Get {St R} k.
Arguments Put {St R} s k.

Fixpoint bind {St A B} (p : prog St A) (f : A -> prog St B) : prog St B :=
  match p with
  | Ret r => f r
  | Throw e => Throw e
  | Act a k => Act a (bind k f)
  | Call l k => Call l (fun r => bind (k r) f)
  | Get k => Get (fun s => bind (k s) f)
  | Put s k => Put s (bind k f)
  end.

(** [try { p } catch (e) { h e }] *)
Fixpoint try_catch {St R} (p : prog St R) (h : Error -> prog St R)
  : prog St R :=
  match p with
  | Ret r => Ret r
  | Throw e => h e
  | Act a k => Act a (try_catch k h)
  | Call l k => Call l (fun r => try_catch (k r) h)
  | Get k => Get (fun s => try_catch (k s) h)
  | Put s k => Put s (try_catch k h)
  end.

(** [try { p } finally { f }] *)
Fixpoint try_finally {St R} (p : prog St R) (f : prog St unit)
  : prog St R :=
  match p with
  | Ret r => bind f (fun _ => Ret r)
  | Throw e => bind f (fun _ => Throw e)
  | Act a k => Act a (try_finally k f)
  | Call l k => Call l (fun r => try_finally (k r) f)
  | Get k => Get (fun s => try_finally (k s) f)
  | Put s k => Put s (try_finally k f)
  end.

(** [await c]: the promise's value, or its rejection thrown. *)
Definition await {St} (l : label) : prog St (resp l) :=
  Call l (fun r => match r with
                   | Resolved x => Ret x
                   | Rejected e => Throw e
                   end).

Definition act {St} (a : action) : prog St unit := Act a (Ret tt).
Definition get {St} : prog St St := Get (fun s => Ret s).
Definition put {St} (s : St) : prog St unit := Put s (Ret tt).

(** [await new Promise(resolve => setTimeout(resolve, ms))] *)
Definition sleep {St} (ms : Z) : prog St unit := act (setTimeout_resolve ms).

(** *** Running a program against an environment *)

(** The environment answers the [n]-th external call of a run. *)
Definition oracle := nat -> forall l : label, result (resp l).

(** A call counts as failed when it rejects, or when the remote
    procedure resolves with a non-null [error]. *)
Definition succeeded (l : label) : result (resp l) -> bool :=
  match l as l0 return result (resp l0) -> bool with
  | supabase_rpc _ _ => fun r =>
      match r with Resolved None => true | _ => false end
  | _ => fun r => match r with Resolved _ => true | Rejected _ => false end
  end.

Inductive event :=
| EAct (a : action)
| ECall (l : label) (ok : bool).

Definition trace := list event.

Fixpoint exec {St R} (p : prog St R) (w : oracle) (n : nat) (s : St)
  : trace * St * completion R :=
  match p with
  | Ret r => ([], s, Returned r)
  | Throw e => ([], s, Threw e)
  | Act a k =>
      let '(tr, s', c) := exec k w n s in (EAct a :: tr, s', c)
  | Call l k =>
      let r := w n l in
      let '(tr, s', c) := exec (k r) w (S n) s in
      (ECall l (succeeded l r) :: tr, s', c)
  | Get k => exec (k s) w n s
  | Put s' k => exec k w n s'
  end.

Definition trace_of {St R} (x : trace * St * completion R) : trace :=
  fst (fst x).
Definition state_of {St R} (x : trace * St * completion R) : St :=
  snd (fst x).
Definition completion_of {St R} (x : trace * St * completion R)
  : completion R := snd x.

(** The external calls of a trace, in order. *)
Fixpoint calls (tr : trace) : list label :=
  match tr with
  | [] => []
  | EAct _ :: tr' => calls tr'
  | ECall l _ :: tr' => l :: calls tr'
  end.

(** The calls that succeeded. *)
Fixpoint calls_ok (tr : trace) : list label :=
  match tr with
  | [] => []
  | ECall l true :: tr' => l :: calls_ok tr'
  | _ :: tr' => calls_ok tr'
  end.

(** No call of the trace failed. *)
Definition no_failure (tr : trace) : bool :=
  forallb (fun ev => match ev with ECall _ false => false | _ => true end) tr.

(** An environment in which every call succeeds with default data. *)
Definition all_ok : oracle :=
  fun _ l =>
    match l as l0 return result (resp l0) with
    | supabase_rpc _ _ => Resolved None
    | select_app_ad_settings => Resolved None
    | select_app_ads _ => Resolved None
    | select_slot_ad _ _ => Resolved None
    | select_global_settings => Resolved None
    | select_web_ad _ => Resolved None
    | AdMob_showRewardVideoAd => Resolved None
    | AdMob_initialize _ => Resolved tt
    | AdMob_showBanner _ => Resolved tt
    | AdMob_hideBanner => Resolved tt
    | AdMob_prepareInterstitial _ _ => Resolved tt
    | AdMob_showInterstitial => Resolved tt
    | AdMob_addListener _ => Resolved tt
    | AdMob_prepareRewardVideoAd _ _ => Resolved tt
    | StatusBar_hide => Resolved tt
    | StatusBar_show => Resolved tt
    | StatusBar_setOverlaysWebView _ => Resolved tt
    | StatusBar_setStyle _ => Resolved tt
    | StatusBar_setBackgroundColor _ => Resolved tt
    | import_capacitor_fullscreen => Resolved tt
    | Fullscreen_activateImmersiveMode => Resolved tt
    | Fullscreen_deactivateImmersiveMode => Resolved tt
    | requestFullscreen _ _ _ => Resolved tt
    | exitFullscreen _ => Resolved tt
    | Browser_open _ => Resolved tt
    | onOrientationLocked => Resolved tt
    | onOrientationUnlocked => Resolved tt
    end.

(** An environment in which every call rejects. *)
Definition all_fail (e : Error) : oracle := fun _ _ => Rejected e.

(** [w] with the calls numbered in [bad] rejecting. *)
Definition failing_at (bad : list nat) (e : Error) (w : oracle) : oracle :=
  fun n l => if existsb (Nat.eqb n) bad then Rejected e else w n l.

End Effects.
Export Effects.

Declare Scope prog_scope.
Delimit Scope prog_scope with prog.
Notation "x <- p ;; q" := (bind p (fun x => q))
  (at level 61, p at next level, right associativity) : prog_scope.
Notation "p ;; q" := (bind p (fun _ => q))
  (at level 61, right associativity) : prog_scope.
Notation "'TRY' p 'CATCH' e '=>' h" := (try_catch p (fun e => h))
  (at level 62, p at level 61, e name, h at level 61) : prog_scope.

(* ===================================================================== *)
(** ** hooks/use-tablet-landscape.tsx *)
(* ===================================================================== *)

Module TabletLandscape.

Local Open Scope Z_scope.

Definition MIN_TABLET_WIDTH : Z := 768.
Definition MAX_TABLET_WIDTH : Z := 1279.

(** The value [checkIsTabletLandscape] passes to [setIsTabletLandscape]
    for [window.innerWidth] and [window.innerHeight]. *)
Definition checkIsTabletLandscape (width height : Z) : bool :=
  let isLandscape := width >? height in
  let shorterDimension := Z.min width height in
  let isTabletDevice :=
    (shorterDimension >=? MIN_TABLET_WIDTH)
    && (shorterDimension <=? MAX_TABLET_WIDTH) in
  let widthAboveTabletPortrait := width >? MAX_TABLET_WIDTH in
  isLandscape
  && (isTabletDevice
      || ((shorterDimension >=? MIN_TABLET_WIDTH)
          && widthAboveTabletPortrait)).

End TabletLandscape.

(* ===================================================================== *)
(** ** hooks/useNativeApp.tsx *)
(* ===================================================================== *)

Module NativeApp.

(** [try { return Capacitor.isNativePlatform(); } catch { return false; }]:
    the bridge query itself is taken not to throw. *)
Definition isNativeApp (Capacitor : CapacitorEnv) : bool :=
  isNativePlatform Capacitor.

Definition getPlatform (Capacitor : CapacitorEnv) : string :=
  getPlatform Capacitor.

End NativeApp.

(* ===================================================================== *)
(** ** services/admobService.ts *)
(* ===================================================================== *)

Module AdmobService.
Section WithPlatform.

Variable Capacitor : CapacitorEnv.

Definition AD_UNITS_android_banner := "ca-app-pub-3940256099942544/6300978111".
Definition AD_UNITS_android_interstitial :=
  "ca-app-pub-3940256099942544/1033173712".
Definition AD_UNITS_android_rewarded :=
  "ca-app-pub-3940256099942544/5224354917".

(** [let isInitialized = false;] *)
Record State := mkState { isInitialized : bool }.
Definition initial : State := {| isInitialized := false |}.

Definition initializeAdMob : prog State unit :=
  (s <- get ;;
   if negb (NativeApp.isNativeApp Capacitor) || isInitialized s then Ret tt
   else
     TRY (await (AdMob_initialize true) ;;
          put {| isInitialized := true |} ;;
          act (console_log "AdMob initialized successfully"))
     CATCH error => act (console_error "Error initializing AdMob:"))%prog.

Definition banner_position (p : Position) : BannerAdPosition :=
  match p with top => TOP_CENTER | bottom => BOTTOM_CENTER end.

Definition showBannerAd (position : Position) : prog State unit :=
  (if negb (NativeApp.isNativeApp Capacitor) then Ret tt
   else
     TRY (let options :=
            {| adId := AD_UNITS_android_banner;
               adSize := ADAPTIVE_BANNER;
               position := banner_position position;
               margin := Some 0%Z;
               isTesting := true |} in
          await (AdMob_showBanner options) ;;
          act (console_log "Banner ad shown"))
     CATCH error => act (console_error "Error showing banner ad:"))%prog.

Definition hideBannerAd : prog State unit :=
  (if negb (NativeApp.isNativeApp Capacitor) then Ret tt
   else
     TRY (await AdMob_hideBanner ;;
          act (console_log "Banner ad hidden"))
     CATCH error => act (console_error "Error hiding banner ad:"))%prog.

Definition showInterstitialAd : prog State unit :=
  (if negb (NativeApp.isNativeApp Capacitor) then Ret tt
   else
     TRY (await (AdMob_prepareInterstitial
                   AD_UNITS_android_interstitial true) ;;
          await AdMob_showInterstitial ;;
          act (console_log "Interstitial ad shown"))
     CATCH error => act (console_error "Error showing interstitial ad:"))%prog.

(** The returned promise resolves with the reward when the [Rewarded]
    listener fires, with [null] when a call fails, and otherwise stays
    pending. *)
Definition showRewardedAd : prog State (promise (option AdMobRewardItem)) :=
  (if negb (NativeApp.isNativeApp Capacitor) then Ret (Settled None)
   else
     TRY (await (AdMob_addListener "Rewarded") ;;
          await (AdMob_prepareRewardVideoAd
                   AD_UNITS_android_rewarded true) ;;
          rewarded <- await AdMob_showRewardVideoAd ;;
          match rewarded with
          | Some reward =>
              act (console_log "User earned reward:") ;;
              Ret (Settled (Some reward))
          | None => Ret Pending
          end)
     CATCH error =>
       (act (console_error "Error showing rewarded ad:") ;;
        Ret (Settled None)))%prog.

Definition setTestDeviceIds (deviceIds : list string) : prog State unit :=
  (if negb (NativeApp.isNativeApp Capacitor) then Ret tt
   else
     TRY (act (console_log "Test device IDs:"))
     CATCH error => act (console_error "Error setting test device IDs:"))%prog.

End WithPlatform.
End AdmobService.

(* ===================================================================== *)
(** ** The ad service driven by dashboard settings
       (second [admobService], with [cachedSettings]) *)
(* ===================================================================== *)

Module AdmobDashboard.
Section WithPlatform.

Variable Capacitor : CapacitorEnv.

Definition DEFAULT_TEST_ADS_android_banner :=
  "ca-app-pub-3940256099942544/6300978111".
Definition DEFAULT_TEST_ADS_android_interstitial :=
  "ca-app-pub-3940256099942544/1033173712".
Definition DEFAULT_TEST_ADS_android_rewarded :=
  "ca-app-pub-3940256099942544/5224354917".
Definition DEFAULT_TEST_ADS_ios_banner :=
  "ca-app-pub-3940256099942544/2934735716".
Definition DEFAULT_TEST_ADS_ios_interstitial :=
  "ca-app-pub-3940256099942544/4411468910".
Definition DEFAULT_TEST_ADS_ios_rewarded :=
  "ca-app-pub-3940256099942544/1712485313".

Record Settings := mkSettings {
  enabled : bool;
  testMode : bool;
  ads : list AppAd
}.

(** [let isInitialized = false; let cachedSettings = null;] *)
Record State := mkState {
  isInitialized : bool;
  cachedSettings : option Settings
}.
Definition initial : State :=
  {| isInitialized := false; cachedSettings := None |}.

(** The [forEach] over the settings rows: a [global_settings] row
    overwrites both flags; reading a property of a [null]
    [setting_value] throws, which is [None] here. *)
Fixpoint parse_settings (rows : list SettingRow) (acc : bool * bool)
  : option (bool * bool) :=
  match rows with
  | [] => Some acc
  | setting :: rest =>
      if String.eqb (setting_key setting) "global_settings" then
        match setting_value setting with
        | None => None
        | Some value =>
            let enabled :=
              match sv_enabled value with Some false => false | _ => true end in
            let testMode :=
              match sv_test_mode value with Some true => true | _ => false end in
            parse_settings rest (enabled, testMode)
        end
      else parse_settings rest acc
  end.

Definition TypeError : Error :=
  {| message := "Cannot read properties of null" |}.

Definition fetchSettings : prog State (option Settings) :=
  (if negb (NativeApp.isNativeApp Capacitor) then Ret None
   else
     TRY (let platform := NativeApp.getPlatform Capacitor in
          settingsData <- await select_app_ad_settings ;;
          adsData <- await (select_app_ads platform) ;;
          match parse_settings
                  (match settingsData with Some rows => rows | None => [] end)
                  (true, false) with
          | None => Throw TypeError
          | Some (enabled, testMode) =>
              let fresh :=
                {| enabled := enabled;
                   testMode := testMode;
                   ads := match adsData with Some l => l | None => [] end |} in
              s <- get ;;
              put {| isInitialized := isInitialized s;
                     cachedSettings := Some fresh |} ;;
              Ret (Some fresh)
          end)
     CATCH error =>
       (act (console_error "Error fetching AdMob settings:") ;;
        Ret None))%prog.

(** [!placement]: missing or empty. *)
Definition no_placement (placement : option string) : bool :=
  match placement with
  | None => true
  | Some p => String.eqb p ""
  end.

Definition ad_matches (adType : string) (placement : option string)
           (ad : AppAd) : bool :=
  let typeMatch := String.eqb (ad_type ad) adType in
  let placementMatch :=
    no_placement placement
    || match placement with
       | Some p => String.eqb (ad_placement ad) p
       | None => false
       end in
  typeMatch && placementMatch && is_active ad.

(** [s || null] on a string. *)
Definition truthy_string (s : string) : option string :=
  if String.eqb s "" then None else Some s.

Definition getAdUnit (s : State) (adType : string)
           (placement : option string) : option string :=
  let platform := NativeApp.getPlatform Capacitor in
  let ios := String.eqb platform "ios" in
  match cachedSettings s with
  | Some {| ads := (_ :: _) as l |} =>
      match find (ad_matches adType placement) l with
      | Some matchingAd => truthy_string (ad_unit_id matchingAd)
      | None => None
      end
  | _ =>
      if String.eqb adType "banner" then
        Some (if ios then DEFAULT_TEST_ADS_ios_banner
              else DEFAULT_TEST_ADS_android_banner)
      else if String.eqb adType "interstitial" then
        Some (if ios then DEFAULT_TEST_ADS_ios_interstitial
              else DEFAULT_TEST_ADS_android_interstitial)
      else if String.eqb adType "rewarded" then
        Some (if ios then DEFAULT_TEST_ADS_ios_rewarded
              else DEFAULT_TEST_ADS_android_rewarded)
      else None
  end.

(** [cachedSettings?.enabled] as a condition. *)
Definition settings_enabled (s : State) : bool :=
  match cachedSettings s with Some c => enabled c | None => false end.

(** [cachedSettings?.testMode ?? true] *)
Definition settings_testMode (s : State) : bool :=
  match cachedSettings s with Some c => testMode c | None => true end.

Definition initializeAdMob : prog State unit :=
  (s <- get ;;
   if negb (NativeApp.isNativeApp Capacitor) || isInitialized s then Ret tt
   else
     fetchSettings ;;
     s1 <- get ;;
     match cachedSettings s1 with
     | Some {| enabled := false |} =>
         act (console_log "AdMob disabled in dashboard settings")
     | _ =>
         TRY (await (AdMob_initialize (settings_testMode s1)) ;;
              s2 <- get ;;
              put {| isInitialized := true;
                     cachedSettings := cachedSettings s2 |} ;;
              act (console_log "AdMob initialized from dashboard settings"))
         CATCH error => act (console_error "Error initializing AdMob:")
     end)%prog.

Definition banner_position (p : Position) : BannerAdPosition :=
  match p with top => TOP_CENTER | bottom => BOTTOM_CENTER end.

Definition showBannerAd (position : Position) (placement : option string)
  : prog State unit :=
  (s <- get ;;
   if negb (NativeApp.isNativeApp Capacitor) || negb (settings_enabled s)
   then Ret tt
   else
     match getAdUnit s "banner" placement with
     | None => Ret tt
     | Some adId =>
         TRY (s1 <- get ;;
              let options :=
                {| adId := adId;
                   adSize := ADAPTIVE_BANNER;
                   position := banner_position position;
                   margin := Some 0%Z;
                   isTesting := settings_testMode s1 |} in
              await (AdMob_showBanner options))
         CATCH error => act (console_error "Error showing banner ad:")
     end)%prog.

Definition hideBannerAd : prog State unit :=
  (if negb (NativeApp.isNativeApp Capacitor) then Ret tt
   else
     TRY (await AdMob_hideBanner)
     CATCH error => act (console_error "Error hiding banner ad:"))%prog.

Definition showInterstitialAd (placement : option string)
  : prog State unit :=
  (s <- get ;;
   if negb (NativeApp.isNativeApp Capacitor) || negb (settings_enabled s)
   then Ret tt
   else
     match getAdUnit s "interstitial" placement with
     | None => Ret tt
     | Some adId =>
         TRY (s1 <- get ;;
              await (AdMob_prepareInterstitial adId (settings_testMode s1)) ;;
              await AdMob_showInterstitial)
         CATCH error => act (console_error "Error showing interstitial ad:")
     end)%prog.

Definition showRewardedAd (placement : option string)
  : prog State (promise (option AdMobRewardItem)) :=
  (s <- get ;;
   if negb (NativeApp.isNativeApp Capacitor) || negb (settings_enabled s)
   then Ret (Settled None)
   else
     match getAdUnit s "rewarded" placement with
     | None => Ret (Settled None)
     | Some adId =>
         TRY (await (AdMob_addListener "Rewarded") ;;
              s1 <- get ;;
              await (AdMob_prepareRewardVideoAd adId (settings_testMode s1)) ;;
              rewarded <- await AdMob_showRewardVideoAd ;;
              match rewarded with
              | Some reward => Ret (Settled (Some reward))
              | None => Ret Pending
              end)
         CATCH error =>
           (act (console_error "Error showing rewarded ad:") ;;
            Ret (Settled None))
     end)%prog.

(** [cachedSettings?.enabled ?? false] *)
Definition isAdsEnabled (s : State) : bool :=
  match cachedSettings s with Some c => enabled c | None => false end.

Definition isTestModeEnabled (s : State) : bool := settings_testMode s.

Definition refreshAdSettings : prog State unit :=
  (fetchSettings ;; Ret tt)%prog.

End WithPlatform.
End AdmobDashboard.

(* ===================================================================== *)
(** ** hooks/useNativeStatusBar.tsx *)
(* ===================================================================== *)

Module NativeStatusBar.
Section WithPlatform.

Variable Capacitor : CapacitorEnv.

(** [let FullscreenPlugin: any = null;] -- [true] once the dynamic
    import has stored the plugin object. *)
Record State := mkState { FullscreenPlugin : bool }.
Definition initial : State := {| FullscreenPlugin := false |}.

Definition on_android : bool := String.eqb (getPlatform Capacitor) "android".

Definition loadFullscreenPlugin : prog State bool :=
  (s <- get ;;
   (if on_android && negb (FullscreenPlugin s) then
      TRY (await import_capacitor_fullscreen ;;
           put {| FullscreenPlugin := true |} ;;
           act (console_log "[StatusBar] Fullscreen plugin loaded"))
      CATCH error =>
        act (console_log "[StatusBar] Fullscreen plugin not available:")
    else Ret tt) ;;
   s1 <- get ;;
   Ret (FullscreenPlugin s1))%prog.

Definition isNative : bool := isNativePlatform Capacitor.

(** The shape shared by the four bar functions: on Android with the
    plugin, a guarded un-awaited plugin call and a 100 ms pause; else
    the [StatusBar] fallback; all inside one [try]. *)
Definition enterImmersiveFullscreen : prog State unit :=
  (if negb isNative then Ret tt
   else
     TRY (let fallback :=
            await StatusBar_hide ;;
            act (console_log
              "[StatusBar] Entered immersive mode - status bar hidden") in
          if on_android then
            Fullscreen <- loadFullscreenPlugin ;;
            if Fullscreen then
              (TRY (await Fullscreen_activateImmersiveMode ;;
                    act (console_log
                      "[StatusBar] Entered immersive mode via fullscreen plugin"))
               CATCH e =>
                 act (console_log "[StatusBar] Fullscreen plugin call failed:")) ;;
              sleep 100
            else fallback
          else fallback)
     CATCH error =>
       act (console_log "[StatusBar] Failed to enter immersive mode:"))%prog.

Definition exitImmersiveFullscreen : prog State unit :=
  (if negb isNative then Ret tt
   else
     TRY (let fallback :=
            await StatusBar_show ;;
            act (console_log
              "[StatusBar] Exited immersive mode - status bar shown") in
          if on_android then
            Fullscreen <- loadFullscreenPlugin ;;
            if Fullscreen then
              (TRY (await Fullscreen_deactivateImmersiveMode ;;
                    act (console_log
                      "[StatusBar] Exited immersive mode via fullscreen plugin"))
               CATCH e =>
                 act (console_log
                   "[StatusBar] Fullscreen plugin exit call failed:")) ;;
              sleep 100
            else fallback
          else fallback)
     CATCH error =>
       act (console_log "[StatusBar] Failed to exit immersive mode:"))%prog.

Definition hideStatusBar : prog State unit :=
  (if negb isNative then Ret tt
   else
     TRY (let fallback :=
            await StatusBar_hide ;;
            act (console_log "[StatusBar] Status bar hidden") in
          if on_android then
            Fullscreen <- loadFullscreenPlugin ;;
            if Fullscreen then
              (TRY (await Fullscreen_activateImmersiveMode ;;
                    act (console_log
                      "[StatusBar] Activated immersive mode (hides all system bars)"))
               CATCH e =>
                 act (console_log "[StatusBar] Immersive mode call failed:")) ;;
              sleep 100
            else fallback
          else fallback)
     CATCH error =>
       act (console_log "[StatusBar] Failed to hide status bar:"))%prog.

Definition showStatusBar : prog State unit :=
  (if negb isNative then Ret tt
   else
     TRY (let fallback :=
            await StatusBar_show ;;
            act (console_log "[StatusBar] Status bar shown") in
          if on_android then
            Fullscreen <- loadFullscreenPlugin ;;
            if Fullscreen then
              (TRY (await Fullscreen_deactivateImmersiveMode ;;
                    act (console_log
                      "[StatusBar] Deactivated immersive mode (shows all system bars)"))
               CATCH e =>
                 act (console_log "[StatusBar] Deactivate immersive call failed:")) ;;
              sleep 100
            else fallback
          else fallback)
     CATCH error =>
       act (console_log "[StatusBar] Failed to show status bar:"))%prog.

Definition setStatusBarOverlay (overlay : bool) : prog State unit :=
  (if negb isNative then Ret tt
   else
     TRY (await (StatusBar_setOverlaysWebView overlay) ;;
          act (console_log "[StatusBar] Overlay mode set to:"))
     CATCH error =>
       act (console_log "[StatusBar] Failed to set overlay mode:"))%prog.

Definition setStatusBarStyle (style : StyleName) : prog State unit :=
  (if negb isNative then Ret tt
   else
     TRY (await (StatusBar_setStyle
                   match style with
                   | light => Style_Light
                   | dark => Style_Dark
                   end) ;;
          act (console_log "[StatusBar] Style set to:"))
     CATCH error => act (console_log "[StatusBar] Failed to set style:"))%prog.

Definition setStatusBarBackgroundColor (color : string) : prog State unit :=
  (if negb isNative || negb on_android then Ret tt
   else
     TRY (await (StatusBar_setBackgroundColor color) ;;
          act (console_log "[StatusBar] Background color set to:"))
     CATCH error =>
       act (console_log "[StatusBar] Failed to set background color:"))%prog.

End WithPlatform.
End NativeStatusBar.

(* ===================================================================== *)
(** ** The edge-to-edge variant of the status-bar module
       ([initEdgeToEdge] and the two functions that restore it) *)
(* ===================================================================== *)

Module NativeStatusBarEdge.
Section WithPlatform.

Variable Capacitor : CapacitorEnv.

Definition State := NativeStatusBar.State.
Definition isNative : bool := isNativePlatform Capacitor.
Definition on_android : bool := NativeStatusBar.on_android Capacitor.
Definition loadFullscreenPlugin := NativeStatusBar.loadFullscreenPlugin Capacitor.

Definition initEdgeToEdge : prog State unit :=
  (if negb isNative then Ret tt
   else
     TRY (await (StatusBar_setOverlaysWebView true) ;;
          (if on_android
           then await (StatusBar_setBackgroundColor "#00000000")
           else Ret tt) ;;
          await (StatusBar_setStyle Style_Dark) ;;
          act (console_log "[StatusBar] Edge-to-edge mode initialized"))
     CATCH error =>
       act (console_log "[StatusBar] Failed to init edge-to-edge:"))%prog.

Definition exitImmersiveFullscreen : prog State unit :=
  (if negb isNative then Ret tt
   else
     TRY (let fallback :=
            await StatusBar_show ;;
            act (console_log
              "[StatusBar] Exited immersive mode - status bar shown") in
          if on_android then
            Fullscreen <- loadFullscreenPlugin ;;
            if Fullscreen then
              (TRY (await Fullscreen_deactivateImmersiveMode ;;
                    act (console_log
                      "[StatusBar] Exited immersive mode via fullscreen plugin"))
               CATCH e =>
                 act (console_log
                   "[StatusBar] Fullscreen plugin exit call failed:")) ;;
              sleep 100 ;;
              initEdgeToEdge
            else fallback
          else fallback)
     CATCH error =>
       act (console_log "[StatusBar] Failed to exit immersive mode:"))%prog.

Definition showStatusBar : prog State unit :=
  (if negb isNative then Ret tt
   else
     TRY (let fallback :=
            await StatusBar_show ;;
            act (console_log "[StatusBar] Status bar shown") in
          if on_android then
            Fullscreen <- loadFullscreenPlugin ;;
            if Fullscreen then
              (TRY (await Fullscreen_deactivateImmersiveMode ;;
                    act (console_log
                      "[StatusBar] Deactivated immersive mode (shows all system bars)"))
               CATCH e =>
                 act (console_log "[StatusBar] Deactivate immersive call failed:")) ;;
              sleep 100 ;;
              initEdgeToEdge
            else fallback
          else fallback)
     CATCH error =>
       act (console_log "[StatusBar] Failed to show status bar:"))%prog.

(** The remaining exports read the same as in [NativeStatusBar]. *)
Definition enterImmersiveFullscreen :=
  NativeStatusBar.enterImmersiveFullscreen Capacitor.
Definition hideStatusBar := NativeStatusBar.hideStatusBar Capacitor.
Definition setStatusBarOverlay := NativeStatusBar.setStatusBarOverlay Capacitor.
Definition setStatusBarStyle := NativeStatusBar.setStatusBarStyle Capacitor.
Definition setStatusBarBackgroundColor :=
  NativeStatusBar.setStatusBarBackgroundColor Capacitor.

End WithPlatform.
End NativeStatusBarEdge.

(* ===================================================================== *)
(** ** hooks/useImmersiveMode.tsx *)
(* ===================================================================== *)

Module ImmersiveMode.
Section WithPlatform.

Variable Capacitor : CapacitorEnv.

Definition State := NativeStatusBar.State.

(** The [if]/[else if] chain over the vendor-prefixed request methods,
    called without options. *)
Definition request_chain (target : Element) : prog State unit :=
  if has_requestFullscreen target then
    await (requestFullscreen (elementId target) m_requestFullscreen None)
  else if has_webkitRequestFullscreen target then
    await (requestFullscreen (elementId target) m_webkitRequestFullscreen None)
  else if has_mozRequestFullScreen target then
    await (requestFullscreen (elementId target) m_mozRequestFullScreen None)
  else if has_msRequestFullscreen target then
    await (requestFullscreen (elementId target) m_msRequestFullscreen None)
  else Ret tt.

(** The exit chain: [document.fullscreenElement] decides the first
    branch, method presence the others. *)
Definition exit_chain (document : Document) : prog State unit :=
  if fullscreenElement document then await (exitFullscreen m_exitFullscreen)
  else if has_webkitExitFullscreen document then
    await (exitFullscreen m_webkitExitFullscreen)
  else if has_mozCancelFullScreen document then
    await (exitFullscreen m_mozCancelFullScreen)
  else if has_msExitFullscreen document then
    await (exitFullscreen m_msExitFullscreen)
  else Ret tt.

Definition enterImmersiveMode (document : Document)
           (element : option Element) : prog State unit :=
  (let isNative := isNativePlatform Capacitor in
   (if isNative then
      TRY (NativeStatusBar.enterImmersiveFullscreen Capacitor)
      CATCH error =>
        act (console_log "[Immersive] Native immersive failed, using fallback:")
    else Ret tt) ;;
   (TRY (let target :=
           match element with
           | Some el => el
           | None => documentElement document
           end in
         request_chain target ;;
         act (console_log "[Immersive] Entered immersive mode via Fullscreen API"))
    CATCH error =>
      act (console_log "[Immersive] Fullscreen not supported or blocked:")))%prog.

Definition exitImmersiveMode (document : Document) : prog State unit :=
  (let isNative := isNativePlatform Capacitor in
   (if isNative then
      TRY (NativeStatusBar.exitImmersiveFullscreen Capacitor)
      CATCH error => act (console_log "[Immersive] Native exit failed:")
    else Ret tt) ;;
   (TRY (exit_chain document ;;
         act (console_log "[Immersive] Exited immersive mode"))
    CATCH error => act (console_log "[Immersive] Exit fullscreen failed:")))%prog.

Definition isInImmersiveMode (document : Document) : bool :=
  fullscreenElement document || webkitFullscreenElement document
  || mozFullScreenElement document || msFullscreenElement document.

(** STEP 4 of [enterVideoFullscreen]: the request on the container,
    first with [{ navigationUI: 'hide' }] and, if that throws, without
    options. *)
Definition request_on_container (container : Element) : prog State unit :=
  (TRY ((if has_requestFullscreen container then
           TRY (await (requestFullscreen (elementId container)
                         m_requestFullscreen (Some "hide")))
           CATCH e =>
             await (requestFullscreen (elementId container)
                      m_requestFullscreen None)
         else if has_webkitRequestFullscreen container then
           await (requestFullscreen (elementId container)
                    m_webkitRequestFullscreen None)
         else if has_mozRequestFullScreen container then
           await (requestFullscreen (elementId container)
                    m_mozRequestFullScreen None)
         else if has_msRequestFullscreen container then
           await (requestFullscreen (elementId container)
                    m_msRequestFullscreen None)
         else Ret tt) ;;
        act (console_log "[Immersive] Video fullscreen entered successfully"))
   CATCH error =>
     act (console_error "[Immersive] Failed to enter video fullscreen:"))%prog.

(** [withCallback] tells whether the caller passed the optional
    [onOrientationLocked]; the callback itself is the caller's code and
    is embedded as the external call [onOrientationLocked]. *)
Definition enterVideoFullscreen (container : Element) (withCallback : bool)
  : prog State unit :=
  (let isNative := isNativePlatform Capacitor in
   (if isNative then
      (if withCallback then
         await onOrientationLocked ;;
         sleep 150
       else Ret tt) ;;
      NativeStatusBar.hideStatusBar Capacitor ;;
      sleep 50
    else Ret tt) ;;
   request_on_container container)%prog.

Definition exitVideoFullscreen (document : Document) (withCallback : bool)
  : prog State unit :=
  (let isNative := isNativePlatform Capacitor in
   (TRY (exit_chain document)
    CATCH error => act (console_log "[Immersive] Exit fullscreen error:")) ;;
   (if isNative then
      sleep 100 ;;
      NativeStatusBar.showStatusBar Capacitor ;;
      (if withCallback then
         sleep 50 ;;
         await onOrientationUnlocked
       else Ret tt)
    else Ret tt) ;;
   act (console_log "[Immersive] Video fullscreen exited successfully"))%prog.

End WithPlatform.
End ImmersiveMode.

(* ===================================================================== *)
(** ** hooks/useFullscreenState.tsx *)
(* ===================================================================== *)

Module FullscreenState.

(** [let globalIsFullscreen = false; const listeners = new Set();]
    Listeners are named by numbers; the set keeps insertion order and
    holds no duplicates. *)
Record State := mkState {
  globalIsFullscreen : bool;
  listeners : list nat
}.
Definition initial : State :=
  {| globalIsFullscreen := false; listeners := [] |}.

Definition getGlobalFullscreenState : prog State bool :=
  (s <- get ;; Ret (globalIsFullscreen s))%prog.

Fixpoint forEach_listener (ls : list nat) (value : bool) : prog State unit :=
  match ls with
  | [] => Ret tt
  | listener :: rest =>
      Act (notify_listener listener value) (forEach_listener rest value)
  end.

Definition setGlobalFullscreenState (value : bool) : prog State unit :=
  (s <- get ;;
   put {| globalIsFullscreen := value; listeners := listeners s |} ;;
   forEach_listener (listeners s) value)%prog.

(** [listeners.add(listener)] in the effect of [useFullscreenState]. *)
Definition listeners_add (listener : nat) : prog State unit :=
  (s <- get ;;
   put {| globalIsFullscreen := globalIsFullscreen s;
          listeners :=
            if existsb (Nat.eqb listener) (listeners s) then listeners s
            else listeners s ++ [listener] |})%prog.

(** [listeners.delete(listener)] in its cleanup. *)
Definition listeners_delete (listener : nat) : prog State unit :=
  (s <- get ;;
   put {| globalIsFullscreen := globalIsFullscreen s;
          listeners :=
            filter (fun l => negb (Nat.eqb listener l)) (listeners s) |})%prog.

(** [useState(globalIsFullscreen)]: the value a newly mounted
    subscriber starts from. *)
Definition useFullscreenState_initial : prog State bool :=
  getGlobalFullscreenState.

Definition toggleFullscreen {St} (document : Document)
           (element : option Element) : prog St bool :=
  (let target :=
     match element with
     | Some el => el
     | None => documentElement document
     end in
   let isCurrentlyFullscreen :=
     fullscreenElement document
     || webkitFullscreenElement document
     || mozFullScreenElement document in
   TRY (if isCurrentlyFullscreen then
          (if has_exitFullscreen document then
             await (exitFullscreen m_exitFullscreen)
           else if has_webkitExitFullscreen document then
             await (exitFullscreen m_webkitExitFullscreen)
           else Ret tt) ;;
          Ret false
        else
          (if has_requestFullscreen target then
             await (requestFullscreen (elementId target)
                      m_requestFullscreen None)
           else if has_webkitRequestFullscreen target then
             await (requestFullscreen (elementId target)
                      m_webkitRequestFullscreen None)
           else Ret tt) ;;
          Ret true)
   CATCH error =>
     (act (console_log "Fullscreen toggle failed:") ;;
      Ret isCurrentlyFullscreen))%prog.

End FullscreenState.

(* ===================================================================== *)
(** ** hooks/useExoPlayer.tsx *)
(* ===================================================================== *)

Module ExoPlayer.
Section WithPlatform.

Variable Capacitor : CapacitorEnv.

(** The built-in [encodeURIComponent]; [None] is the [URIError] it
    throws on a malformed string. *)
Variable encodeURIComponent : string -> option string.

Definition URIError : Error := {| message := "URI malformed" |}.

Definition isExoPlayerAvailable : bool :=
  isNativePlatform Capacitor && String.eqb (getPlatform Capacitor) "android".

Definition playWithExoPlayer {St} (videoUrl : string)
           (title subtitle : option string) : prog St bool :=
  (if negb (isNativePlatform Capacitor) then
     act (console_log "Not a native app, cannot use ExoPlayer") ;;
     Ret false
   else
     TRY (let platform := getPlatform Capacitor in
          if String.eqb platform "android" then
            (* const intentUrl = `intent://${encodeURIComponent(videoUrl)}...` *)
            match encodeURIComponent videoUrl,
                  encodeURIComponent
                    (or_string
                       (match title with Some t => t | None => "" end)
                       "Video") with
            | Some _, Some _ =>
                TRY (await (Browser_open
                              {| url := videoUrl;
                                 presentationStyle := Some "fullscreen";
                                 toolbarColor := Some "#000000" |}) ;;
                     Ret true)
                CATCH intentError =>
                  (act (console_log "Intent failed, using browser:") ;;
                   await (Browser_open
                            {| url := videoUrl;
                               presentationStyle := None;
                               toolbarColor := None |}) ;;
                   Ret true)
            | _, _ => Throw URIError
            end
          else if String.eqb platform "ios" then
            await (Browser_open
                     {| url := videoUrl;
                        presentationStyle := Some "fullscreen";
                        toolbarColor := None |}) ;;
            Ret true
          else Ret false)
     CATCH error =>
       (act (console_error "Error opening video with native player:") ;;
        Ret false))%prog.

End WithPlatform.
End ExoPlayer.

(* ===================================================================== *)
(** ** Membership purchase: components/MobileVIPPanel.tsx and the
       Subscriptions page *)
(* ===================================================================== *)

Record MembershipPlan := mkPlan {
  plan_id : string;
  plan_name : string;
  price : number
}.

Record User := mkUser { user_id : string }.

Definition purchase_rpc (user : User) (plan : MembershipPlan) : label :=
  supabase_rpc "purchase_membership_with_wallet"
    {| p_user_id := user_id user;
       p_plan_id := plan_id plan;
       p_amount := price plan |}.

(** The handlers close over the component state of the current render
    ([selectedPlan], [user], [walletBalance]); state setters and the
    un-awaited refreshes are local actions.  The formatted toast
    descriptions are left out. *)
Module MobileVIPPanel.

Definition handlePurchase (selectedPlan : option MembershipPlan)
           (user : option User) (walletBalance : number) : prog unit unit :=
  match selectedPlan, user with
  | Some plan, Some u =>
      (if lt walletBalance (price plan) then
         act (toast "Insufficient Balance" destructive)
       else
         act (setState "processingPurchase" "true") ;;
         try_finally
           (TRY (error <- await (purchase_rpc u plan) ;;
                 match error with
                 | Some err => Throw err
                 | None =>
                     act (toast "VIP Activated!" default_variant) ;;
                     act (onOpenChange false) ;;
                     act (setState "selectedPlan" "null") ;;
                     act (spawn "fetchWalletBalance") ;;
                     act (spawn "checkCurrentMembership")
                 end)
            CATCH error =>
              (act (console_error "Error subscribing:") ;;
               act (toast "Failed" destructive)))
           (act (setState "processingPurchase" "false")))%prog
  | _, _ => Ret tt
  end.

End MobileVIPPanel.

Module Subscriptions.

Definition handleConfirmPurchase (confirmPlanDetails : option MembershipPlan)
           (user : option User) (walletBalance : number) : prog unit unit :=
  match confirmPlanDetails, user with
  | Some plan, Some u =>
      (act (setState "selectedPlan" (plan_id plan)) ;;
       try_finally
         (TRY (if lt walletBalance (price plan) then
                 act (toast "Insufficient Balance" destructive) ;;
                 act (setState "selectedPlan" "null") ;;
                 act (setState "confirmDialogOpen" "false") ;;
                 act (navigate "/dashboard")
               else
                 error <- await (purchase_rpc u plan) ;;
                 match error with
                 | Some err => Throw err
                 | None =>
                     act (toast "Subscription Successful!" default_variant) ;;
                     act (setState "confirmDialogOpen" "false") ;;
                     act (spawn "checkCurrentMembership") ;;
                     act (spawn "fetchWalletBalance")
                 end)
          CATCH error =>
            (act (console_error "Error subscribing:") ;;
             act (toast "Subscription Failed" destructive)))
         (act (setState "selectedPlan" "null")))%prog
  | _, _ => Ret tt
  end.

End Subscriptions.

(** What a purchase handler does, in terms of the balance check. *)
Definition purchase_behaviour (handler : prog unit unit)
           (user : User) (plan : MembershipPlan) (walletBalance : number)
           (w : oracle) (n : nat) : Prop :=
  let tr := trace_of (exec handler w n tt) in
  ((price plan <= walletBalance)%Q ->
   calls tr = [purchase_rpc user plan])
  /\ ((walletBalance < price plan)%Q ->
      calls tr = []
      /\ In (EAct (toast "Insufficient Balance" destructive)) tr).

(* ===================================================================== *)
(** ** The native banner ad slot component (viewport-driven show/hide) *)
(* ===================================================================== *)

Module NativeBannerAdSlot.

Record AdMobSettings := mkAdMobSettings {
  settings_enabled : bool;
  settings_test_mode : bool
}.

Record AdConfig := mkAdConfig { ad : AppAd; settings : AdMobSettings }.

(** The [useState] cells the visibility effect depends on. *)
Record Slot := mkSlot {
  isNative : bool;
  adConfig : option AdConfig;
  bannerShown : bool;
  isInView : bool
}.

(** Mount: nothing known yet. *)
Definition mounted : Slot :=
  {| isNative := false; adConfig := None;
     bannerShown := false; isInView := false |}.

Section Fetch.

(** The platform and the [placement] prop. *)
Variable Capacitor : CapacitorEnv.
Variable placement : string.

(** Fetch web ad as fallback. *)
Definition fetchWebAd : prog unit unit :=
  (try_finally
     (TRY (data <- await (select_web_ad placement) ;;
           match data with
           | Some ad_code => act (setState "webAdCode" ad_code)
           | None => Ret tt
           end)
      CATCH error =>
        act (console_log "[NativeBannerAd] Could not fetch web ad for placement:"))
     (act (setState "isLoading" "false")))%prog.

(** [rawSettings?.enabled ?? true] and [rawSettings?.test_mode ?? true] *)
Definition settings_of (settingsData : option SettingRow) : AdMobSettings :=
  let rawSettings :=
    match settingsData with
    | Some row => setting_value row
    | None => None
    end in
  {| settings_enabled :=
       match rawSettings with
       | Some {| sv_enabled := Some b |} => b
       | _ => true
       end;
     settings_test_mode :=
       match rawSettings with
       | Some {| sv_test_mode := Some b |} => b
       | _ => true
       end |}.

(** Fetch the native configuration; [fetchWebAd()] is called without
    [await], its query is taken to run where it is called. *)
Definition fetchAdConfig : prog unit unit :=
  (try_finally
     (TRY (let platform := getPlatform Capacitor in
           adsData <- await (select_slot_ad placement platform) ;;
           settingsData <- await select_global_settings ;;
           let settings := settings_of settingsData in
           match adsData with
           | Some adRow =>
               if settings_enabled settings then
                 act (setState "adConfig" (ad_name adRow)) ;;
                 act (console_log "[NativeBannerAd] Loaded config for placement:")
               else
                 act (console_log "[NativeBannerAd] No active ad found for placement:") ;;
                 fetchWebAd
           | None =>
               act (console_log "[NativeBannerAd] No active ad found for placement:") ;;
               fetchWebAd
           end)
      CATCH error =>
        (act (console_error "[NativeBannerAd] Error fetching config:") ;;
         fetchWebAd))
     (act (setState "isLoading" "false")))%prog.

(** The mount effect: [setIsNative(native)], then one of the fetches. *)
Definition mount_effect : prog unit unit :=
  (let native := isNativePlatform Capacitor in
   act (setState "isNative" (if native then "true" else "false")) ;;
   if native then fetchAdConfig else fetchWebAd)%prog.

End Fetch.

(** An SDK call that has been issued and has not settled yet, with the
    rest of the async function that awaits it. *)
Inductive pending :=
| InFlight (l : label) (k : result (resp l) -> prog unit unit).

Definition label_of (p : pending) : label :=
  match p with InFlight l _ => l end.

(** The mounted component: its state cells, the SDK calls in flight and
    every SDK call issued so far. *)
Record Component := mkComponent {
  slot : Slot;
  inflight : list pending;
  invoked : list label
}.

Definition with_slot (st : Slot) (c : Component) : Component :=
  {| slot := st; inflight := inflight c; invoked := invoked c |}.

Definition set_bannerShown (b : bool) (st : Slot) : Slot :=
  {| isNative := isNative st; adConfig := adConfig st;
     bannerShown := b; isInView := isInView st |}.

Definition apply_setter (a : action) (st : Slot) : Slot :=
  match a with
  | setBannerShown b => set_bannerShown b st
  | _ => st
  end.

(** An async function runs synchronously up to its first [await] of an
    SDK call; state setters on the way are applied to the next render's
    state.  An exception that escapes an un-awaited call is dropped. *)
Fixpoint run_until_await (p : prog unit unit) (st : Slot)
  : Slot * option pending :=
  match p with
  | Ret _ => (st, None)
  | Throw _ => (st, None)
  | Act a k => run_until_await k (apply_setter a st)
  | Call l k => (st, Some (InFlight l k))
  | Get k => run_until_await (k tt) st
  | Put _ k => run_until_await k st
  end.

(** Call an async function without awaiting it. *)
Definition start (p : prog unit unit) (c : Component) : Component :=
  match run_until_await p (slot c) with
  | (st, Some (InFlight l k)) =>
      {| slot := st;
         inflight := inflight c ++ [InFlight l k];
         invoked := invoked c ++ [l] |}
  | (st, None) => with_slot st c
  end.

Section Render.

(** The [position] prop and whether [getAdMobPlugin()] finds the plugin. *)
Variable slotPosition : Position.
Variable pluginAvailable : bool.

(** [showBanner] as created by the render with state [st]. *)
Definition showBanner (st : Slot) : prog unit unit :=
  match adConfig st with
  | None => Ret tt
  | Some cfg =>
      if bannerShown st || negb (isInView st) then Ret tt
      else if negb pluginAvailable then
        act (console_log "[NativeBannerAd] AdMob plugin not available")
      else
        (TRY (let useTestMode :=
                settings_test_mode (settings cfg)
                || is_test_mode (ad cfg) in
              let adPosition :=
                match slotPosition with
                | top => TOP_CENTER
                | bottom => BOTTOM_CENTER
                end in
              await (AdMob_showBanner
                       {| adId := ad_unit_id (ad cfg);
                          adSize := ADAPTIVE_BANNER;
                          position := adPosition;
                          margin := None;
                          isTesting := useTestMode |}) ;;
              act (setBannerShown true) ;;
              act (console_log "[NativeBannerAd] Banner shown for placement:"))
         CATCH error =>
           act (console_error "[NativeBannerAd] Failed to show banner:"))%prog
  end.

(** [hideBanner] as created by the render with state [st]. *)
Definition hideBanner (st : Slot) : prog unit unit :=
  if negb (bannerShown st) then Ret tt
  else if negb pluginAvailable then Ret tt
  else
    (TRY (await AdMob_hideBanner ;;
          act (setBannerShown false) ;;
          act (console_log "[NativeBannerAd] Banner hidden"))
     CATCH error =>
       act (console_error "[NativeBannerAd] Failed to hide banner:"))%prog.

(** The show/hide effect. *)
Definition visibility_effect (st : Slot) : prog unit unit :=
  if negb (isNative st) || match adConfig st with None => true | _ => false end
  then Ret tt
  else if isInView st then showBanner st
  else if bannerShown st then hideBanner st
  else Ret tt.

(** The show/hide effect of the render with state [slot c]; the two
    callbacks are called without [await]. *)
Definition run_effect (c : Component) : Component :=
  start (visibility_effect (slot c)) c.

(** The intersection observer's callback: [setIsInView(isVisible)].
    Setting the value it already has does not re-render. *)
Definition onIntersection (isVisible : bool) (c : Component) : Component :=
  if Bool.eqb isVisible (isInView (slot c)) then c
  else
    run_effect
      (with_slot
         {| isNative := isNative (slot c); adConfig := adConfig (slot c);
            bannerShown := bannerShown (slot c); isInView := isVisible |} c).

(** [fetchAdConfig] found an active ad on a native platform:
    [setIsNative(true)] and [setAdConfig(...)]. *)
Definition onConfigLoaded (cfg : AdConfig) (c : Component) : Component :=
  run_effect
    (with_slot
       {| isNative := true; adConfig := Some cfg;
          bannerShown := bannerShown (slot c);
          isInView := isInView (slot c) |} c).

(** The [i]-th SDK call in flight settles with the environment's answer:
    the async function behind it resumes, and the effect runs again when
    a setter changed the banner flag. *)
Definition onSettled (i : nat) (w : oracle) (c : Component) : Component :=
  match nth_error (inflight c) i with
  | None => c
  | Some (InFlight l k) =>
      let c1 :=
        start (k (w i l))
          {| slot := slot c;
             inflight := firstn i (inflight c) ++ skipn (S i) (inflight c);
             invoked := invoked c |} in
      if Bool.eqb (bannerShown (slot c1)) (bannerShown (slot c)) then c1
      else run_effect c1
  end.

End Render.

(** States the component can be in: after mount, any interleaving of
    configuration loads, observer callbacks and settling SDK calls. *)
Inductive reachable (position : Position) (pluginAvailable : bool)
  : Component -> Prop :=
| reach_mounted :
    reachable position pluginAvailable
      {| slot := mounted; inflight := []; invoked := [] |}
| reach_config c cfg :
    reachable position pluginAvailable c ->
    reachable position pluginAvailable
      (onConfigLoaded position pluginAvailable cfg c)
| reach_observe c b :
    reachable position pluginAvailable c ->
    reachable position pluginAvailable
      (onIntersection position pluginAvailable b c)
| reach_settle c i w :
    reachable position pluginAvailable c ->
    reachable position pluginAvailable
      (onSettled position pluginAvailable i w c).

(** What resuming a pending call does to the slot. *)
Definition resumes_to (p : pending) (after : bool -> Slot -> Slot) : Prop :=
  match p with
  | InFlight l k =>
      forall r st, run_until_await (k r) st = (after (succeeded l r) st, None)
  end.

(** A pending [hideBanner]: clears the flag when the call succeeds. *)
Definition hide_like (p : pending) : Prop :=
  label_of p = AdMob_hideBanner
  /\ resumes_to p (fun ok st => if ok then set_bannerShown false st else st).

(** A pending [showBanner]: sets the flag when the call succeeds. *)
Definition show_like (p : pending) : Prop :=
  (exists options, label_of p = AdMob_showBanner options)
  /\ resumes_to p (fun ok st => if ok then set_bannerShown true st else st).

(** The options [showBanner] passes to the SDK for a configuration. *)
Definition banner_options (slotPosition : Position) (cfg : AdConfig)
  : BannerAdOptions :=
  {| adId := ad_unit_id (ad cfg);
     adSize := ADAPTIVE_BANNER;
     position := match slotPosition with
                 | top => TOP_CENTER
                 | bottom => BOTTOM_CENTER
                 end;
     margin := None;
     isTesting := settings_test_mode (settings cfg) || is_test_mode (ad cfg) |}.

(** What holds of every reachable component: the calls in flight are
    hides and shows, the banner is shown or being shown only with a
    configuration, and a configuration is only loaded on a native
    platform. *)
Definition well_formed (c : Component) : Prop :=
  Forall (fun p => hide_like p \/ show_like p) (inflight c)
  /\ (bannerShown (slot c) = true \/ Exists show_like (inflight c) ->
      adConfig (slot c) <> None)
  /\ (adConfig (slot c) <> None -> isNative (slot c) = true).

End NativeBannerAdSlot.

(* ===================================================================== *)
(** ** Sessions, the exported surface, and properties of command trees *)
(* ===================================================================== *)

Module Session.

(** Calls made one after the other, each awaited before the next
    starts, on the same module state. *)
Fixpoint run_many {St R} (ps : list (prog St R)) (w : oracle) (n : nat)
         (s : St) : trace * St :=
  match ps with
  | [] => ([], s)
  | p :: rest =>
      let '(tr, s', _) := exec p w n s in
      let '(tr2, s2) := run_many rest w (n + List.length (calls tr)) s' in
      (tr ++ tr2, s2)
  end.

(** How often the ad SDK's [initialize] was invoked, and how often it
    succeeded. *)
Definition is_initialize (l : label) : bool :=
  match l with AdMob_initialize _ => true | _ => false end.

Definition initialize_calls (tr : trace) : nat :=
  List.length (filter is_initialize (calls tr)).

Definition initialize_successes (tr : trace) : nat :=
  List.length (filter is_initialize (calls_ok tr)).

(** Whether some [initialize] of the trace succeeded. *)
Definition initialized_in (tr : trace) : bool :=
  existsb is_initialize (calls_ok tr).

(** How many [initialize] invocations happen once one has succeeded;
    [done] tells whether one succeeded before the trace starts. *)
Fixpoint initialize_after_success (done : bool) (tr : trace) : nat :=
  match tr with
  | [] => 0
  | EAct _ :: tr' => initialize_after_success done tr'
  | ECall l ok :: tr' =>
      (if is_initialize l && done then 1 else 0)
      + initialize_after_success (done || (is_initialize l && ok)) tr'
  end.

End Session.

Module Surface.

(** A function body together with its state and result types. *)
Record wrapper := Wrap {
  wSt : Type;
  wR : Type;
  body : prog wSt wR
}.
Arguments Wrap {wSt wR} body.

(** The exported wrappers around the ad SDK, the status-bar and
    fullscreen plugins and immersive mode, and the purchase handlers. *)
Inductive exported (cap : CapacitorEnv) : wrapper -> Prop :=
(* services/admobService.ts *)
| ex_initializeAdMob : exported cap (Wrap (AdmobService.initializeAdMob cap))
| ex_showBannerAd p : exported cap (Wrap (AdmobService.showBannerAd cap p))
| ex_hideBannerAd : exported cap (Wrap (AdmobService.hideBannerAd cap))
| ex_showInterstitialAd :
    exported cap (Wrap (AdmobService.showInterstitialAd cap))
| ex_showRewardedAd : exported cap (Wrap (AdmobService.showRewardedAd cap))
| ex_setTestDeviceIds ids :
    exported cap (Wrap (AdmobService.setTestDeviceIds cap ids))
(* the dashboard-driven ad service *)
| ex_d_initializeAdMob :
    exported cap (Wrap (AdmobDashboard.initializeAdMob cap))
| ex_d_showBannerAd p pl :
    exported cap (Wrap (AdmobDashboard.showBannerAd cap p pl))
| ex_d_hideBannerAd : exported cap (Wrap (AdmobDashboard.hideBannerAd cap))
| ex_d_showInterstitialAd pl :
    exported cap (Wrap (AdmobDashboard.showInterstitialAd cap pl))
| ex_d_showRewardedAd pl :
    exported cap (Wrap (AdmobDashboard.showRewardedAd cap pl))
| ex_d_refreshAdSettings :
    exported cap (Wrap (AdmobDashboard.refreshAdSettings cap))
(* hooks/useNativeStatusBar.tsx *)
| ex_enterImmersiveFullscreen :
    exported cap (Wrap (NativeStatusBar.enterImmersiveFullscreen cap))
| ex_exitImmersiveFullscreen :
    exported cap (Wrap (NativeStatusBar.exitImmersiveFullscreen cap))
| ex_hideStatusBar : exported cap (Wrap (NativeStatusBar.hideStatusBar cap))
| ex_showStatusBar : exported cap (Wrap (NativeStatusBar.showStatusBar cap))
| ex_setStatusBarOverlay o :
    exported cap (Wrap (NativeStatusBar.setStatusBarOverlay cap o))
| ex_setStatusBarStyle st :
    exported cap (Wrap (NativeStatusBar.setStatusBarStyle cap st))
| ex_setStatusBarBackgroundColor c :
    exported cap (Wrap (NativeStatusBar.setStatusBarBackgroundColor cap c))
(* its edge-to-edge variant *)
| ex_e_initEdgeToEdge :
    exported cap (Wrap (NativeStatusBarEdge.initEdgeToEdge cap))
| ex_e_exitImmersiveFullscreen :
    exported cap (Wrap (NativeStatusBarEdge.exitImmersiveFullscreen cap))
| ex_e_showStatusBar :
    exported cap (Wrap (NativeStatusBarEdge.showStatusBar cap))
(* hooks/useImmersiveMode.tsx *)
| ex_enterImmersiveMode d el :
    exported cap (Wrap (ImmersiveMode.enterImmersiveMode cap d el))
| ex_exitImmersiveMode d :
    exported cap (Wrap (ImmersiveMode.exitImmersiveMode cap d))
| ex_enterVideoFullscreen c cb :
    exported cap (Wrap (ImmersiveMode.enterVideoFullscreen cap c cb))
| ex_exitVideoFullscreen d cb :
    exported cap (Wrap (ImmersiveMode.exitVideoFullscreen cap d cb))
(* the purchase handlers *)
| ex_handlePurchase plan user balance :
    exported cap (Wrap (MobileVIPPanel.handlePurchase plan user balance))
| ex_handleConfirmPurchase plan user balance :
    exported cap
      (Wrap (Subscriptions.handleConfirmPurchase plan user balance)).

(** Every embedded function that calls a collaborator: the exported
    wrappers, the player and fullscreen toggles, and the ad slot's
    fetch, show and hide functions. *)
Inductive external_caller (cap : CapacitorEnv)
          (encodeURIComponent : string -> option string)
  : wrapper -> Prop :=
| ec_exported q : exported cap q -> external_caller cap encodeURIComponent q
| ec_playWithExoPlayer videoUrl title subtitle :
    external_caller cap encodeURIComponent
      (Wrap (ExoPlayer.playWithExoPlayer (St := unit) cap encodeURIComponent
               videoUrl title subtitle))
| ec_toggleFullscreen d el :
    external_caller cap encodeURIComponent
      (Wrap (FullscreenState.toggleFullscreen (St := unit) d el))
| ec_slot_fetchAdConfig placement :
    external_caller cap encodeURIComponent
      (Wrap (NativeBannerAdSlot.fetchAdConfig cap placement))
| ec_slot_fetchWebAd placement :
    external_caller cap encodeURIComponent
      (Wrap (NativeBannerAdSlot.fetchWebAd placement))
| ec_slot_showBanner pos plugin st :
    external_caller cap encodeURIComponent
      (Wrap (NativeBannerAdSlot.showBanner pos plugin st))
| ec_slot_hideBanner plugin st :
    external_caller cap encodeURIComponent
      (Wrap (NativeBannerAdSlot.hideBanner plugin st)).

(** No path through the tree ends in [Throw]. *)
Fixpoint never_throws {St R} (p : prog St R) : Prop :=
  match p with
  | Ret _ => True
  | Throw _ => False
  | Act _ k => never_throws k
  | Call l k => forall r, never_throws (k r)
  | Get k => forall s, never_throws (k s)
  | Put _ k => never_throws k
  end.

(** The calls of a trace whose method had already failed earlier in it. *)
Fixpoint reattempted_from (failed : list method) (tr : trace) : list label :=
  match tr with
  | [] => []
  | EAct _ :: tr' => reattempted_from failed tr'
  | ECall l ok :: tr' =>
      (if existsb (method_eqb (method_of l)) failed then [l] else [])
      ++ reattempted_from (if ok then failed else method_of l :: failed) tr'
  end.

Definition reattempted (tr : trace) : list label := reattempted_from [] tr.

(** The fallback calls: the option-less [requestFullscreen()], the bare
    [Browser.open({ url })] and the ad slot's web-ad query. *)
Definition is_fallback (l : label) : bool :=
  match l with
  | requestFullscreen _ m_requestFullscreen None => true
  | Browser_open {| presentationStyle := None; toolbarColor := None |} => true
  | select_web_ad _ => true
  | _ => false
  end.

(** On every path, a method that has failed is called again at most
    [budget] times, and only through a fallback call. *)
Fixpoint fallback_only {St R} (failed : list method) (budget : nat)
         (p : prog St R) : Prop :=
  match p with
  | Ret _ => True
  | Throw _ => True
  | Act _ k => fallback_only failed budget k
  | Call l k =>
      if existsb (method_eqb (method_of l)) failed then
        is_fallback l = true
        /\ match budget with
           | O => False
           | S b =>
               forall r,
                 fallback_only
                   (if succeeded l r then failed else method_of l :: failed)
                   b (k r)
           end
      else
        forall r,
          fallback_only
            (if succeeded l r then failed else method_of l :: failed)
            budget (k r)
  | Get k => forall s, fallback_only failed budget (k s)
  | Put _ k => fallback_only failed budget k
  end.

End Surface.
Import Surface.

(** Concrete inputs used in the examples below. *)
Definition sample_container : Element :=
  {| elementId := "player";
     has_requestFullscreen := true;
     has_webkitRequestFullscreen := false;
     has_mozRequestFullScreen := false;
     has_msRequestFullscreen := false |}.

Definition android : CapacitorEnv :=
  {| isNativePlatform := true; getPlatform := "android" |}.

Definition sample_config : NativeBannerAdSlot.AdConfig :=
  {| NativeBannerAdSlot.ad :=
       {| ad_name := "watch banner"; ad_type := "banner";
          ad_unit_id := "ca-app-pub-3940256099942544/6300978111";
          ad_placement := "watch_screen_bottom_banner";
          is_active := true; is_test_mode := false |};
     NativeBannerAdSlot.settings :=
       {| NativeBannerAdSlot.settings_enabled := true;
          NativeBannerAdSlot.settings_test_mode := true |} |}.

(** The slot after its configuration loaded, the observer reported it
    in view and the SDK's [showBanner] resolved: the banner is up. *)
Definition slot_with_banner : NativeBannerAdSlot.Component :=
  NativeBannerAdSlot.onSettled bottom true 0 all_ok
    (NativeBannerAdSlot.onIntersection bottom true true
       (NativeBannerAdSlot.onConfigLoaded bottom true sample_config
          {| NativeBannerAdSlot.slot := NativeBannerAdSlot.mounted;
             NativeBannerAdSlot.inflight := [];
             NativeBannerAdSlot.invoked := [] |})).

(* ===================================================================== *)
(** * Further parts of the front-end *)
(* ===================================================================== *)

From Stdlib Require Import Lqa.

(** [Math.max] and [Math.min] on finite numbers. *)
Module JsMath.

Definition Math_max (a b : number) : number := if lt a b then b else a.
Definition Math_min (a b : number) : number := if lt b a then b else a.

End JsMath.

(* ===================================================================== *)
(** ** hooks/useFullscreenState.tsx: [useIframeFullscreenHandler] *)
(* ===================================================================== *)

Module IframeFullscreenHandler.

Definition handleEnterFullscreen : prog FullscreenState.State unit :=
  (act (setState "isFullscreen" "true") ;;
   FullscreenState.setGlobalFullscreenState true ;;
   act (console_log "[PWA] Fullscreen entered"))%prog.

Definition handleExitFullscreen : prog FullscreenState.State unit :=
  (act (setState "isFullscreen" "false") ;;
   FullscreenState.setGlobalFullscreenState false ;;
   act (console_log "[PWA] Fullscreen exited"))%prog.

(** The listener of the three [fullscreenchange] events. *)
Definition handleFullscreenChange (document : Document)
  : prog FullscreenState.State unit :=
  let isInFullscreen :=
    fullscreenElement document
    || webkitFullscreenElement document
    || mozFullScreenElement document in
  if isInFullscreen then handleEnterFullscreen else handleExitFullscreen.

End IframeFullscreenHandler.

(* ===================================================================== *)
(** ** hooks/useAdMob.tsx, driven by the dashboard settings *)
(* ===================================================================== *)

Module AdMobHook.
Section WithPlatform.

Variable Capacitor : CapacitorEnv.

Definition DEFAULT_TEST_ADS_android_banner :=
  "ca-app-pub-3940256099942544/6300978111".
Definition DEFAULT_TEST_ADS_android_interstitial :=
  "ca-app-pub-3940256099942544/1033173712".
Definition DEFAULT_TEST_ADS_android_rewarded :=
  "ca-app-pub-3940256099942544/5224354917".
Definition DEFAULT_TEST_ADS_ios_banner :=
  "ca-app-pub-3940256099942544/2934735716".
Definition DEFAULT_TEST_ADS_ios_interstitial :=
  "ca-app-pub-3940256099942544/4411468910".
Definition DEFAULT_TEST_ADS_ios_rewarded :=
  "ca-app-pub-3940256099942544/1712485313".

Record AdMobConfig := mkAdMobConfig {
  enabled : bool;
  testMode : bool;
  androidAppId : string;
  iosAppId : string;
  ads : list AppAd
}.

(** The [useState] cells of the hook.  A callback reads the cells of
    the render that created it and writes the cells of the next one. *)
Record Hook := mkHook {
  isInitialized : bool;
  isBannerVisible : bool;
  isInterstitialLoaded : bool;
  isRewardedLoaded : bool;
  config : option AdMobConfig
}.

Definition mounted : Hook :=
  {| isInitialized := false; isBannerVisible := false;
     isInterstitialLoaded := false; isRewardedLoaded := false;
     config := None |}.

Definition setIsInitialized (b : bool) : prog Hook unit :=
  (s <- get ;;
   put {| isInitialized := b; isBannerVisible := isBannerVisible s;
          isInterstitialLoaded := isInterstitialLoaded s;
          isRewardedLoaded := isRewardedLoaded s; config := config s |})%prog.

Definition setIsBannerVisible (b : bool) : prog Hook unit :=
  (s <- get ;;
   put {| isInitialized := isInitialized s; isBannerVisible := b;
          isInterstitialLoaded := isInterstitialLoaded s;
          isRewardedLoaded := isRewardedLoaded s; config := config s |})%prog.

Definition setIsInterstitialLoaded (b : bool) : prog Hook unit :=
  (s <- get ;;
   put {| isInitialized := isInitialized s;
          isBannerVisible := isBannerVisible s;
          isInterstitialLoaded := b;
          isRewardedLoaded := isRewardedLoaded s; config := config s |})%prog.

Definition setIsRewardedLoaded (b : bool) : prog Hook unit :=
  (s <- get ;;
   put {| isInitialized := isInitialized s;
          isBannerVisible := isBannerVisible s;
          isInterstitialLoaded := isInterstitialLoaded s;
          isRewardedLoaded := b; config := config s |})%prog.

Definition getAdUnit (h : Hook) (adType : string) (placement : option string)
  : option string :=
  let platform := NativeApp.getPlatform Capacitor in
  let ios := String.eqb platform "ios" in
  match config h with
  | Some {| ads := (_ :: _) as l |} =>
      match find (AdmobDashboard.ad_matches adType placement) l with
      | Some matchingAd => AdmobDashboard.truthy_string (ad_unit_id matchingAd)
      | None => None
      end
  | _ =>
      if String.eqb adType "banner" then
        Some (if ios then DEFAULT_TEST_ADS_ios_banner
              else DEFAULT_TEST_ADS_android_banner)
      else if String.eqb adType "interstitial" then
        Some (if ios then DEFAULT_TEST_ADS_ios_interstitial
              else DEFAULT_TEST_ADS_android_interstitial)
      else if String.eqb adType "rewarded" then
        Some (if ios then DEFAULT_TEST_ADS_ios_rewarded
              else DEFAULT_TEST_ADS_android_rewarded)
      else None
  end.

(** [config?.testMode ?? true] *)
Definition isTestMode (h : Hook) : bool :=
  match config h with Some c => testMode c | None => true end.

(** [config?.enabled] as a condition. *)
Definition config_enabled (h : Hook) : bool :=
  match config h with Some c => enabled c | None => false end.

Definition initialize (h : Hook) : prog Hook unit :=
  match config h with
  | None => Ret tt
  | Some c =>
      (if negb (NativeApp.isNativeApp Capacitor) || isInitialized h then Ret tt
       else if negb (enabled c) then
         act (console_log "AdMob disabled in settings")
       else
         TRY (await (AdMob_initialize (isTestMode h)) ;;
              setIsInitialized true ;;
              act (console_log "AdMob initialized with settings from dashboard"))
         CATCH error => act (console_error "AdMob init error:"))%prog
  end.

Definition showBanner (h : Hook) (position : Position)
           (placement : option string) : prog Hook unit :=
  (if negb (NativeApp.isNativeApp Capacitor) || negb (isInitialized h)
      || negb (config_enabled h)
   then Ret tt
   else
     match getAdUnit h "banner" placement with
     | None => act (console_log "No banner ad configured for placement:")
     | Some adId =>
         TRY (let options :=
                {| adId := adId;
                   adSize := ADAPTIVE_BANNER;
                   position := match position with
                               | top => TOP_CENTER
                               | bottom => BOTTOM_CENTER
                               end;
                   margin := Some 0%Z;
                   isTesting := isTestMode h |} in
              await (AdMob_showBanner options) ;;
              setIsBannerVisible true)
         CATCH error => act (console_error "Banner error:")
     end)%prog.

Definition hideBanner : prog Hook unit :=
  (if negb (NativeApp.isNativeApp Capacitor) then Ret tt
   else
     TRY (await AdMob_hideBanner ;;
          setIsBannerVisible false)
     CATCH error => act (console_error "Hide banner error:"))%prog.

Definition prepareInterstitial (h : Hook) (placement : option string)
  : prog Hook unit :=
  (if negb (NativeApp.isNativeApp Capacitor) || negb (isInitialized h)
      || negb (config_enabled h)
   then Ret tt
   else
     match getAdUnit h "interstitial" placement with
     | None => act (console_log "No interstitial ad configured for placement:")
     | Some adId =>
         TRY (await (AdMob_prepareInterstitial adId (isTestMode h)) ;;
              setIsInterstitialLoaded true)
         CATCH error => act (console_error "Prepare interstitial error:")
     end)%prog.

(** The [setTimeout] that prepares the next ad is the local action
    [spawn]. *)
Definition showInterstitial (h : Hook) (placement : option string)
  : prog Hook unit :=
  (if negb (NativeApp.isNativeApp Capacitor) || negb (config_enabled h)
   then Ret tt
   else
     (if negb (isInterstitialLoaded h) then prepareInterstitial h placement
      else Ret tt) ;;
     (TRY (await AdMob_showInterstitial ;;
           setIsInterstitialLoaded false ;;
           act (spawn "prepareInterstitial"))
      CATCH error => act (console_error "Show interstitial error:")))%prog.

Definition prepareRewarded (h : Hook) (placement : option string)
  : prog Hook unit :=
  (if negb (NativeApp.isNativeApp Capacitor) || negb (isInitialized h)
      || negb (config_enabled h)
   then Ret tt
   else
     match getAdUnit h "rewarded" placement with
     | None => act (console_log "No rewarded ad configured for placement:")
     | Some adId =>
         TRY (await (AdMob_prepareRewardVideoAd adId (isTestMode h)) ;;
              setIsRewardedLoaded true)
         CATCH error => act (console_error "Prepare rewarded error:")
     end)%prog.

Definition showRewarded (h : Hook) (placement : option string)
  : prog Hook (promise (option AdMobRewardItem)) :=
  (if negb (NativeApp.isNativeApp Capacitor) || negb (config_enabled h)
   then Ret (Settled None)
   else
     (if negb (isRewardedLoaded h) then prepareRewarded h placement
      else Ret tt) ;;
     (TRY (await (AdMob_addListener "Rewarded") ;;
           rewarded <- await AdMob_showRewardVideoAd ;;
           setIsRewardedLoaded false ;;
           act (spawn "prepareRewarded") ;;
           match rewarded with
           | Some reward => Ret (Settled (Some reward))
           | None => Ret Pending
           end)
      CATCH error =>
        (act (console_error "Show rewarded error:") ;;
         Ret (Settled None))))%prog.

(** [config?.enabled ?? false] *)
Definition isAdsEnabled (h : Hook) : bool :=
  match config h with Some c => enabled c | None => false end.

End WithPlatform.
End AdMobHook.

(* ===================================================================== *)
(** ** hooks/useAdMob.tsx with the built-in test units ([AD_CONFIG]) *)
(* ===================================================================== *)

Module AdMobHookStatic.
Section WithPlatform.

Variable Capacitor : CapacitorEnv.

Definition AD_CONFIG_android_banner :=
  "ca-app-pub-3940256099942544/6300978111".
Definition AD_CONFIG_android_interstitial :=
  "ca-app-pub-3940256099942544/1033173712".
Definition AD_CONFIG_android_rewarded :=
  "ca-app-pub-3940256099942544/5224354917".
Definition AD_CONFIG_ios_banner :=
  "ca-app-pub-3940256099942544/2934735716".
Definition AD_CONFIG_ios_interstitial :=
  "ca-app-pub-3940256099942544/4411468910".
Definition AD_CONFIG_ios_rewarded :=
  "ca-app-pub-3940256099942544/1712485313".

Definition ios : bool := String.eqb (NativeApp.getPlatform Capacitor) "ios".

Definition config_banner : string :=
  if ios then AD_CONFIG_ios_banner else AD_CONFIG_android_banner.
Definition config_interstitial : string :=
  if ios then AD_CONFIG_ios_interstitial else AD_CONFIG_android_interstitial.
Definition config_rewarded : string :=
  if ios then AD_CONFIG_ios_rewarded else AD_CONFIG_android_rewarded.

Record Hook := mkHook {
  isInitialized : bool;
  isBannerVisible : bool;
  isInterstitialLoaded : bool;
  isRewardedLoaded : bool
}.

Definition mounted : Hook :=
  {| isInitialized := false; isBannerVisible := false;
     isInterstitialLoaded := false; isRewardedLoaded := false |}.

Definition setIsInitialized (b : bool) : prog Hook unit :=
  (s <- get ;;
   put {| isInitialized := b; isBannerVisible := isBannerVisible s;
          isInterstitialLoaded := isInterstitialLoaded s;
          isRewardedLoaded := isRewardedLoaded s |})%prog.

Definition setIsBannerVisible (b : bool) : prog Hook unit :=
  (s <- get ;;
   put {| isInitialized := isInitialized s; isBannerVisible := b;
          isInterstitialLoaded := isInterstitialLoaded s;
          isRewardedLoaded := isRewardedLoaded s |})%prog.

Definition setIsInterstitialLoaded (b : bool) : prog Hook unit :=
  (s <- get ;;
   put {| isInitialized := isInitialized s;
          isBannerVisible := isBannerVisible s;
          isInterstitialLoaded := b;
          isRewardedLoaded := isRewardedLoaded s |})%prog.

Definition setIsRewardedLoaded (b : bool) : prog Hook unit :=
  (s <- get ;;
   put {| isInitialized := isInitialized s;
          isBannerVisible := isBannerVisible s;
          isInterstitialLoaded := isInterstitialLoaded s;
          isRewardedLoaded := b |})%prog.

Definition initialize (h : Hook) : prog Hook unit :=
  (if negb (NativeApp.isNativeApp Capacitor) || isInitialized h then Ret tt
   else
     TRY (await (AdMob_initialize true) ;;
          setIsInitialized true ;;
          act (console_log "AdMob initialized"))
     CATCH error => act (console_error "AdMob init error:"))%prog.

Definition showBanner (h : Hook) (position : Position) : prog Hook unit :=
  (if negb (NativeApp.isNativeApp Capacitor) || negb (isInitialized h)
   then Ret tt
   else
     TRY (let options :=
            {| adId := config_banner;
               adSize := ADAPTIVE_BANNER;
               position := match position with
                           | top => TOP_CENTER
                           | bottom => BOTTOM_CENTER
                           end;
               margin := Some 0%Z;
               isTesting := true |} in
          await (AdMob_showBanner options) ;;
          setIsBannerVisible true)
     CATCH error => act (console_error "Banner error:"))%prog.

Definition hideBanner : prog Hook unit :=
  (if negb (NativeApp.isNativeApp Capacitor) then Ret tt
   else
     TRY (await AdMob_hideBanner ;;
          setIsBannerVisible false)
     CATCH error => act (console_error "Hide banner error:"))%prog.

Definition prepareInterstitial (h : Hook) : prog Hook unit :=
  (if negb (NativeApp.isNativeApp Capacitor) || negb (isInitialized h)
   then Ret tt
   else
     TRY (await (AdMob_prepareInterstitial config_interstitial true) ;;
          setIsInterstitialLoaded true)
     CATCH error => act (console_error "Prepare interstitial error:"))%prog.

Definition showInterstitial (h : Hook) : prog Hook unit :=
  ((if negb (NativeApp.isNativeApp Capacitor) || negb (isInterstitialLoaded h)
    then prepareInterstitial h
    else Ret tt) ;;
   (TRY (await AdMob_showInterstitial ;;
         setIsInterstitialLoaded false ;;
         act (spawn "prepareInterstitial"))
    CATCH error => act (console_error "Show interstitial error:")))%prog.

Definition prepareRewarded (h : Hook) : prog Hook unit :=
  (if negb (NativeApp.isNativeApp Capacitor) || negb (isInitialized h)
   then Ret tt
   else
     TRY (await (AdMob_prepareRewardVideoAd config_rewarded true) ;;
          setIsRewardedLoaded true)
     CATCH error => act (console_error "Prepare rewarded error:"))%prog.

Definition showRewarded (h : Hook)
  : prog Hook (promise (option AdMobRewardItem)) :=
  (if negb (NativeApp.isNativeApp Capacitor) then Ret (Settled None)
   else
     (if negb (isRewardedLoaded h) then prepareRewarded h else Ret tt) ;;
     (TRY (await (AdMob_addListener "Rewarded") ;;
           rewarded <- await AdMob_showRewardVideoAd ;;
           setIsRewardedLoaded false ;;
           act (spawn "prepareRewarded") ;;
           match rewarded with
           | Some reward => Ret (Settled (Some reward))
           | None => Ret Pending
           end)
      CATCH error =>
        (act (console_error "Show rewarded error:") ;;
         Ret (Settled None))))%prog.

End WithPlatform.
End AdMobHookStatic.

(* ===================================================================== *)
(** ** components/ads/NativeBannerAdSlot.tsx *)
(* ===================================================================== *)

Module AdsBannerSlot.
Section WithPlatform.

Variable Capacitor : CapacitorEnv.

(** [config?.ads?.some(...)]: a banner ad for this placement or for
    ['all'] that is active. *)
Definition hasAd (h : AdMobHook.Hook) (placement : string) : bool :=
  match AdMobHook.config h with
  | Some c =>
      existsb (fun ad =>
                 String.eqb (ad_type ad) "banner"
                 && (String.eqb (ad_placement ad) placement
                     || String.eqb (ad_placement ad) "all")
                 && is_active ad)
              (AdMobHook.ads c)
  | None => false
  end.

(** [config?.ads?.length === 0] *)
Definition no_ads (h : AdMobHook.Hook) : bool :=
  match AdMobHook.config h with
  | Some c => match AdMobHook.ads c with [] => true | _ :: _ => false end
  | None => false
  end.

(** The effect of the slot; [showBanner] is called without [await] and
    cannot throw. *)
Definition slot_effect (h : AdMobHook.Hook) (placement : string)
           (position : Position) : prog AdMobHook.Hook unit :=
  (let isNative := NativeApp.isNativeApp Capacitor in
   if negb isNative || negb (AdMobHook.isInitialized h) then Ret tt
   else if negb (AdMobHook.isAdsEnabled h) then Ret tt
   else if hasAd h placement || no_ads h then
     act (setState "shouldShow" "true") ;;
     AdMobHook.showBanner Capacitor h position (Some placement)
   else Ret tt)%prog.

(** The cleanup returned by the effect. *)
Definition slot_cleanup (h : AdMobHook.Hook) : prog AdMobHook.Hook unit :=
  if AdMobHook.isBannerVisible h then AdMobHook.hideBanner Capacitor
  else Ret tt.

End WithPlatform.
End AdsBannerSlot.

(* ===================================================================== *)
(** ** The plan pickers in front of the purchase handlers *)
(* ===================================================================== *)

(** components/MobileVIPPanel.tsx *)
Module VIPPanelView.

Record Panel := mkPanel {
  selectedPlan : option MembershipPlan;
  showAuthDialog : bool;
  showQRPayment : bool;
  walletBalance : number
}.

Definition handleSelectPlan (user : option User) (plan : MembershipPlan)
  : prog Panel unit :=
  match user with
  | None =>
      (s <- get ;;
       put {| selectedPlan := selectedPlan s; showAuthDialog := true;
              showQRPayment := showQRPayment s;
              walletBalance := walletBalance s |})%prog
  | Some _ =>
      (s <- get ;;
       put {| selectedPlan := Some plan; showAuthDialog := showAuthDialog s;
              showQRPayment := showQRPayment s;
              walletBalance := walletBalance s |})%prog
  end.

(** [onClick={() => !isCurrentPlan && handleSelectPlan(plan)}] with
    [isCurrentPlan = currentMembership?.membership_type === plan.name]. *)
Definition onPlanClick (membership_type : option string)
           (user : option User) (plan : MembershipPlan) : prog Panel unit :=
  let isCurrentPlan :=
    match membership_type with
    | Some t => String.eqb t (plan_name plan)
    | None => false
    end in
  if isCurrentPlan then Ret tt else handleSelectPlan user plan.

(** [disabled={processingPurchase || walletBalance < selectedPlan.price}]
    of the Pay button. *)
Definition payDisabled (processingPurchase : bool) (balance : number)
           (plan : MembershipPlan) : bool :=
  processingPurchase || lt balance (price plan).

(** The Pay button's [onClick={handlePurchase}]: a disabled button does
    not dispatch clicks. *)
Definition onPayClick (processingPurchase : bool) (user : option User)
           (p : Panel) : prog unit unit :=
  match selectedPlan p with
  | None => Ret tt
  | Some plan =>
      if payDisabled processingPurchase (walletBalance p) plan then Ret tt
      else MobileVIPPanel.handlePurchase (Some plan) user (walletBalance p)
  end.

Definition handleQRPaymentSuccess (newBalance : number) : prog Panel unit :=
  (s <- get ;;
   put {| selectedPlan := selectedPlan s;
          showAuthDialog := showAuthDialog s;
          showQRPayment := showQRPayment s;
          walletBalance := newBalance |} ;;
   s1 <- get ;;
   put {| selectedPlan := selectedPlan s1;
          showAuthDialog := showAuthDialog s1;
          showQRPayment := false;
          walletBalance := walletBalance s1 |} ;;
   act (toast "Top-up Successful" default_variant))%prog.

End VIPPanelView.

(** The Subscriptions page. *)
Module SubscriptionsPage.

Record Page := mkPage {
  confirmPlanDetails : option MembershipPlan;
  confirmDialogOpen : bool
}.

Definition handleSubscribe (plans : list MembershipPlan) (user : option User)
           (planId : string) : prog Page unit :=
  match user with
  | None =>
      (act (toast "Login Required" destructive) ;;
       act (navigate "/auth"))%prog
  | Some _ =>
      match find (fun p => String.eqb (plan_id p) planId) plans with
      | None => Ret tt
      | Some plan =>
          (s <- get ;;
           put {| confirmPlanDetails := Some plan;
                  confirmDialogOpen := confirmDialogOpen s |} ;;
           s1 <- get ;;
           put {| confirmPlanDetails := confirmPlanDetails s1;
                  confirmDialogOpen := true |})%prog
      end
  end.

End SubscriptionsPage.

(* ===================================================================== *)
(** ** components/DesktopPaginatedGrid.tsx and [useIsTablet] *)
(* ===================================================================== *)

Module PaginatedGrid.

Local Open Scope Z_scope.

Definition MIN_TABLET_WIDTH : Z := 768.
Definition MAX_TABLET_WIDTH : Z := 1279.

(** The value [checkIsTablet] passes to [setIsTablet]. *)
Definition checkIsTablet (width : Z) : bool :=
  (width >=? MIN_TABLET_WIDTH) && (width <=? MAX_TABLET_WIDTH).

Definition ITEMS_PER_PAGE (isTablet : bool) : Z := if isTablet then 24 else 35.

(** [from] and [to] of the query's [range]. *)
Definition range_from (itemsPerPage currentPage : Z) : Z :=
  (currentPage - 1) * itemsPerPage.
Definition range_to (itemsPerPage currentPage : Z) : Z :=
  range_from itemsPerPage currentPage + itemsPerPage - 1.

(** [Math.ceil(a / b)] on integers, for a positive [b]. *)
Definition Math_ceil_div (a b : Z) : Z := - ((- a) / b).

(** [Math.ceil((count || 0) / ITEMS_PER_PAGE)] *)
Definition totalPages_of (count : option Z) (itemsPerPage : Z) : Z :=
  Math_ceil_div (match count with Some c => c | None => 0 end) itemsPerPage.

Inductive PaginationItem :=
| PaginationLink (page : Z) (isActive : bool)
| PaginationEllipsis.

(** [for (let i = start; ...; i++) items.push(<PaginationLink ...>)]
    running [n] times. *)
Fixpoint links (currentPage start : Z) (n : nat) : list PaginationItem :=
  match n with
  | O => []
  | S k =>
      PaginationLink start (currentPage =? start)
      :: links currentPage (start + 1) k
  end.

(** The loop from [start] while [i <= stop]. *)
Definition links_between (currentPage start stop : Z) : list PaginationItem :=
  links currentPage start (Z.to_nat (stop - start + 1)).

Definition renderPaginationItems (totalPages currentPage : Z)
  : list PaginationItem :=
  let maxVisible := 5 in
  if totalPages <=? maxVisible then links_between currentPage 1 totalPages
  else
    [PaginationLink 1 (currentPage =? 1)]
    ++ (if currentPage >? 3 then [PaginationEllipsis] else [])
    ++ (let start := Z.max 2 (currentPage - 1) in
        let stop := Z.min (totalPages - 1) (currentPage + 1) in
        links_between currentPage start stop)
    ++ (if currentPage <? totalPages - 2 then [PaginationEllipsis] else [])
    ++ [PaginationLink totalPages (currentPage =? totalPages)].

(** [currentPage > 1 && setCurrentPage(currentPage - 1)]: the page the
    Previous arrow sets, if any; likewise the Next arrow. *)
Definition onPrevious (currentPage : Z) : option Z :=
  if currentPage >? 1 then Some (currentPage - 1) else None.
Definition onNext (totalPages currentPage : Z) : option Z :=
  if currentPage <? totalPages then Some (currentPage + 1) else None.

(** The page numbers of the links, in order. *)
Fixpoint pages (items : list PaginationItem) : list Z :=
  match items with
  | [] => []
  | PaginationLink p _ :: rest => p :: pages rest
  | PaginationEllipsis :: rest => pages rest
  end.

(** The pages whose link is drawn active. *)
Fixpoint active_pages (items : list PaginationItem) : list Z :=
  match items with
  | [] => []
  | PaginationLink p true :: rest => p :: active_pages rest
  | _ :: rest => active_pages rest
  end.

(** Neighbouring links are consecutive pages, and an ellipsis stands
    between two links exactly when pages are left out between them. *)
Fixpoint gaps_marked (items : list PaginationItem) : bool :=
  match items with
  | PaginationLink a _ :: (PaginationLink b _ :: _) as rest =>
      (b =? a + 1) && gaps_marked rest
  | PaginationLink a _ :: PaginationEllipsis
      :: ((PaginationLink b _ :: _) as rest) =>
      (b >? a + 1) && gaps_marked rest
  | [PaginationLink _ _] => true
  | [] => true
  | _ => false
  end.

End PaginatedGrid.

(* ===================================================================== *)
(** ** The hero banner's slide index ([handleSlideChange]) *)
(* ===================================================================== *)

Module HeroBanner.

Local Open Scope Z_scope.

Inductive Direction := next | prev | goto (index : Z).

(** The updater [handleSlideChange] passes to [setCurrentIndex], for a
    non-empty list of slides; [%] is the remainder that takes the sign of
    the dividend. *)
Definition handleSlideChange (slides_length : Z) (direction : Direction)
           (currentIndex : Z) : Z :=
  match direction with
  | goto index => index
  | next => Z.rem (currentIndex + 1) slides_length
  | prev => Z.rem (currentIndex - 1 + slides_length) slides_length
  end.

End HeroBanner.

(* ===================================================================== *)
(** ** [usePinchToZoom]: the transform applied to the video *)
(* ===================================================================== *)

Module PinchToZoom.

Import JsMath.
Local Open Scope Q_scope.

Definition MIN_SCALE : number := 1.
Definition MAX_SCALE : number := 4.

Record Rect := mkRect { width : number; height : number }.

(** The [useState] cells [scale], [translateX], [translateY]. *)
Record Zoom := mkZoom {
  scale : number;
  translateX : number;
  translateY : number
}.

Definition initial : Zoom := {| scale := 1; translateX := 0; translateY := 0 |}.

Definition resetZoom : Zoom := initial.

(** [applyTransform]: the cells it sets, or [None] when the video or the
    container is missing and it returns early. *)
Definition applyTransform (hasVideo : bool) (containerRect : option Rect)
           (newScale newTranslateX newTranslateY : number) : option Zoom :=
  if negb hasVideo then None
  else
    let clampedScale := Math_min (Math_max newScale MIN_SCALE) MAX_SCALE in
    match containerRect with
    | None => None
    | Some rect =>
        let scaledWidth := width rect * clampedScale in
        let scaledHeight := height rect * clampedScale in
        let maxTranslateX := Math_max 0 ((scaledWidth - width rect) / 2) in
        let maxTranslateY := Math_max 0 ((scaledHeight - height rect) / 2) in
        let clampedTranslateX :=
          Math_min (Math_max newTranslateX (- maxTranslateX)) maxTranslateX in
        let clampedTranslateY :=
          Math_min (Math_max newTranslateY (- maxTranslateY)) maxTranslateY in
        Some {| scale := clampedScale;
                translateX := clampedTranslateX;
                translateY := clampedTranslateY |}
    end.

(** The zoom after the last finger lifts: snapped back to 1x below 1.1
    (taken as the rational 11/10). *)
Definition handleTouchEnd_all_lifted (z : Zoom) : Zoom :=
  if lt (scale z) (11 # 10) then resetZoom else z.

End PinchToZoom.

(* ===================================================================== *)
(** ** Predicates used in the statements below *)
(* ===================================================================== *)

(** No external call follows a failed one. *)
Fixpoint nothing_after_failure (tr : trace) : bool :=
  match tr with
  | [] => true
  | ECall _ false :: rest =>
      match calls rest with [] => true | _ :: _ => false end
  | _ :: rest => nothing_after_failure rest
  end.

(** [u] is a unit [getAdUnit] may return for the configured ads [l]:
    never empty; with ads configured, the unit of the first ad that
    matches; with none, only for the three known ad types. *)
Definition unit_chosen_from (l : list AppAd) (adType : string)
           (placement : option string) (u : string) : Prop :=
  u <> ""
  /\ match l with
     | _ :: _ =>
         exists before ad after,
           l = before ++ ad :: after
           /\ ad_type ad = adType /\ is_active ad = true
           /\ ad_unit_id ad = u
           /\ (forall p, placement = Some p -> p <> "" -> ad_placement ad = p)
           /\ Forall (fun a => AdmobDashboard.ad_matches adType placement a
                               = false) before
     | [] => In adType ["banner"; "interstitial"; "rewarded"]
     end.

Section SlotCalls.

Variable slotPosition : Position.
Variable pluginAvailable : bool.

(** An SDK call the native banner slot can issue. *)
Definition slot_call (l : label) : Prop :=
  l = AdMob_hideBanner
  \/ exists cfg,
       l = AdMob_showBanner (NativeBannerAdSlot.banner_options slotPosition cfg).

(** What holds of the calls the slot has issued so far. *)
Definition calls_in_order (c : NativeBannerAdSlot.Component) : Prop :=
  Forall slot_call (NativeBannerAdSlot.invoked c)
  /\ (NativeBannerAdSlot.invoked c <> [] ->
      NativeBannerAdSlot.adConfig (NativeBannerAdSlot.slot c) <> None
      /\ pluginAvailable = true)
  /\ match NativeBannerAdSlot.invoked c with
     | [] =>
         NativeBannerAdSlot.bannerShown (NativeBannerAdSlot.slot c) = false
         /\ NativeBannerAdSlot.inflight c = []
     | l :: _ => l <> AdMob_hideBanner
     end.

End SlotCalls.

(* ===================================================================== *)
(** * Properties *)
(* ===================================================================== *)

(** ** Running composed programs *)

Lemma calls_app (t1 t2 : trace) : calls (t1 ++ t2) = calls t1 ++ calls t2.
Proof.
  induction t1 as [|[a|l ok] t1 IH]; simpl; auto. now rewrite IH.
Qed.

Lemma calls_ok_app (t1 t2 : trace) :
  calls_ok (t1 ++ t2) = calls_ok t1 ++ calls_ok t2.
Proof.
  induction t1 as [|[a|l [|]] t1 IH]; simpl; auto. now rewrite IH.
Qed.

(** [bind]: run the first part, then the rest from where it stopped. *)
Lemma exec_bind {St A B} (p : prog St A) (f : A -> prog St B) w n s :
  exec (bind p f) w n s =
  match exec p w n s with
  | (tr, s', Returned r) =>
      let '(tr2, s2, c) := exec (f r) w (n + List.length (calls tr)) s' in
      (tr ++ tr2, s2, c)
  | (tr, s', Threw e) => (tr, s', Threw e)
  end.
Proof.
  revert n s.
  induction p as [r|e|a k IH|l k IH|k IH|s0 k IH]; intros n s; simpl.
  - rewrite Nat.add_0_r. now destruct (exec (f r) w n s) as [[tr s'] c].
  - reflexivity.
  - rewrite IH. destruct (exec k w n s) as [[tr s'] [r|e]]; simpl; auto.
    now destruct (exec (f r) w (n + List.length (calls tr)) s') as [[tr2 s2] c].
  - rewrite IH.
    destruct (exec (k (w n l)) w (S n) s) as [[tr s'] [r|e]]; simpl; auto.
    rewrite Nat.add_succ_r.
    now destruct (exec (f r) w (S (n + List.length (calls tr))) s')
      as [[tr2 s2] c].
  - apply IH.
  - apply IH.
Qed.

(** [try]/[catch]: the handler runs from where the body threw. *)
Lemma exec_try_catch {St R} (p : prog St R) (h : Error -> prog St R) w n s :
  exec (try_catch p h) w n s =
  match exec p w n s with
  | (tr, s', Returned r) => (tr, s', Returned r)
  | (tr, s', Threw e) =>
      let '(tr2, s2, c) := exec (h e) w (n + List.length (calls tr)) s' in
      (tr ++ tr2, s2, c)
  end.
Proof.
  revert n s.
  induction p as [r|e|a k IH|l k IH|k IH|s0 k IH]; intros n s; simpl.
  - reflexivity.
  - rewrite Nat.add_0_r. now destruct (exec (h e) w n s) as [[tr s'] c].
  - rewrite IH. destruct (exec k w n s) as [[tr s'] [r|e]]; simpl; auto.
    now destruct (exec (h e) w (n + List.length (calls tr)) s') as [[tr2 s2] c].
  - rewrite IH.
    destruct (exec (k (w n l)) w (S n) s) as [[tr s'] [r|e]]; simpl; auto.
    rewrite Nat.add_succ_r.
    now destruct (exec (h e) w (S (n + List.length (calls tr))) s')
      as [[tr2 s2] c].
  - apply IH.
  - apply IH.
Qed.

(** ** Programs that cannot throw *)

Lemma never_throws_exec {St R} (p : prog St R) :
  never_throws p ->
  forall w n s, exists r, completion_of (exec p w n s) = Returned r.
Proof.
  induction p as [r|e|a k IH|l k IH|k IH|s0 k IH]; simpl; intros H w n s.
  - now exists r.
  - contradiction.
  - destruct (IH H w n s) as [r Hr]. exists r.
    destruct (exec k w n s) as [[tr s'] c]. exact Hr.
  - destruct (IH _ (H (w n l)) w (S n) s) as [r Hr]. exists r.
    destruct (exec (k (w n l)) w (S n) s) as [[tr s'] c]. exact Hr.
  - apply (IH _ (H s)).
  - apply (IH H).
Qed.

Lemma never_throws_bind {St A B} (p : prog St A) (f : A -> prog St B) :
  never_throws p -> (forall a, never_throws (f a)) -> never_throws (bind p f).
Proof.
  induction p; simpl; intros Hp Hf; auto; try contradiction.
Qed.

Lemma never_throws_try_catch {St R} (p : prog St R) (h : Error -> prog St R) :
  (forall e, never_throws (h e)) -> never_throws (try_catch p h).
Proof.
  induction p; simpl; intros Hh; auto.
Qed.

Lemma never_throws_try_finally {St R} (p : prog St R) (f : prog St unit) :
  never_throws p -> never_throws f -> never_throws (try_finally p f).
Proof.
  induction p; simpl; intros Hp Hf; auto; try contradiction.
  apply never_throws_bind; simpl; auto.
Qed.

Lemma never_throws_act {St} (a : action) : never_throws (act (St := St) a).
Proof. exact I. Qed.

Create HintDb safe.
#[local] Hint Resolve never_throws_try_catch never_throws_bind
  never_throws_try_finally never_throws_act : safe.

(** ** The tablet-landscape detector *)

Lemma checkIsTabletLandscape_iff (width height : Z) :
  TabletLandscape.checkIsTabletLandscape width height = true <->
  (width > height
   /\ ((768 <= Z.min width height <= 1279)
       \/ (768 <= Z.min width height /\ width > 1279)))%Z.
Proof.
  unfold TabletLandscape.checkIsTabletLandscape,
    TabletLandscape.MIN_TABLET_WIDTH, TabletLandscape.MAX_TABLET_WIDTH.
  rewrite !andb_true_iff, orb_true_iff, !andb_true_iff.
  rewrite !Z.gtb_lt, !Z.geb_le, !Z.leb_le.
  lia.
Qed.

(** C10: a window is classified as tablet-landscape exactly when
    width > height and either the shorter dimension lies in [768, 1279],
    or the shorter dimension is at least 768 and the width exceeds 1279;
    in particular a 2000x1300 window, whose shorter dimension exceeds
    1279, is classified as tablet-landscape. *)
Theorem C10_tablet_landscape_exact :
  (forall width height : Z,
      TabletLandscape.checkIsTabletLandscape width height = true <->
      (width > height
       /\ ((768 <= Z.min width height <= 1279)
           \/ (768 <= Z.min width height /\ width > 1279)))%Z)
  /\ TabletLandscape.checkIsTabletLandscape 2000 1300 = true.
Proof.
  split; [exact checkIsTabletLandscape_iff | reflexivity].
Qed.

(** Every landscape window whose shorter side is above the tablet range
    is still classified as tablet-landscape. *)
Lemma tablet_landscape_large_window (width height : Z) :
  (width > height)%Z -> (Z.min width height > 1279)%Z ->
  TabletLandscape.checkIsTabletLandscape width height = true.
Proof.
  intros Hl Hs. apply checkIsTabletLandscape_iff. lia.
Qed.

(** ** toggleFullscreen *)

Ltac step_result :=
  match goal with
  | |- context [match ?w ?n ?l with _ => _ end] =>
      let r := fresh "r" in
      let E := fresh "E" in
      destruct (w n l) as [r|r] eqn:E; try destruct r
  end.


(** ** playWithExoPlayer *)

(** Case analysis on whatever a run is still waiting for: an answer of
    the environment, a guard, or a value being matched on. *)
Ltac split_run :=
  repeat (cbn;
    match goal with
    | |- context [match ?w ?n ?l with Resolved _ => _ | Rejected _ => _ end] =>
        let E := fresh "E" in destruct (w n l) eqn:E
    | |- context [if ?b then _ else _] =>
        let E := fresh "E" in destruct b eqn:E
    | |- context [match ?x with Some _ => _ | None => _ end] =>
        let E := fresh "E" in destruct x eqn:E
    | x : unit |- _ => destruct x
    end).



(** ** The purchase handlers *)

Lemma lt_true_iff (a b : number) : lt a b = true <-> (a < b)%Q.
Proof.
  unfold lt. rewrite negb_true_iff. split.
  - intros H. apply Qnot_le_lt. intros Hle.
    apply Qle_bool_iff in Hle. congruence.
  - intros H. destruct (Qle_bool b a) eqn:E; auto.
    apply Qle_bool_iff in E. exfalso. revert E. now apply Qlt_not_le.
Qed.

Lemma lt_false_iff (a b : number) : lt a b = false <-> (b <= a)%Q.
Proof.
  unfold lt. rewrite negb_false_iff. apply Qle_bool_iff.
Qed.

Lemma handlePurchase_behaviour user plan walletBalance w n :
  purchase_behaviour
    (MobileVIPPanel.handlePurchase (Some plan) (Some user) walletBalance)
    user plan walletBalance w n.
Proof.
  unfold purchase_behaviour, MobileVIPPanel.handlePurchase.
  destruct (lt walletBalance (price plan)) eqn:E.
  - apply lt_true_iff in E. split.
    + intros Hle. exfalso. revert Hle. now apply Qlt_not_le.
    + intros _. cbn. auto.
  - apply lt_false_iff in E. split.
    + intros _. cbn.
      destruct (w n (purchase_rpc user plan)) as [[err|]|e]; reflexivity.
    + intros Hlt. exfalso. revert E. now apply Qlt_not_le.
Qed.

Lemma handleConfirmPurchase_behaviour user plan walletBalance w n :
  purchase_behaviour
    (Subscriptions.handleConfirmPurchase (Some plan) (Some user) walletBalance)
    user plan walletBalance w n.
Proof.
  unfold purchase_behaviour, Subscriptions.handleConfirmPurchase.
  destruct (lt walletBalance (price plan)) eqn:E.
  - apply lt_true_iff in E. split.
    + intros Hle. exfalso. revert Hle. now apply Qlt_not_le.
    + intros _. cbn. auto.
  - apply lt_false_iff in E. split.
    + intros _. cbn.
      destruct (w n (purchase_rpc user plan)) as [[err|]|e]; reflexivity.
    + intros Hlt. exfalso. revert E. now apply Qlt_not_le.
Qed.

(** C1: for every signed-in user and selected plan, both purchase
    handlers call [purchase_membership_with_wallet] with exactly
    [p_user_id] = the user's id, [p_plan_id] = the plan's id and
    [p_amount] = the plan's price, as their only external call, when the
    wallet balance is at least the price; when the balance is below the
    price they make no call and show the insufficient-balance toast. *)
Theorem C1_purchase_rpc_guarded_by_balance :
  forall (user : User) (plan : MembershipPlan) (walletBalance : number)
         (w : oracle) (n : nat),
    purchase_rpc user plan =
      supabase_rpc "purchase_membership_with_wallet"
        {| p_user_id := user_id user;
           p_plan_id := plan_id plan;
           p_amount := price plan |}
    /\ purchase_behaviour
         (MobileVIPPanel.handlePurchase (Some plan) (Some user) walletBalance)
         user plan walletBalance w n
    /\ purchase_behaviour
         (Subscriptions.handleConfirmPurchase (Some plan) (Some user)
            walletBalance)
         user plan walletBalance w n.
Proof.
  intros. split; [reflexivity|].
  split; [apply handlePurchase_behaviour|apply handleConfirmPurchase_behaviour].
Qed.

(** Without a signed-in user or a selected plan the handlers do nothing. *)
Lemma purchase_handlers_need_user_and_plan plan user walletBalance w n :
  plan = None \/ user = None ->
  exec (MobileVIPPanel.handlePurchase plan user walletBalance) w n tt
    = ([], tt, Returned tt)
  /\ exec (Subscriptions.handleConfirmPurchase plan user walletBalance) w n tt
    = ([], tt, Returned tt).
Proof.
  intros [->| ->]; [|destruct plan]; split; reflexivity.
Qed.

(** A one-dollar balance against a five-dollar plan, and a ten-dollar
    balance against the same plan. *)
Lemma C1_purchase_witness :
  let user := {| user_id := "u-1" |} in
  let plan := {| plan_id := "vip-month"; plan_name := "VIP"; price := 5 |} in
  calls (trace_of (exec (MobileVIPPanel.handlePurchase (Some plan) (Some user) 1)
                        all_ok 0 tt)) = []
  /\ calls (trace_of (exec (Subscriptions.handleConfirmPurchase
                              (Some plan) (Some user) 10) all_ok 0 tt))
     = [supabase_rpc "purchase_membership_with_wallet"
          {| p_user_id := "u-1"; p_plan_id := "vip-month"; p_amount := 5 |}].
Proof.
  cbv zeta. split.
  - apply (proj2 (proj1 (proj2 (C1_purchase_rpc_guarded_by_balance
             {| user_id := "u-1" |}
             {| plan_id := "vip-month"; plan_name := "VIP"; price := 5 |}
             1 all_ok 0%nat)))).
    reflexivity.
  - apply (proj1 (proj2 (proj2 (C1_purchase_rpc_guarded_by_balance
             {| user_id := "u-1" |}
             {| plan_id := "vip-month"; plan_name := "VIP"; price := 5 |}
             10 all_ok 0%nat)))).
    discriminate.
Defined.

(** ** Initialization of the ad SDK *)

Lemma initialized_in_app (t1 t2 : trace) :
  Session.initialized_in (t1 ++ t2)
  = Session.initialized_in t1 || Session.initialized_in t2.
Proof.
  unfold Session.initialized_in. now rewrite calls_ok_app, existsb_app.
Qed.

Lemma initialize_successes_app (t1 t2 : trace) :
  Session.initialize_successes (t1 ++ t2)
  = (Session.initialize_successes t1 + Session.initialize_successes t2)%nat.
Proof.
  unfold Session.initialize_successes.
  now rewrite calls_ok_app, filter_app, length_app.
Qed.

Lemma initialize_after_success_app (done : bool) (t1 t2 : trace) :
  Session.initialize_after_success done (t1 ++ t2)
  = (Session.initialize_after_success done t1
     + Session.initialize_after_success
         (done || Session.initialized_in t1) t2)%nat.
Proof.
  revert done. induction t1 as [|[a|l ok] t1 IH]; intros done; simpl.
  - now rewrite orb_false_r.
  - apply IH.
  - rewrite IH, Nat.add_assoc. do 2 f_equal.
    unfold Session.initialized_in. destruct ok; simpl.
    + now rewrite andb_true_r, orb_assoc.
    + now rewrite andb_false_r, orb_false_r.
Qed.

Lemma initialized_in_successes (tr : trace) :
  Session.initialized_in tr = false -> Session.initialize_successes tr = 0%nat.
Proof.
  unfold Session.initialized_in, Session.initialize_successes.
  induction (calls_ok tr) as [|l ls IH]; simpl; auto.
  destruct (Session.is_initialize l); simpl; [discriminate|auto].
Qed.

(** Any initializer guarded by a flag that it sets on success is
    idempotent over a session. *)
Section GuardedInitializer.

Context {St : Type} (flag : St -> bool) (init : prog St unit).

Hypothesis guarded :
  forall s w n, flag s = true -> exec init w n s = ([], s, Returned tt).

Hypothesis once :
  forall s w n,
    let run := exec init w n s in
    Session.initialize_after_success false (trace_of run) = 0%nat
    /\ (Session.initialize_successes (trace_of run) <= 1)%nat
    /\ (Session.initialized_in (trace_of run) = true ->
        flag (state_of run) = true).

Lemma session_when_initialized k s w n :
  flag s = true -> Session.run_many (repeat init k) w n s = ([], s).
Proof.
  intros Hs. revert n. induction k as [|k IH]; intros n; simpl; auto.
  rewrite (guarded s w n Hs). simpl. now rewrite IH.
Qed.

Lemma session_idempotent k :
  forall s w n done,
    (done = true -> flag s = true) ->
    let tr := fst (Session.run_many (repeat init k) w n s) in
    Session.initialize_after_success done tr = 0%nat
    /\ (Session.initialize_successes tr <= 1)%nat.
Proof.
  induction k as [|k IH]; intros s w n done Hdone; simpl; auto.
  destruct (flag s) eqn:Hs.
  - rewrite (guarded s w n Hs). simpl.
    rewrite (session_when_initialized k s w _ Hs). simpl. auto.
  - assert (done = false) as -> by (destruct done; auto; now specialize (Hdone eq_refl)).
    pose proof (once s w n) as (Hafter & Hle & Hflag).
    destruct (exec init w n s) as [[tr s'] c].
    unfold trace_of, state_of in Hafter, Hle, Hflag.
    cbn [fst snd] in Hafter, Hle, Hflag.
    destruct (Session.run_many (repeat init k) w (n + List.length (calls tr)) s')
      as [tr2 s2] eqn:Erest.
    simpl. rewrite initialize_after_success_app, initialize_successes_app, Hafter.
    simpl.
    destruct (Session.initialized_in tr) eqn:Hin.
    + rewrite (session_when_initialized k s' w _ (Hflag eq_refl)) in Erest.
      injection Erest as <- <-. simpl. split; [reflexivity|].
      unfold Session.initialize_successes at 2. simpl. lia.
    + pose proof (IH s' w (n + List.length (calls tr))%nat false
                     (fun H => False_ind _ (diff_false_true H))) as [IH1 IH2].
      rewrite Erest in IH1, IH2. simpl in IH1, IH2.
      rewrite (initialized_in_successes tr Hin). split; [exact IH1|exact IH2].
Qed.

End GuardedInitializer.

Lemma initializeAdMob_guarded cap s w n :
  AdmobService.isInitialized s = true ->
  exec (AdmobService.initializeAdMob cap) w n s = ([], s, Returned tt).
Proof.
  intros H. unfold AdmobService.initializeAdMob. cbn. rewrite H.
  now rewrite orb_true_r.
Qed.

Lemma initializeAdMob_non_native cap s w n :
  isNativePlatform cap = false ->
  exec (AdmobService.initializeAdMob cap) w n s = ([], s, Returned tt).
Proof.
  intros H. unfold AdmobService.initializeAdMob, NativeApp.isNativeApp. cbn.
  now rewrite H.
Qed.

Lemma initializeAdMob_once cap s w n :
  let run := exec (AdmobService.initializeAdMob cap) w n s in
  Session.initialize_after_success false (trace_of run) = 0%nat
  /\ (Session.initialize_successes (trace_of run) <= 1)%nat
  /\ (Session.initialized_in (trace_of run) = true ->
      AdmobService.isInitialized (state_of run) = true).
Proof.
  unfold AdmobService.initializeAdMob. split_run; cbn; intuition (auto; discriminate).
Qed.

Lemma dashboard_initializeAdMob_guarded cap s w n :
  AdmobDashboard.isInitialized s = true ->
  exec (AdmobDashboard.initializeAdMob cap) w n s = ([], s, Returned tt).
Proof.
  intros H. unfold AdmobDashboard.initializeAdMob. cbn. rewrite H.
  now rewrite orb_true_r.
Qed.

Lemma dashboard_initializeAdMob_non_native cap s w n :
  isNativePlatform cap = false ->
  exec (AdmobDashboard.initializeAdMob cap) w n s = ([], s, Returned tt).
Proof.
  intros H. unfold AdmobDashboard.initializeAdMob, NativeApp.isNativeApp. cbn.
  now rewrite H.
Qed.

Lemma dashboard_initializeAdMob_once cap s w n :
  let run := exec (AdmobDashboard.initializeAdMob cap) w n s in
  Session.initialize_after_success false (trace_of run) = 0%nat
  /\ (Session.initialize_successes (trace_of run) <= 1)%nat
  /\ (Session.initialized_in (trace_of run) = true ->
      AdmobDashboard.isInitialized (state_of run) = true).
Proof.
  unfold AdmobDashboard.initializeAdMob, AdmobDashboard.fetchSettings,
    NativeApp.isNativeApp.
  destruct (isNativePlatform cap) eqn:Enat; cbn;
    [|intuition (auto; discriminate)].
  destruct (AdmobDashboard.isInitialized s) eqn:Es; cbn;
    [intuition (auto; discriminate)|].
  destruct (w n select_app_ad_settings) as [settingsData|e1]; cbn.
  - destruct (w (S n) (select_app_ads (NativeApp.getPlatform cap)))
      as [adsData|e2]; cbn.
    + destruct (AdmobDashboard.parse_settings
                  match settingsData with Some rows => rows | None => [] end
                  (true, false)) as [[en tm]|]; cbn.
      * destruct en; cbn; [|intuition (auto; discriminate)].
        destruct (w (S (S n)) (AdMob_initialize tm)) as [[]|e3]; cbn;
          intuition (auto; discriminate).
      * destruct (AdmobDashboard.cachedSettings s) as [[[|] tm0 ads0]|]; cbn;
          try (intuition (auto; discriminate));
          match goal with
          | |- context [w ?k ?l] => destruct (w k l) as [[]|e3]; cbn;
                                    intuition (auto; discriminate)
          end.
    + destruct (AdmobDashboard.cachedSettings s) as [[[|] tm0 ads0]|]; cbn;
        try (intuition (auto; discriminate));
        match goal with
        | |- context [w ?k ?l] => destruct (w k l) as [[]|e3]; cbn;
                                  intuition (auto; discriminate)
        end.
  - destruct (AdmobDashboard.cachedSettings s) as [[[|] tm0 ads0]|]; cbn;
      try (intuition (auto; discriminate));
      match goal with
      | |- context [w ?k ?l] => destruct (w k l) as [[]|e3]; cbn;
                                intuition (auto; discriminate)
      end.
Qed.



(** ** Sequencing of enterVideoFullscreen *)

Ltac unfold_status_bar :=
  unfold NativeStatusBar.hideStatusBar, NativeStatusBar.showStatusBar,
    NativeStatusBar.enterImmersiveFullscreen,
    NativeStatusBar.exitImmersiveFullscreen,
    NativeStatusBar.isNative, NativeStatusBar.loadFullscreenPlugin in *.

(** The status-bar hide only talks to the fullscreen plugin and the
    status-bar plugin. *)
Lemma hideStatusBar_calls cap w n s :
  Forall (fun l => In (method_of l)
                      [M_import_fullscreen; M_Fullscreen_activate;
                       M_StatusBar_hide])
         (calls (trace_of (exec (NativeStatusBar.hideStatusBar cap) w n s))).
Proof.
  unfold_status_bar. destruct s as [plugin].
  split_run;
    repeat first [apply Forall_nil | apply Forall_cons]; simpl; auto 10.
Qed.

(** The last step only issues fullscreen requests on the container. *)
Lemma request_on_container_calls container w n s :
  Forall (fun l => exists m o, l = requestFullscreen (elementId container) m o)
         (calls (trace_of (exec (ImmersiveMode.request_on_container container)
                                w n s))).
Proof.
  unfold ImmersiveMode.request_on_container.
  split_run;
    repeat first [apply Forall_nil | apply Forall_cons]; eauto.
Qed.



(** ** Failures of collaborators stay inside the wrappers *)

Ltac unfold_wrappers :=
  unfold AdmobService.initializeAdMob, AdmobService.showBannerAd,
    AdmobService.hideBannerAd, AdmobService.showInterstitialAd,
    AdmobService.showRewardedAd, AdmobService.setTestDeviceIds,
    AdmobDashboard.initializeAdMob, AdmobDashboard.showBannerAd,
    AdmobDashboard.hideBannerAd, AdmobDashboard.showInterstitialAd,
    AdmobDashboard.showRewardedAd, AdmobDashboard.refreshAdSettings,
    AdmobDashboard.fetchSettings,
    NativeStatusBar.setStatusBarOverlay, NativeStatusBar.setStatusBarStyle,
    NativeStatusBar.setStatusBarBackgroundColor,
    NativeStatusBarEdge.initEdgeToEdge,
    NativeStatusBarEdge.exitImmersiveFullscreen,
    NativeStatusBarEdge.showStatusBar,
    ImmersiveMode.enterImmersiveMode, ImmersiveMode.exitImmersiveMode,
    ImmersiveMode.request_on_container,
    MobileVIPPanel.handlePurchase, Subscriptions.handleConfirmPurchase in *;
  unfold_status_bar.

Ltac prove_safe :=
  repeat match goal with
         | |- never_throws (if ?b then _ else _) => destruct b
         | |- never_throws (match ?x with _ => _ end) => destruct x
         | |- never_throws (let _ := _ in _) => cbv zeta
         | |- never_throws (try_catch _ _) =>
             apply never_throws_try_catch; intros
         | |- never_throws (try_finally _ _) => apply never_throws_try_finally
         | |- never_throws (bind _ _) => apply never_throws_bind; intros
         | |- never_throws _ => exact I
         | |- never_throws _ => progress (simpl; intros)
         | |- True => exact I
         end.

Lemma request_on_container_never_throws container :
  never_throws (ImmersiveMode.request_on_container container).
Proof. unfold_wrappers. prove_safe. Qed.

Lemma hideStatusBar_never_throws cap :
  never_throws (NativeStatusBar.hideStatusBar cap).
Proof. unfold_wrappers. prove_safe. Qed.

Lemma showStatusBar_never_throws cap :
  never_throws (NativeStatusBar.showStatusBar cap).
Proof. unfold_wrappers. prove_safe. Qed.

(** Without the optional callback the video-fullscreen functions cannot
    throw either. *)
Lemma videoFullscreen_without_callback_never_throws cap container document :
  never_throws (ImmersiveMode.enterVideoFullscreen cap container false)
  /\ never_throws (ImmersiveMode.exitVideoFullscreen cap document false).
Proof.
  pose proof (hideStatusBar_never_throws cap).
  pose proof (showStatusBar_never_throws cap).
  pose proof (request_on_container_never_throws container).
  unfold ImmersiveMode.enterVideoFullscreen, ImmersiveMode.exitVideoFullscreen.
  split; prove_safe; auto.
Qed.

(** [enterVideoFullscreen] throws only what the caller's callback threw. *)
Lemma enterVideoFullscreen_throws_only_callback cap container cb w n s e :
  completion_of (exec (ImmersiveMode.enterVideoFullscreen cap container cb)
                      w n s) = Threw e ->
  In (ECall onOrientationLocked false)
     (trace_of (exec (ImmersiveMode.enterVideoFullscreen cap container cb)
                     w n s)).
Proof.
  destruct cb.
  - unfold ImmersiveMode.enterVideoFullscreen, ImmersiveMode.request_on_container.
    unfold_status_bar. destruct s as [plugin].
    split_run; cbn; intros H; try discriminate; auto.
  - intros H. exfalso.
    destruct (never_throws_exec _
                (proj1 (videoFullscreen_without_callback_never_throws
                          cap container
                          (mkDocument false false false false false false
                                      false false container)))
                w n s) as [r Hr].
    congruence.
Qed.

Lemma exitVideoFullscreen_throws_only_callback cap document cb w n s e :
  completion_of (exec (ImmersiveMode.exitVideoFullscreen cap document cb)
                      w n s) = Threw e ->
  In (ECall onOrientationUnlocked false)
     (trace_of (exec (ImmersiveMode.exitVideoFullscreen cap document cb)
                     w n s)).
Proof.
  destruct cb.
  - unfold ImmersiveMode.exitVideoFullscreen, ImmersiveMode.exit_chain.
    unfold_status_bar. destruct s as [plugin].
    split_run; cbn; intros H; try discriminate; auto 12.
  - intros H. exfalso.
    destruct (never_throws_exec _
                (proj2 (videoFullscreen_without_callback_never_throws
                          cap (documentElement document) document))
                w n s) as [r Hr].
    congruence.
Qed.

(** Every exported wrapper other than the two video-fullscreen functions
    has no throwing path at all. *)
Lemma exported_never_throws cap q :
  exported cap q ->
  (exists c cb, q = Wrap (ImmersiveMode.enterVideoFullscreen cap c cb))
  \/ (exists d cb, q = Wrap (ImmersiveMode.exitVideoFullscreen cap d cb))
  \/ never_throws (body q).
Proof.
  intros H.
  destruct H;
    try (right; right; cbn [body]; unfold_wrappers; prove_safe; fail).
  - left. eauto.
  - right. left. eauto.
Qed.

Lemma external_caller_never_throws cap enc q :
  external_caller cap enc q ->
  (exists c cb, q = Wrap (ImmersiveMode.enterVideoFullscreen cap c cb))
  \/ (exists d cb, q = Wrap (ImmersiveMode.exitVideoFullscreen cap d cb))
  \/ never_throws (body q).
Proof.
  intros H. destruct H as [q H| | | | | |].
  - now apply exported_never_throws.
  - right. right. cbn [body]. unfold ExoPlayer.playWithExoPlayer. prove_safe.
  - right. right. cbn [body]. unfold FullscreenState.toggleFullscreen.
    prove_safe.
  - right. right. cbn [body].
    unfold NativeBannerAdSlot.fetchAdConfig, NativeBannerAdSlot.fetchWebAd.
    prove_safe.
  - right. right. cbn [body]. unfold NativeBannerAdSlot.fetchWebAd. prove_safe.
  - right. right. cbn [body]. unfold NativeBannerAdSlot.showBanner. prove_safe.
  - right. right. cbn [body]. unfold NativeBannerAdSlot.hideBanner. prove_safe.
Qed.




(** ** Re-attempts after a failure *)

Lemma fallback_only_sound {St R} (p : prog St R) :
  forall failed budget,
    fallback_only failed budget p ->
    forall w n s,
      let again := reattempted_from failed (trace_of (exec p w n s)) in
      (List.length again <= budget)%nat
      /\ Forall (fun l => is_fallback l = true) again.
Proof.
  induction p as [r|e|a k IH|l k IH|k IH|s0 k IH];
    intros failed budget H w n s; simpl in *.
  - split; [lia|constructor].
  - split; [lia|constructor].
  - specialize (IH failed budget H w n s).
    destruct (exec k w n s) as [[tr s'] c]. exact IH.
  - destruct (existsb (method_eqb (method_of l)) failed) eqn:Efailed.
    + destruct H as [Hfb H]. destruct budget as [|b]; [contradiction|].
      specialize (IH _ _ _ (H (w n l)) w (S n) s).
      destruct (exec (k (w n l)) w (S n) s) as [[tr s'] c].
      unfold trace_of in *. simpl in *. rewrite Efailed. simpl.
      destruct IH as [IH1 IH2]. split; [lia|now constructor].
    + specialize (IH _ _ _ (H (w n l)) w (S n) s).
      destruct (exec (k (w n l)) w (S n) s) as [[tr s'] c].
      unfold trace_of in *. simpl in *. rewrite Efailed. simpl. exact IH.
  - apply (IH s failed budget (H s)).
  - apply (IH failed budget H).
Qed.

Ltac prove_fallback :=
  repeat (cbn;
    match goal with
    | H : true = false |- _ => discriminate H
    | H : false = true |- _ => discriminate H
    | |- forall _, _ => intro
    | |- _ /\ _ => split
    | |- True => exact I
    | |- _ = _ => reflexivity
    | |- context [if ?b then _ else _] =>
        let E := fresh "E" in destruct b eqn:E
    | |- context [match ?x with _ => _ end] =>
        let E := fresh "E" in destruct x eqn:E
    end).

Lemma enterVideoFullscreen_one_fallback cap container cb :
  fallback_only [] 1 (ImmersiveMode.enterVideoFullscreen cap container cb).
Proof.
  unfold ImmersiveMode.enterVideoFullscreen. unfold_wrappers. prove_fallback.
Qed.

Lemma playWithExoPlayer_one_fallback cap enc videoUrl title subtitle :
  fallback_only [] 1
    (ExoPlayer.playWithExoPlayer (St := unit) cap enc videoUrl title subtitle).
Proof.
  unfold ExoPlayer.playWithExoPlayer. prove_fallback.
Qed.

Lemma fetchAdConfig_one_fallback cap placement :
  fallback_only [] 1 (NativeBannerAdSlot.fetchAdConfig cap placement).
Proof.
  unfold NativeBannerAdSlot.fetchAdConfig, NativeBannerAdSlot.fetchWebAd.
  prove_fallback.
Qed.

(** Every other function makes no call to a method that has failed. *)
Lemma external_caller_single_shot cap enc q :
  external_caller cap enc q ->
  (exists c cb, q = Wrap (ImmersiveMode.enterVideoFullscreen cap c cb))
  \/ (exists videoUrl title subtitle,
         q = Wrap (ExoPlayer.playWithExoPlayer (St := unit) cap enc
                     videoUrl title subtitle))
  \/ (exists placement,
         q = Wrap (NativeBannerAdSlot.fetchAdConfig cap placement))
  \/ fallback_only [] 0 (body q).
Proof.
  intros H. destruct H as [q H| | | | | |].
  - destruct H;
      try (right; right; right; cbn [body]; unfold_wrappers;
           unfold ImmersiveMode.exitVideoFullscreen, ImmersiveMode.exit_chain,
             ImmersiveMode.request_chain;
           unfold_wrappers; prove_fallback; fail).
    left. eauto.
  - right. left. eauto.
  - right. right. right. cbn [body]. unfold FullscreenState.toggleFullscreen.
    prove_fallback.
  - right. right. left. eauto.
  - right. right. right. cbn [body]. unfold NativeBannerAdSlot.fetchWebAd.
    prove_fallback.
  - right. right. right. cbn [body]. unfold NativeBannerAdSlot.showBanner.
    prove_fallback.
  - right. right. right. cbn [body]. unfold NativeBannerAdSlot.hideBanner.
    prove_fallback.
Qed.

(** When the Android fullscreen plugin cannot be loaded, the status-bar
    hide goes on to the [StatusBar] plugin instead. *)
Lemma hideStatusBar_substitute cap w n s e :
  isNativePlatform cap = true ->
  getPlatform cap = "android" ->
  NativeStatusBar.FullscreenPlugin s = false ->
  w n import_capacitor_fullscreen = Rejected e ->
  calls (trace_of (exec (NativeStatusBar.hideStatusBar cap) w n s))
  = [import_capacitor_fullscreen; StatusBar_hide].
Proof.
  intros Hnat Handroid Hplugin Himport. destruct s as [plugin].
  cbn in Hplugin. subst plugin.
  unfold_status_bar. unfold NativeStatusBar.on_android.
  rewrite Hnat, Handroid. cbn. rewrite Himport. cbn.
  destruct (w (S n) StatusBar_hide) as [[]|e']; reflexivity.
Qed.




(** ** Module-level state *)

Lemma forEach_listener_trace ls value w n s :
  exec (FullscreenState.forEach_listener ls value) w n s
  = (map (fun l => EAct (notify_listener l value)) ls, s, Returned tt).
Proof.
  induction ls as [|l ls IH]; simpl; auto. now rewrite IH.
Qed.

(** What one call stores in the fullscreen module, the next one reads. *)
Lemma setGlobalFullscreenState_run value w n s :
  exec (FullscreenState.setGlobalFullscreenState value) w n s
  = (map (fun l => EAct (notify_listener l value))
         (FullscreenState.listeners s),
     {| FullscreenState.globalIsFullscreen := value;
        FullscreenState.listeners := FullscreenState.listeners s |},
     Returned tt).
Proof.
  unfold FullscreenState.setGlobalFullscreenState. cbn.
  now rewrite forEach_listener_trace.
Qed.

Lemma fetchSettings_caches cap w n s fresh :
  completion_of (exec (AdmobDashboard.fetchSettings cap) w n s)
    = Returned (Some fresh) ->
  AdmobDashboard.cachedSettings
    (state_of (exec (AdmobDashboard.fetchSettings cap) w n s)) = Some fresh.
Proof.
  unfold AdmobDashboard.fetchSettings.
  destruct (negb (NativeApp.isNativeApp cap)); cbn; [discriminate|].
  destruct (w n select_app_ad_settings) as [settingsData|e1]; cbn;
    [|discriminate].
  destruct (w (S n) (select_app_ads (NativeApp.getPlatform cap)))
    as [adsData|e2]; cbn; [|discriminate].
  destruct (AdmobDashboard.parse_settings
              match settingsData with Some rows => rows | None => [] end
              (true, false)) as [[en tm]|]; cbn; [|discriminate].
  intros H. injection H as <-. reflexivity.
Qed.

(** C6, as the code has it: besides per-screen component state the
    client keeps module-level mutable variables that persist across
    calls and screens.  The global fullscreen flag written by
    [setGlobalFullscreenState] is what [getGlobalFullscreenState] and
    newly mounted subscribers read afterwards, and every listener in the
    module-level set is notified; the settings object stored by
    [fetchSettings] answers later [isAdsEnabled] and [isTestModeEnabled]
    calls; a loaded fullscreen plugin is reused without a second import;
    and the [isInitialized] flag set by one successful initialization
    makes every later [initializeAdMob] return at once. *)
Theorem C6_module_state_persists :
  (forall value w n s w' n',
      let after :=
        state_of (exec (FullscreenState.setGlobalFullscreenState value) w n s) in
      completion_of (exec FullscreenState.getGlobalFullscreenState w' n' after)
        = Returned value
      /\ completion_of
           (exec FullscreenState.useFullscreenState_initial w' n' after)
         = Returned value
      /\ FullscreenState.listeners after = FullscreenState.listeners s)
  /\ (forall listener value w n s w' n',
         let subscribed :=
           state_of (exec (FullscreenState.listeners_add listener) w n s) in
         In (EAct (notify_listener listener value))
            (trace_of (exec (FullscreenState.setGlobalFullscreenState value)
                            w' n' subscribed)))
  /\ (forall cap w n s fresh,
         let run := exec (AdmobDashboard.fetchSettings cap) w n s in
         completion_of run = Returned (Some fresh) ->
         AdmobDashboard.cachedSettings (state_of run) = Some fresh
         /\ AdmobDashboard.isAdsEnabled (state_of run)
            = AdmobDashboard.enabled fresh
         /\ AdmobDashboard.isTestModeEnabled (state_of run)
            = AdmobDashboard.testMode fresh)
  /\ (forall cap w n s,
         NativeStatusBar.FullscreenPlugin s = true ->
         exec (NativeStatusBar.loadFullscreenPlugin cap) w n s
         = ([], s, Returned true))
  /\ (forall cap w n s,
         AdmobService.isInitialized s = true ->
         exec (AdmobService.initializeAdMob cap) w n s = ([], s, Returned tt))
  /\ (forall cap w n s,
         AdmobDashboard.isInitialized s = true ->
         exec (AdmobDashboard.initializeAdMob cap) w n s
         = ([], s, Returned tt)).
Proof.
  split; [|split; [|split; [|split; [|split]]]].
  - intros value w n s w' n' after. subst after.
    rewrite setGlobalFullscreenState_run. cbn. auto.
  - intros listener value w n s w' n' subscribed. subst subscribed.
    rewrite setGlobalFullscreenState_run. cbn.
    apply in_map_iff. exists listener. split; [reflexivity|].
    destruct (existsb (Nat.eqb listener) (FullscreenState.listeners s)) eqn:E.
    + apply existsb_exists in E. destruct E as (l & Hin & Heq).
      apply Nat.eqb_eq in Heq. now subst.
    + apply in_or_app. right. now left.
  - intros cap w n s fresh run Hrun. subst run.
    pose proof (fetchSettings_caches cap w n s fresh Hrun) as Hc.
    unfold AdmobDashboard.isAdsEnabled, AdmobDashboard.isTestModeEnabled,
      AdmobDashboard.settings_testMode.
    rewrite Hc. auto.
  - intros cap w n [plugin] H. cbn in H. subst plugin.
    unfold NativeStatusBar.loadFullscreenPlugin. cbn.
    now rewrite andb_false_r.
  - intros; now apply initializeAdMob_guarded.
  - intros; now apply dashboard_initializeAdMob_guarded.
Qed.

(** The value one call stores in a module-level variable is observed by
    a later, unrelated call: the fullscreen flag reads [false] in a fresh
    module and [true] after an earlier [setGlobalFullscreenState(true)];
    the ad-enabled query reads [false] before and [true] after an
    earlier [fetchSettings]. *)
Lemma C6_module_state_survives_calls :
  completion_of (exec FullscreenState.getGlobalFullscreenState all_ok 0
                      FullscreenState.initial) = Returned false
  /\ completion_of
       (exec FullscreenState.getGlobalFullscreenState all_ok 0
             (state_of (exec (FullscreenState.setGlobalFullscreenState true)
                             all_ok 0 FullscreenState.initial)))
     = Returned true
  /\ AdmobDashboard.isAdsEnabled AdmobDashboard.initial = false
  /\ AdmobDashboard.isAdsEnabled
       (state_of (exec (AdmobDashboard.fetchSettings android) all_ok 0
                       AdmobDashboard.initial)) = true.
Proof.
  repeat split; reflexivity.
Qed.

(** ** The native banner ad slot *)

Import NativeBannerAdSlot.

Lemma remove_nth_incl {A} (i : nat) (l : list A) :
  incl (firstn i l ++ skipn (S i) l) l.
Proof.
  revert i. induction l as [|x l IH]; intros [|i]; simpl.
  - apply incl_refl.
  - apply incl_refl.
  - apply incl_tl, incl_refl.
  - intros y [->|Hy]; [now left|right; now apply (IH i)].
Qed.

Lemma hide_is_not_show p : hide_like p -> show_like p -> False.
Proof.
  intros [Hh _] [[o Hs] _]. congruence.
Qed.

Section SlotProperties.

Variable slotPosition : Position.
Variable pluginAvailable : bool.

Local Abbreviation run_effect := (run_effect slotPosition pluginAvailable).
Local Abbreviation onIntersection :=
  (onIntersection slotPosition pluginAvailable).
Local Abbreviation onConfigLoaded :=
  (onConfigLoaded slotPosition pluginAvailable).
Local Abbreviation onSettled := (onSettled slotPosition pluginAvailable).

(** The effect either does nothing, or issues one [hideBanner], or
    issues one [showBanner]; its synchronous part sets no state. *)
Lemma run_effect_cases c :
  run_effect c = c
  \/ (exists k,
         run_effect c
         = {| slot := slot c;
              inflight := inflight c ++ [InFlight AdMob_hideBanner k];
              invoked := invoked c ++ [AdMob_hideBanner] |}
         /\ hide_like (InFlight AdMob_hideBanner k)
         /\ pluginAvailable = true
         /\ bannerShown (slot c) = true /\ isInView (slot c) = false)
  \/ (exists cfg k,
         run_effect c
         = {| slot := slot c;
              inflight :=
                inflight c
                ++ [InFlight (AdMob_showBanner (banner_options slotPosition cfg)) k];
              invoked :=
                invoked c ++ [AdMob_showBanner (banner_options slotPosition cfg)] |}
         /\ show_like
              (InFlight (AdMob_showBanner (banner_options slotPosition cfg)) k)
         /\ pluginAvailable = true
         /\ isNative (slot c) = true /\ adConfig (slot c) = Some cfg
         /\ bannerShown (slot c) = false /\ isInView (slot c) = true).
Proof.
  destruct c as [[nat [cfg|] shown inView] fl inv];
    unfold NativeBannerAdSlot.run_effect, start, visibility_effect,
      showBanner, hideBanner, with_slot;
    cbn [slot inflight invoked isNative adConfig bannerShown isInView];
    destruct nat, shown, inView, pluginAvailable; cbn; auto.
  - right. left. eexists. split; [reflexivity|].
    split; [|auto]. split; [reflexivity|].
    intros [[]|e] st; reflexivity.
  - right. right. eexists cfg, _. split; [reflexivity|].
    split; [|auto 10]. split; [eexists; reflexivity|].
    intros [[]|e] st; reflexivity.
Qed.

Lemma run_effect_slot c : slot (run_effect c) = slot c.
Proof.
  destruct (run_effect_cases c) as [->|[(k & -> & _)|(cfg & k & -> & _)]];
    reflexivity.
Qed.

Lemma well_formed_run_effect c : well_formed c -> well_formed (run_effect c).
Proof.
  intros (Hall & Hcfg & Hnat).
  destruct (run_effect_cases c)
    as [->|[(k & -> & Hk & _)|(cfg & k & -> & Hk & _ & _ & Hc & _)]].
  - now repeat split.
  - split; [|split]; cbn [slot inflight]; [| |exact Hnat].
    + apply Forall_app. split; [exact Hall|]. constructor; auto.
    + intros [Hs|Hex]; [now apply Hcfg; left|].
      apply Exists_app in Hex. destruct Hex as [Hex|Hex];
        [now apply Hcfg; right|].
      inversion Hex as [? ? Hshow|? ? Hnil]; subst;
        [destruct (hide_is_not_show _ Hk Hshow)|inversion Hnil].
  - split; [|split]; cbn [slot inflight]; [| |exact Hnat].
    + apply Forall_app. split; [exact Hall|]. constructor; auto.
    + intros _. congruence.
Qed.

Lemma well_formed_reachable c :
  reachable slotPosition pluginAvailable c -> well_formed c.
Proof.
  induction 1 as [|c cfg Hr IH|c b Hr IH|c i w Hr IH].
  - split; [|split]; cbn; [constructor| |congruence].
    intros [H|H]; [discriminate|inversion H].
  - apply well_formed_run_effect. destruct IH as (Hall & _ & _).
    split; [|split]; cbn; [exact Hall|discriminate|reflexivity].
  - unfold NativeBannerAdSlot.onIntersection.
    destruct (Bool.eqb b (isInView (slot c))); [exact IH|].
    apply well_formed_run_effect. destruct IH as (Hall & Hcfg & Hnat).
    split; [|split]; cbn; [exact Hall|exact Hcfg|exact Hnat].
  - unfold NativeBannerAdSlot.onSettled.
    destruct (nth_error (inflight c) i) as [[l k]|] eqn:Enth; [|exact IH].
    destruct IH as (Hall & Hcfg & Hnat).
    pose proof (nth_error_In _ _ Enth) as Hin.
    assert (Hrest : Forall (fun p => hide_like p \/ show_like p)
                           (firstn i (inflight c) ++ skipn (S i) (inflight c))).
    { rewrite Forall_forall in *. intros p Hp. apply Hall.
      now apply (remove_nth_incl i (inflight c)). }
    assert (Hex : Exists show_like
                         (firstn i (inflight c) ++ skipn (S i) (inflight c)) ->
                  Exists show_like (inflight c)).
    { rewrite !Exists_exists. intros (p & Hp & Hs). exists p. split; auto.
      now apply (remove_nth_incl i (inflight c)). }
    assert (Hafter :
              well_formed
                (start (k (w i l))
                   {| slot := slot c;
                      inflight :=
                        firstn i (inflight c) ++ skipn (S i) (inflight c);
                      invoked := invoked c |})).
    { rewrite Forall_forall in Hall.
      destruct (Hall _ Hin) as [[Hl Hk]|[[o Hl] Hk]];
        unfold start; cbn [slot inflight invoked]; cbn in Hk;
        rewrite Hk; unfold with_slot; cbn [slot inflight invoked];
        (split; [exact Hrest|]);
        destruct (succeeded l (w i l)); cbn; (split; [|exact Hnat]).
      - intros [Hs|He]; [discriminate|]. apply Hcfg. right. now apply Hex.
      - intros [Hs|He]; apply Hcfg; [now left|right; now apply Hex].
      - intros _. apply Hcfg. right. apply Exists_exists.
        exists (InFlight l k). split; [exact Hin|].
        split; [exists o; exact Hl|exact Hk].
      - intros [Hs|He]; apply Hcfg; [now left|right; now apply Hex]. }
    destruct (Bool.eqb _ _); [exact Hafter|].
    now apply well_formed_run_effect.
Qed.

(** The observer reports the slot out of view while the banner flag is
    set: [hideBanner] is issued. *)
Lemma out_of_view_issues_hide c :
  pluginAvailable = true ->
  well_formed c ->
  bannerShown (slot c) = true -> isInView (slot c) = true ->
  invoked (onIntersection false c) = invoked c ++ [AdMob_hideBanner]
  /\ (exists p, inflight (onIntersection false c) = inflight c ++ [p]
                /\ hide_like p)
  /\ isInView (slot (onIntersection false c)) = false
  /\ bannerShown (slot (onIntersection false c)) = true.
Proof.
  intros Hplugin (Hall & Hcfg & Hnative) Hshown Hview.
  pose proof (Hcfg (or_introl Hshown)) as Hc.
  pose proof (Hnative Hc) as Hnat.
  unfold NativeBannerAdSlot.onIntersection. rewrite Hview. cbn [Bool.eqb].
  match goal with
  | |- context [NativeBannerAdSlot.run_effect _ _ ?c0] =>
      destruct (run_effect_cases c0)
        as [E|[(k & E & Hk & _)|(cfg & k & E & _ & _ & _ & _ & Hs & _)]]
  end.
  - exfalso. revert E.
    destruct c as [[nat [cfg|] shown inView] fl inv]; cbn in *;
      [|congruence]. subst.
    unfold NativeBannerAdSlot.run_effect, start, visibility_effect, hideBanner,
      with_slot. cbn. intros E.
    apply (f_equal invoked) in E. cbn in E.
    apply (f_equal (@List.length _)) in E. rewrite length_app in E.
    cbn in E. lia.
  - rewrite E. cbn. rewrite Hshown. eauto 10.
  - cbn in Hs. congruence.
Qed.

(** The observer reports the slot in view with a configuration loaded
    and the banner flag not set: [showBanner] is issued. *)
Lemma in_view_issues_show c cfg :
  pluginAvailable = true ->
  isNative (slot c) = true -> adConfig (slot c) = Some cfg ->
  bannerShown (slot c) = false -> isInView (slot c) = false ->
  invoked (onIntersection true c)
  = invoked c ++ [AdMob_showBanner (banner_options slotPosition cfg)]
  /\ (exists p, inflight (onIntersection true c) = inflight c ++ [p]
                /\ show_like p)
  /\ isInView (slot (onIntersection true c)) = true
  /\ bannerShown (slot (onIntersection true c)) = false.
Proof.
  intros Hplugin Hnat Hc Hshown Hview.
  unfold NativeBannerAdSlot.onIntersection. rewrite Hview. cbn [Bool.eqb].
  match goal with
  | |- context [NativeBannerAdSlot.run_effect _ _ ?c0] =>
      destruct (run_effect_cases c0)
        as [E|[(k & E & _ & _ & Hs & _)
              |(cfg' & k & E & Hk & _ & _ & Hc' & _)]]
  end.
  - exfalso. revert E.
    destruct c as [[nat [cfg0|] shown inView] fl inv]; cbn in *;
      [|congruence]. subst.
    unfold NativeBannerAdSlot.run_effect, start, visibility_effect, showBanner,
      with_slot. cbn. intros E.
    apply (f_equal invoked) in E. cbn in E.
    apply (f_equal (@List.length _)) in E. rewrite length_app in E.
    cbn in E. lia.
  - cbn in Hs. congruence.
  - cbn in Hc'. rewrite Hc in Hc'. injection Hc' as <-.
    rewrite E. cbn. rewrite Hshown. eauto 10.
Qed.

(** A call in flight settles: the flag changes only if the call
    succeeded, to the value [shown]. *)
Lemma settle_sets_flag_on_success c i p (shown : bool) w :
  nth_error (inflight c) i = Some p ->
  resumes_to p (fun ok st => if ok then set_bannerShown shown st else st) ->
  bannerShown (slot (onSettled i w c))
  = if succeeded (label_of p) (w i (label_of p)) then shown
    else bannerShown (slot c).
Proof.
  intros Enth Hk. unfold NativeBannerAdSlot.onSettled. rewrite Enth.
  destruct p as [l k]. cbn in Hk. cbn [label_of].
  unfold start. cbn [slot inflight invoked]. rewrite Hk. unfold with_slot.
  cbn [slot].
  destruct (Bool.eqb _ _); [|rewrite run_effect_slot; cbn [slot]];
    destruct (succeeded l (w i l)); reflexivity.
Qed.

End SlotProperties.


Lemma slot_with_banner_reachable : reachable bottom true slot_with_banner.
Proof.
  unfold slot_with_banner.
  apply reach_settle, reach_observe, reach_config, reach_mounted.
Qed.



(** A show still in flight when the slot leaves the view: once it
    settles and sets the flag, the effect runs again and issues the
    hide, which then clears the flag. *)
Example late_show_is_hidden :
  let mounted_slot := {| slot := mounted; inflight := []; invoked := [] |} in
  let showing :=
    onIntersection bottom true true
      (onConfigLoaded bottom true sample_config mounted_slot) in
  let left_view := onIntersection bottom true false showing in
  let shown := onSettled bottom true 0 all_ok left_view in
  let hidden := onSettled bottom true 0 all_ok shown in
  invoked left_view = [AdMob_showBanner (banner_options bottom sample_config)]
  /\ bannerShown (slot shown) = true
  /\ invoked shown
     = [AdMob_showBanner (banner_options bottom sample_config);
        AdMob_hideBanner]
  /\ bannerShown (slot hidden) = false
  /\ inflight hidden = [].
Proof.
  cbv zeta. repeat split; reflexivity.
Qed.

(* ===================================================================== *)
(** * Further properties of the code *)
(* ===================================================================== *)

(** ** More on the tablet-landscape detector *)

(** X1: the upper bound of the tablet range plays no part in
    [checkIsTabletLandscape]: a window is tablet-landscape exactly when
    it is wider than tall and at least 768 high. *)
Theorem tablet_landscape_is_wide_and_768_high (width height : Z) :
  TabletLandscape.checkIsTabletLandscape width height = true <->
  (width > height /\ height >= 768)%Z.
Proof.
  rewrite checkIsTabletLandscape_iff. lia.
Qed.

(** ** Leaving video fullscreen *)

(** As [split_run], but an answer of the environment is only split once
    the number of the call is known. *)
Ltac split_run_in_order :=
  repeat (cbn;
    match goal with
    | |- context [match ?w ?n ?l with Resolved _ => _ | Rejected _ => _ end] =>
        lazymatch n with
        | context [List.length _] => fail
        | _ => idtac
        end;
        let E := fresh "E" in destruct (w n l) eqn:E
    | |- context [if ?b then _ else _] =>
        let E := fresh "E" in destruct b eqn:E
    | |- context [match ?x with Some _ => _ | None => _ end] =>
        let E := fresh "E" in destruct x eqn:E
    | x : unit |- _ => destruct x
    end).

(** X2: on a native platform, with the orientation callback supplied,
    [exitVideoFullscreen] runs in this order: the exit of web fullscreen
    (at most one call, its failure logged), a 100 ms delay, the
    status-bar show, a 50 ms delay, and only then the caller's
    orientation-unlock callback; when the callback rejects, the rejection
    reaches the caller and the closing log line is not written. *)
Theorem exitVideoFullscreen_sequence :
  forall (cap : CapacitorEnv) (document : Document) (w : oracle) (n : nat)
         (s : NativeStatusBar.State),
    isNativePlatform cap = true ->
    let run :=
      exec (ImmersiveMode.exitVideoFullscreen cap document true) w n s in
    let leave :=
      exec (TRY (ImmersiveMode.exit_chain document)
            CATCH error =>
              act (console_log "[Immersive] Exit fullscreen error:"))%prog
           w n s in
    let bar :=
      exec (NativeStatusBar.showStatusBar cap) w
           (List.length (calls (trace_of leave)) + n) (state_of leave) in
    let k :=
      (List.length (calls (trace_of bar))
       + (List.length (calls (trace_of leave)) + n))%nat in
    (List.length (calls (trace_of leave)) <= 1)%nat
    /\ match w k onOrientationUnlocked with
       | Resolved _ =>
           trace_of run =
             trace_of leave
             ++ [EAct (setTimeout_resolve 100)]
             ++ trace_of bar
             ++ [EAct (setTimeout_resolve 50);
                 ECall onOrientationUnlocked true;
                 EAct (console_log
                         "[Immersive] Video fullscreen exited successfully")]
           /\ completion_of run = Returned tt
       | Rejected e =>
           trace_of run =
             trace_of leave
             ++ [EAct (setTimeout_resolve 100)]
             ++ trace_of bar
             ++ [EAct (setTimeout_resolve 50);
                 ECall onOrientationUnlocked false]
           /\ completion_of run = Threw e
       end.
Proof.
  intros cap document w n s Hnat run leave bar k.
  subst run leave bar k.
  unfold ImmersiveMode.exitVideoFullscreen, ImmersiveMode.exit_chain.
  unfold_status_bar. rewrite Hnat. destruct s as [plugin].
  split_run_in_order; cbn; (split; [lia|]); split; reflexivity.
Qed.

(** On an Android device where every call succeeds. *)
Lemma exitVideoFullscreen_sequence_witness :
  let cap := {| isNativePlatform := true; getPlatform := "android" |} in
  let document :=
    {| fullscreenElement := true; webkitFullscreenElement := false;
       mozFullScreenElement := false; msFullscreenElement := false;
       has_exitFullscreen := true; has_webkitExitFullscreen := false;
       has_mozCancelFullScreen := false; has_msExitFullscreen := false;
       documentElement := sample_container |} in
  calls (trace_of (exec (ImmersiveMode.exitVideoFullscreen cap document true)
                        all_ok 0 NativeStatusBar.initial))
  = [ exitFullscreen m_exitFullscreen;
      import_capacitor_fullscreen;
      Fullscreen_deactivateImmersiveMode;
      onOrientationUnlocked ].
Proof.
  cbv zeta.
  pose proof (exitVideoFullscreen_sequence
                {| isNativePlatform := true; getPlatform := "android" |}
                {| fullscreenElement := true; webkitFullscreenElement := false;
                   mozFullScreenElement := false; msFullscreenElement := false;
                   has_exitFullscreen := true; has_webkitExitFullscreen := false;
                   has_mozCancelFullScreen := false; has_msExitFullscreen := false;
                   documentElement := sample_container |}
                all_ok 0%nat NativeStatusBar.initial eq_refl) as H.
  cbv zeta in H. destruct H as [_ H]. cbn [all_ok] in H.
  destruct H as [H _]. rewrite H. reflexivity.
Defined.

(** X3: on a non-native platform the two video-fullscreen functions
    never call the caller's orientation callback or any plugin, whether a
    callback was supplied or not: entering is the request on the
    container alone, leaving makes at most one exit call, and neither can
    throw. *)
Theorem videoFullscreen_on_the_web :
  forall (cap : CapacitorEnv) (container : Element) (document : Document)
         (withCallback : bool) (w : oracle) (n : nat)
         (s : NativeStatusBar.State),
    isNativePlatform cap = false ->
    let enter :=
      exec (ImmersiveMode.enterVideoFullscreen cap container withCallback)
           w n s in
    let leave :=
      exec (ImmersiveMode.exitVideoFullscreen cap document withCallback)
           w n s in
    enter = exec (ImmersiveMode.request_on_container container) w n s
    /\ completion_of enter = Returned tt
    /\ Forall (fun l => method_of l = M_requestFullscreen)
              (calls (trace_of enter))
    /\ completion_of leave = Returned tt
    /\ Forall (fun l => method_of l = M_exitFullscreen)
              (calls (trace_of leave))
    /\ (List.length (calls (trace_of leave)) <= 1)%nat.
Proof.
  intros cap container document withCallback w n s Hnat enter leave.
  subst enter leave.
  unfold ImmersiveMode.enterVideoFullscreen, ImmersiveMode.exitVideoFullscreen.
  rewrite Hnat. cbn [bind].
  split; [reflexivity|].
  unfold ImmersiveMode.request_on_container, ImmersiveMode.exit_chain.
  split_run;
    repeat split;
    repeat first [apply Forall_nil | apply Forall_cons]; auto.
Qed.

(** In a desktop browser. *)
Lemma videoFullscreen_on_the_web_witness :
  let cap := {| isNativePlatform := false; getPlatform := "web" |} in
  calls (trace_of (exec (ImmersiveMode.enterVideoFullscreen
                           cap sample_container true)
                        all_ok 0 NativeStatusBar.initial))
  = [requestFullscreen "player" m_requestFullscreen (Some "hide")].
Proof.
  cbv zeta.
  rewrite (proj1 (videoFullscreen_on_the_web
                    {| isNativePlatform := false; getPlatform := "web" |}
                    sample_container
                    {| fullscreenElement := true; webkitFullscreenElement := false;
                       mozFullScreenElement := false; msFullscreenElement := false;
                       has_exitFullscreen := true; has_webkitExitFullscreen := false;
                       has_mozCancelFullScreen := false; has_msExitFullscreen := false;
                       documentElement := sample_container |}
                    true all_ok 0%nat NativeStatusBar.initial eq_refl)).
  reflexivity.
Defined.

(** ** Which plugin the status-bar functions talk to *)

(** X4: [loadFullscreenPlugin] imports the plugin only on Android and
    only while it is not loaded; it returns whether the plugin is loaded
    afterwards; a failed import is not remembered, so the next call
    imports again. *)
Theorem loadFullscreenPlugin_imports_until_loaded :
  forall (cap : CapacitorEnv) (w : oracle) (n : nat)
         (s : NativeStatusBar.State),
    let run := exec (NativeStatusBar.loadFullscreenPlugin cap) w n s in
    let wanted :=
      NativeStatusBar.on_android cap && negb (NativeStatusBar.FullscreenPlugin s) in
    let imported :=
      wanted && succeeded _ (w n import_capacitor_fullscreen) in
    calls (trace_of run) =
      (if wanted then [import_capacitor_fullscreen] else [])
    /\ NativeStatusBar.FullscreenPlugin (state_of run) =
         NativeStatusBar.FullscreenPlugin s || imported
    /\ completion_of run =
         Returned (NativeStatusBar.FullscreenPlugin (state_of run))
    /\ (imported = false -> state_of run = s).
Proof.
  intros cap w n [plugin] run wanted imported. subst run wanted imported.
  unfold NativeStatusBar.loadFullscreenPlugin.
  destruct (NativeStatusBar.on_android cap); destruct plugin; cbn;
    try (repeat split; reflexivity).
  destruct (w n import_capacitor_fullscreen) as [[]|e]; cbn;
    repeat split; try reflexivity; discriminate.
Qed.

(** On Android, with a failing import. *)
Lemma loadFullscreenPlugin_witness :
  exec (NativeStatusBar.loadFullscreenPlugin android)
       (all_fail {| message := "module not found" |}) 0
       NativeStatusBar.initial
  = ([ECall import_capacitor_fullscreen false;
      EAct (console_log "[StatusBar] Fullscreen plugin not available:")],
     NativeStatusBar.initial, Returned false)
  /\ state_of (exec (NativeStatusBar.loadFullscreenPlugin android)
                    (all_fail {| message := "module not found" |}) 0
                    NativeStatusBar.initial)
     = NativeStatusBar.initial.
Proof.
  split; [reflexivity|].
  apply (proj2 (proj2 (proj2
           (loadFullscreenPlugin_imports_until_loaded android
              (all_fail {| message := "module not found" |}) 0%nat
              NativeStatusBar.initial)))).
  reflexivity.
Defined.

(** X5: the external calls of [hideStatusBar] and [showStatusBar], by
    platform: none off a native platform; the [StatusBar] plugin alone on
    a native platform other than Android; on Android the fullscreen
    plugin's immersive call alone once the plugin is loaded, otherwise the
    import followed by the immersive call when the import succeeded and
    by the [StatusBar] call when it failed.  Neither function throws. *)
Theorem statusBar_calls_by_platform :
  forall (cap : CapacitorEnv) (w : oracle) (n : nat)
         (s : NativeStatusBar.State),
    let select (immersive bar : label) :=
      if negb (isNativePlatform cap) then []
      else if negb (NativeStatusBar.on_android cap) then [bar]
      else if NativeStatusBar.FullscreenPlugin s then [immersive]
      else match w n import_capacitor_fullscreen with
           | Resolved _ => [import_capacitor_fullscreen; immersive]
           | Rejected _ => [import_capacitor_fullscreen; bar]
           end in
    let hide := exec (NativeStatusBar.hideStatusBar cap) w n s in
    let show := exec (NativeStatusBar.showStatusBar cap) w n s in
    calls (trace_of hide) = select Fullscreen_activateImmersiveMode StatusBar_hide
    /\ calls (trace_of show) =
         select Fullscreen_deactivateImmersiveMode StatusBar_show
    /\ completion_of hide = Returned tt
    /\ completion_of show = Returned tt.
Proof.
  intros cap w n [plugin] select hide show. subst select hide show.
  unfold_status_bar.
  destruct (isNativePlatform cap); cbn; [|repeat split; reflexivity].
  destruct (NativeStatusBar.on_android cap); destruct plugin; cbn;
    split_run; repeat split; reflexivity.
Qed.

(** ** Immersive mode *)

(** X6: [enterImmersiveMode] always goes on to the Web Fullscreen API,
    whatever the native status-bar calls did: when the target offers
    [requestFullscreen], the last external call is that request on the
    target (the given element, by default the document element), every
    call before it is a status-bar or fullscreen-plugin call, and the
    function returns normally. *)
Theorem enterImmersiveMode_always_requests_fullscreen :
  forall (cap : CapacitorEnv) (document : Document) (element : option Element)
         (w : oracle) (n : nat) (s : NativeStatusBar.State),
    let target :=
      match element with Some el => el | None => documentElement document end in
    has_requestFullscreen target = true ->
    let run :=
      exec (ImmersiveMode.enterImmersiveMode cap document element) w n s in
    (exists before,
        calls (trace_of run) =
          before ++ [requestFullscreen (elementId target)
                       m_requestFullscreen None]
        /\ Forall (fun l => In (method_of l)
                              [M_import_fullscreen; M_Fullscreen_activate;
                               M_StatusBar_hide])
                  before)
    /\ completion_of run = Returned tt.
Proof.
  intros cap document element w n s target Htarget run. subst run.
  unfold ImmersiveMode.enterImmersiveMode, ImmersiveMode.request_chain.
  fold target. rewrite Htarget.
  unfold_status_bar. destruct s as [plugin].
  split_run; cbn;
    (split; [|reflexivity]);
    match goal with
    | |- exists before, ?l = _ /\ _ =>
        exists (removelast l); cbn; split; [reflexivity|];
        repeat first [apply Forall_nil | apply Forall_cons]; simpl; auto 10
    end.
Qed.

(** On an iPhone whose status-bar plugin rejects. *)
Lemma enterImmersiveMode_witness :
  let cap := {| isNativePlatform := true; getPlatform := "ios" |} in
  let document :=
    {| fullscreenElement := false; webkitFullscreenElement := false;
       mozFullScreenElement := false; msFullscreenElement := false;
       has_exitFullscreen := true; has_webkitExitFullscreen := false;
       has_mozCancelFullScreen := false; has_msExitFullscreen := false;
       documentElement := sample_container |} in
  let run :=
    exec (ImmersiveMode.enterImmersiveMode cap document None)
         (failing_at [0%nat] {| message := "no status bar" |} all_ok)
         0 NativeStatusBar.initial in
  trace_of run =
    [ ECall StatusBar_hide false;
      EAct (console_log "[StatusBar] Failed to enter immersive mode:");
      ECall (requestFullscreen "player" m_requestFullscreen None) true;
      EAct (console_log "[Immersive] Entered immersive mode via Fullscreen API") ]
  /\ completion_of run = Returned tt.
Proof.
  cbv zeta. split; [reflexivity|].
  exact (proj2 (enterImmersiveMode_always_requests_fullscreen
                  {| isNativePlatform := true; getPlatform := "ios" |}
                  {| fullscreenElement := false; webkitFullscreenElement := false;
                     mozFullScreenElement := false; msFullscreenElement := false;
                     has_exitFullscreen := true; has_webkitExitFullscreen := false;
                     has_mozCancelFullScreen := false; has_msExitFullscreen := false;
                     documentElement := sample_container |}
                  None
                  (failing_at [0%nat] {| message := "no status bar" |} all_ok)
                  0%nat NativeStatusBar.initial eq_refl)).
Defined.

(** X7: [toggleFullscreen] knows the standard and the webkit methods
    only.  On a target that offers neither (for instance one with only
    the moz or ms request method) it makes no call and still returns
    true, while [enterImmersiveMode]'s chain does call the method such a
    target offers; likewise it returns false without a call when the
    document offers neither exit method. *)
Theorem toggleFullscreen_without_a_known_method :
  forall (document : Document) (element : option Element)
         (w : oracle) (n : nat),
    let target :=
      match element with Some el => el | None => documentElement document end in
    let observed :=
      fullscreenElement document || webkitFullscreenElement document
      || mozFullScreenElement document in
    (if observed
     then has_exitFullscreen document || has_webkitExitFullscreen document
     else has_requestFullscreen target || has_webkitRequestFullscreen target)
    = false ->
    exec (FullscreenState.toggleFullscreen document element) w n tt
    = ([], tt, Returned (negb observed))
    /\ (observed = false ->
        has_mozRequestFullScreen target = true ->
        calls (trace_of (exec (ImmersiveMode.request_chain target) w n
                              NativeStatusBar.initial))
        = [requestFullscreen (elementId target) m_mozRequestFullScreen None]).
Proof.
  intros document element w n target observed H.
  unfold FullscreenState.toggleFullscreen, ImmersiveMode.request_chain.
  fold target. fold observed.
  destruct observed; apply orb_false_iff in H as [H1 H2];
    rewrite H1, H2; cbn; (split; [reflexivity|]); intros; try discriminate.
  match goal with H : has_mozRequestFullScreen _ = true |- _ => rewrite H end.
  cbn. now destruct (w n _).
Qed.

(** An element that only has [mozRequestFullScreen]. *)
Lemma toggleFullscreen_without_a_known_method_witness :
  let element :=
    {| elementId := "player";
       has_requestFullscreen := false;
       has_webkitRequestFullscreen := false;
       has_mozRequestFullScreen := true;
       has_msRequestFullscreen := false |} in
  let document :=
    {| fullscreenElement := false; webkitFullscreenElement := false;
       mozFullScreenElement := false; msFullscreenElement := false;
       has_exitFullscreen := true; has_webkitExitFullscreen := false;
       has_mozCancelFullScreen := true; has_msExitFullscreen := false;
       documentElement := sample_container |} in
  exec (FullscreenState.toggleFullscreen document (Some element)) all_ok 0 tt
  = ([], tt, Returned true).
Proof.
  cbv zeta.
  exact (proj1 (toggleFullscreen_without_a_known_method
                  {| fullscreenElement := false; webkitFullscreenElement := false;
                     mozFullScreenElement := false; msFullscreenElement := false;
                     has_exitFullscreen := true; has_webkitExitFullscreen := false;
                     has_mozCancelFullScreen := true; has_msExitFullscreen := false;
                     documentElement := sample_container |}
                  (Some {| elementId := "player";
                           has_requestFullscreen := false;
                           has_webkitRequestFullscreen := false;
                           has_mozRequestFullScreen := true;
                           has_msRequestFullscreen := false |})
                  all_ok 0%nat eq_refl)).
Defined.

(** ** The listener registry of the fullscreen module *)

Lemma existsb_eqb_In (l : nat) (ls : list nat) :
  existsb (Nat.eqb l) ls = true <-> In l ls.
Proof.
  rewrite existsb_exists. split.
  - intros (x & Hx & E). apply Nat.eqb_eq in E. now subst.
  - intros H. exists l. split; auto. apply Nat.eqb_refl.
Qed.

Lemma filter_other_In (l l' : nat) (ls : list nat) :
  In l' (filter (fun x => negb (Nat.eqb l x)) ls) <-> In l' ls /\ l' <> l.
Proof.
  rewrite filter_In, negb_true_iff, Nat.eqb_neq. intuition congruence.
Qed.

Lemma filter_other_id (l : nat) (ls : list nat) :
  ~ In l ls -> filter (fun x => negb (Nat.eqb l x)) ls = ls.
Proof.
  induction ls as [|x ls IH]; simpl; intros H; auto.
  destruct (Nat.eqb l x) eqn:E; simpl.
  - apply Nat.eqb_eq in E. subst. tauto.
  - f_equal. apply IH. tauto.
Qed.

(** X8: the listener registry behaves as a set.  Registering keeps the
    listeners distinct and changes nothing when the listener is already
    registered; unregistering removes the listener and no other;
    registering a new listener and unregistering it again restores the
    registry; neither touches the global flag. *)
Theorem listeners_behave_as_a_set :
  forall (l : nat) (s : FullscreenState.State) (w : oracle) (n : nat),
    NoDup (FullscreenState.listeners s) ->
    let added := state_of (exec (FullscreenState.listeners_add l) w n s) in
    let deleted := state_of (exec (FullscreenState.listeners_delete l) w n s) in
    NoDup (FullscreenState.listeners added)
    /\ (forall l', In l' (FullscreenState.listeners added)
                   <-> l' = l \/ In l' (FullscreenState.listeners s))
    /\ (In l (FullscreenState.listeners s) -> added = s)
    /\ NoDup (FullscreenState.listeners deleted)
    /\ (forall l', In l' (FullscreenState.listeners deleted)
                   <-> In l' (FullscreenState.listeners s) /\ l' <> l)
    /\ (~ In l (FullscreenState.listeners s) ->
        state_of (exec (FullscreenState.listeners_delete l) w n added) = s)
    /\ FullscreenState.globalIsFullscreen added
       = FullscreenState.globalIsFullscreen s
    /\ FullscreenState.globalIsFullscreen deleted
       = FullscreenState.globalIsFullscreen s.
Proof.
  intros l [flag ls] w n Hnd added deleted. subst added deleted.
  cbn in *.
  destruct (existsb (Nat.eqb l) ls) eqn:E.
  - apply existsb_eqb_In in E.
    repeat match goal with |- _ /\ _ => split end; auto.
    + intros l'. split; auto. intros [->|H]; auto.
    + now apply NoDup_filter.
    + intros l'. apply filter_other_In.
    + tauto.
  - assert (Hnot : ~ In l ls).
    { intros H. apply existsb_eqb_In in H. congruence. }
    repeat match goal with |- _ /\ _ => split end; auto.
    + apply NoDup_app; [exact Hnd | repeat constructor; simpl; tauto |].
      intros x Hx [<-|[]]. auto.
    + intros l'. rewrite in_app_iff. simpl. intuition.
    + tauto.
    + now apply NoDup_filter.
    + intros l'. apply filter_other_In.
    + intros _. f_equal. rewrite filter_app. simpl.
      rewrite Nat.eqb_refl. simpl. rewrite app_nil_r.
      now apply filter_other_id.
Qed.

(** Two subscribers, the second registering twice. *)
Lemma listeners_behave_as_a_set_witness :
  let s := {| FullscreenState.globalIsFullscreen := true;
              FullscreenState.listeners := [4; 7]%nat |} in
  state_of (exec (FullscreenState.listeners_add 7) all_ok 0 s) = s.
Proof.
  cbv zeta.
  apply (proj1 (proj2 (proj2
           (listeners_behave_as_a_set 7
              {| FullscreenState.globalIsFullscreen := true;
                 FullscreenState.listeners := [4; 7]%nat |}
              all_ok 0%nat
              ltac:(repeat constructor; simpl; intuition discriminate))))).
  simpl. auto.
Defined.

Lemma NoDup_notifications (ls : list nat) (value : bool) :
  NoDup ls -> NoDup (map (fun l => EAct (notify_listener l value)) ls).
Proof.
  induction 1 as [|x ls Hx Hnd IH]; simpl; constructor; auto.
  rewrite in_map_iff. intros (y & E & Hy). injection E as ->. contradiction.
Qed.

(** X9: [setGlobalFullscreenState] notifies every registered listener
    exactly once, with the new value, and nobody else; a listener that
    has unregistered is no longer notified. *)
Theorem each_listener_notified_once :
  forall (value : bool) (s : FullscreenState.State) (w : oracle) (n : nat),
    NoDup (FullscreenState.listeners s) ->
    let tr :=
      trace_of (exec (FullscreenState.setGlobalFullscreenState value) w n s) in
    NoDup tr
    /\ (forall ev, In ev tr <->
                   exists l, In l (FullscreenState.listeners s)
                             /\ ev = EAct (notify_listener l value))
    /\ (forall l v,
           let s' :=
             state_of (exec (FullscreenState.listeners_delete l) w n s) in
           ~ In (EAct (notify_listener l v))
                (trace_of (exec (FullscreenState.setGlobalFullscreenState v)
                                w n s'))).
Proof.
  intros value s w n Hnd tr. subst tr.
  rewrite setGlobalFullscreenState_run. cbn [trace_of fst].
  split; [|split].
  - now apply NoDup_notifications.
  - intros ev. rewrite in_map_iff. split.
    + intros (l & <- & Hl). eauto.
    + intros (l & Hl & ->). eauto.
  - intros l v. cbv zeta.
    rewrite setGlobalFullscreenState_run. cbn.
    rewrite in_map_iff. intros (x & E & Hx).
    injection E as ->. apply filter_other_In in Hx. tauto.
Qed.

(** Three subscribers. *)
Lemma each_listener_notified_once_witness :
  let s := {| FullscreenState.globalIsFullscreen := false;
              FullscreenState.listeners := [1; 2; 3]%nat |} in
  NoDup (trace_of (exec (FullscreenState.setGlobalFullscreenState true)
                        all_ok 0 s)).
Proof.
  cbv zeta.
  apply (each_listener_notified_once true
           {| FullscreenState.globalIsFullscreen := false;
              FullscreenState.listeners := [1; 2; 3]%nat |} all_ok 0%nat).
  repeat constructor; simpl; intuition discriminate.
Defined.

(** X10: the [fullscreenchange] listener publishes the document's
    state: afterwards the global flag equals whether the document has a
    standard, webkit or moz fullscreen element, every registered listener
    has been told that value, and the registry is unchanged.  The ms
    fullscreen element, which [isInImmersiveMode] counts, is not looked
    at. *)
Theorem handleFullscreenChange_publishes_document_state :
  forall (document : Document) (w : oracle) (n : nat)
         (s : FullscreenState.State),
    let run :=
      exec (IframeFullscreenHandler.handleFullscreenChange document) w n s in
    let value :=
      fullscreenElement document || webkitFullscreenElement document
      || mozFullScreenElement document in
    state_of run =
      {| FullscreenState.globalIsFullscreen := value;
         FullscreenState.listeners := FullscreenState.listeners s |}
    /\ trace_of run =
         [EAct (setState "isFullscreen" (if value then "true" else "false"))]
         ++ map (fun l => EAct (notify_listener l value))
                (FullscreenState.listeners s)
         ++ [EAct (console_log (if value then "[PWA] Fullscreen entered"
                                else "[PWA] Fullscreen exited"))]
    /\ completion_of run = Returned tt
    /\ ImmersiveMode.isInImmersiveMode document
       = value || msFullscreenElement document.
Proof.
  intros document w n s run value. subst run.
  unfold IframeFullscreenHandler.handleFullscreenChange. fold value.
  unfold ImmersiveMode.isInImmersiveMode. fold value.
  destruct value;
    unfold IframeFullscreenHandler.handleEnterFullscreen,
      IframeFullscreenHandler.handleExitFullscreen;
    cbn [bind act]; cbn [exec];
    rewrite exec_bind, setGlobalFullscreenState_run; cbn;
    repeat split; try reflexivity.
Qed.

(** ** Choosing the ad unit *)

Lemma truthy_string_Some (s u : string) :
  AdmobDashboard.truthy_string s = Some u -> u = s /\ u <> "".
Proof.
  unfold AdmobDashboard.truthy_string.
  destruct (String.eqb s "") eqn:E; [discriminate|].
  intros H. injection H as <-. split; auto. now apply String.eqb_neq.
Qed.

Lemma ad_matches_true adType placement ad :
  AdmobDashboard.ad_matches adType placement ad = true ->
  ad_type ad = adType /\ is_active ad = true
  /\ (forall p, placement = Some p -> p <> "" -> ad_placement ad = p).
Proof.
  unfold AdmobDashboard.ad_matches, AdmobDashboard.no_placement.
  rewrite !andb_true_iff, orb_true_iff. intros [[Ht Hp] Ha].
  apply String.eqb_eq in Ht. repeat split; auto.
  intros p -> Hne. destruct Hp as [Hp|Hp].
  - apply String.eqb_eq in Hp. contradiction.
  - now apply String.eqb_eq in Hp.
Qed.

Lemma find_first {A} (f : A -> bool) (l : list A) (x : A) :
  find f l = Some x ->
  exists before after,
    l = before ++ x :: after /\ f x = true
    /\ Forall (fun a => f a = false) before.
Proof.
  induction l as [|a l IH]; simpl; [discriminate|].
  destruct (f a) eqn:E.
  - intros H. injection H as ->. exists [], l. auto.
  - intros H. destruct (IH H) as (before & after & -> & Hx & Hb).
    exists (a :: before), after. auto.
Qed.

Lemma default_unit_chosen (ios : bool) (adType u b1 b2 i1 i2 r1 r2 : string) :
  b1 <> "" -> b2 <> "" -> i1 <> "" -> i2 <> "" -> r1 <> "" -> r2 <> "" ->
  (if String.eqb adType "banner" then Some (if ios then b1 else b2)
   else if String.eqb adType "interstitial" then Some (if ios then i1 else i2)
   else if String.eqb adType "rewarded" then Some (if ios then r1 else r2)
   else None) = Some u ->
  u <> "" /\ In adType ["banner"; "interstitial"; "rewarded"].
Proof.
  intros Hb1 Hb2 Hi1 Hi2 Hr1 Hr2.
  destruct (String.eqb adType "banner") eqn:E1;
    [|destruct (String.eqb adType "interstitial") eqn:E2;
      [|destruct (String.eqb adType "rewarded") eqn:E3]];
    try discriminate;
    intros H; injection H as <-;
    match goal with
    | E : String.eqb _ _ = true |- _ => apply String.eqb_eq in E; subst
    end;
    (split; [destruct ios; assumption | simpl; auto]).
Qed.

Lemma found_unit_chosen (l : list AppAd) adType placement u :
  l <> [] ->
  match find (AdmobDashboard.ad_matches adType placement) l with
  | Some matchingAd => AdmobDashboard.truthy_string (ad_unit_id matchingAd)
  | None => None
  end = Some u ->
  unit_chosen_from l adType placement u.
Proof.
  intros Hl H.
  destruct (find (AdmobDashboard.ad_matches adType placement) l) as [ad|] eqn:F;
    [|discriminate].
  apply truthy_string_Some in H as [-> Hne].
  apply find_first in F as (before & after & -> & Hm & Hb).
  apply ad_matches_true in Hm as (Ht & Ha & Hp).
  split; auto.
  destruct (before ++ ad :: after) eqn:El; [contradiction|].
  rewrite <- El. exists before, ad, after. auto 10.
Qed.

(** X11: the unit [getAdUnit] returns, in the ad service and in the
    hook alike, is never the empty string.  With a non-empty list of
    configured ads it is the unit of the first ad of the requested type
    that is active and, when a placement is given, has exactly that
    placement; the built-in test units are used only when no ad is
    configured at all, and only for the three known ad types. *)
Theorem getAdUnit_returns_a_configured_unit :
  forall (cap : CapacitorEnv) (adType : string) (placement : option string)
         (u : string),
    (forall s : AdmobDashboard.State,
        AdmobDashboard.getAdUnit cap s adType placement = Some u ->
        unit_chosen_from
          (match AdmobDashboard.cachedSettings s with
           | Some c => AdmobDashboard.ads c
           | None => []
           end) adType placement u)
    /\ (forall h : AdMobHook.Hook,
           AdMobHook.getAdUnit cap h adType placement = Some u ->
           unit_chosen_from
             (match AdMobHook.config h with
              | Some c => AdMobHook.ads c
              | None => []
              end) adType placement u).
Proof.
  intros cap adType placement u. split.
  - intros [flag [[en tm [|a l]]|]]; unfold AdmobDashboard.getAdUnit; cbn;
      intros H;
      try (apply found_unit_chosen; [discriminate|exact H]);
      apply default_unit_chosen in H; try exact H; discriminate.
  - intros [i b il rl [[en tm aid iid [|a l]]|]];
      unfold AdMobHook.getAdUnit; cbn; intros H;
      try (apply found_unit_chosen; [discriminate|exact H]);
      apply default_unit_chosen in H; try exact H; discriminate.
Qed.

(** The banner configured for the watch screen. *)
Lemma getAdUnit_witness :
  unit_chosen_from [NativeBannerAdSlot.ad sample_config] "banner"
    (Some "watch_screen_bottom_banner")
    "ca-app-pub-3940256099942544/6300978111".
Proof.
  apply (proj1 (getAdUnit_returns_a_configured_unit android "banner"
                  (Some "watch_screen_bottom_banner")
                  "ca-app-pub-3940256099942544/6300978111")
               {| AdmobDashboard.isInitialized := false;
                  AdmobDashboard.cachedSettings :=
                    Some {| AdmobDashboard.enabled := true;
                            AdmobDashboard.testMode := false;
                            AdmobDashboard.ads :=
                              [NativeBannerAdSlot.ad sample_config] |} |}).
  reflexivity.
Defined.

(** ** The dashboard-driven ad service *)


(** X13: how the settings rows are read.  Rows other than
    [global_settings] do not change the flags; the last [global_settings]
    row decides them, [enabled] being off only for an explicit [false] and
    [test_mode] on only for an explicit [true]; a [global_settings] row
    whose value is [null] makes the whole fetch fail, with nothing
    cached. *)
Theorem parse_settings_rows :
  forall (rows : list SettingRow) (acc : bool * bool),
    (Forall (fun r => setting_key r <> "global_settings") rows ->
     AdmobDashboard.parse_settings rows acc = Some acc)
    /\ (forall before value after,
           rows = before
                  ++ {| setting_key := "global_settings";
                        setting_value := Some value |} :: after ->
           Forall (fun r => setting_key r <> "global_settings") after ->
           AdmobDashboard.parse_settings before acc <> None ->
           AdmobDashboard.parse_settings rows acc =
             Some (match sv_enabled value with Some false => false | _ => true end,
                   match sv_test_mode value with Some true => true | _ => false end))
    /\ (forall r, In r rows -> setting_key r = "global_settings" ->
                  setting_value r = None ->
                  AdmobDashboard.parse_settings rows acc = None
                  /\ forall (cap : CapacitorEnv) (w : oracle) (n : nat)
                            (s : AdmobDashboard.State),
                       isNativePlatform cap = true ->
                       w n select_app_ad_settings = Resolved (Some rows) ->
                       let run := exec (AdmobDashboard.fetchSettings cap) w n s in
                       completion_of run = Returned None /\ state_of run = s).
Proof.
  intros rows acc.
  assert (Hplain : forall rows acc,
             Forall (fun r => setting_key r <> "global_settings") rows ->
             AdmobDashboard.parse_settings rows acc = Some acc).
  { clear. induction rows as [|r rows IH]; simpl; intros acc H; auto.
    inversion H as [|? ? Hr Hrest]; subst.
    apply String.eqb_neq in Hr. rewrite Hr. now apply IH. }
  assert (Hnull : forall rows acc r,
             In r rows -> setting_key r = "global_settings" ->
             setting_value r = None ->
             AdmobDashboard.parse_settings rows acc = None).
  { clear. induction rows as [|x rows IH]; simpl; intros acc r Hin Hk Hv;
      [contradiction|].
    destruct Hin as [->|Hin].
    - rewrite Hk, Hv. reflexivity.
    - destruct (String.eqb (setting_key x) "global_settings"); eauto.
      destruct (setting_value x); eauto. }
  split; [apply Hplain|]. split.
  - intros before value after -> Hafter. revert acc.
    induction before as [|x before IH]; simpl; intros acc Hpre.
    + now apply Hplain.
    + destruct (String.eqb (setting_key x) "global_settings"); auto.
      destruct (setting_value x); auto. congruence.
  - intros r Hin Hk Hv. split; [eapply Hnull; eauto|].
    intros cap w n s Hnat Hw run. subst run.
    unfold AdmobDashboard.fetchSettings, NativeApp.isNativeApp.
    rewrite Hnat. cbn. rewrite Hw. cbn.
    destruct (w (S n) (select_app_ads (NativeApp.getPlatform cap)));
      cbn; [|auto].
    rewrite (Hnull rows (true, false) r Hin Hk Hv). cbn. auto.
Qed.

(** An app-id row followed by the global settings switching ads off. *)
Lemma parse_settings_rows_witness :
  AdmobDashboard.parse_settings
    [{| setting_key := "admob_android_app_id"; setting_value := None |};
     {| setting_key := "global_settings";
        setting_value := Some {| sv_enabled := Some false;
                                 sv_test_mode := None |} |}]
    (true, false)
  = Some (false, false).
Proof.
  apply (proj1 (proj2 (parse_settings_rows _ (true, false)))
           [{| setting_key := "admob_android_app_id";
               setting_value := None |}]
           {| sv_enabled := Some false; sv_test_mode := None |} []).
  - reflexivity.
  - constructor.
  - discriminate.
Defined.

(** X14: the ad service asks the SDK to show a banner only on a
    native platform and only while the cached settings say ads are
    enabled, so never before a settings fetch has succeeded; the banner
    it shows carries the unit [getAdUnit] chose, the cached test-mode flag
    and the requested position.  An interstitial is shown only after its
    own [prepareInterstitial] succeeded. *)
Theorem dashboard_ads_follow_the_settings :
  forall (cap : CapacitorEnv) (s : AdmobDashboard.State)
         (pos : Position) (placement : option string)
         (w : oracle) (n : nat),
    (forall o,
        In (AdMob_showBanner o)
           (calls (trace_of (exec (AdmobDashboard.showBannerAd
                                     cap pos placement) w n s))) ->
        isNativePlatform cap = true
        /\ AdmobDashboard.settings_enabled s = true
        /\ AdmobDashboard.getAdUnit cap s "banner" placement = Some (adId o)
        /\ isTesting o = AdmobDashboard.settings_testMode s
        /\ position o = AdmobDashboard.banner_position pos)
    /\ (In AdMob_showInterstitial
           (calls (trace_of (exec (AdmobDashboard.showInterstitialAd
                                     cap placement) w n s))) ->
        isNativePlatform cap = true
        /\ AdmobDashboard.settings_enabled s = true
        /\ exists unit,
             AdmobDashboard.getAdUnit cap s "interstitial" placement = Some unit
             /\ calls_ok (trace_of (exec (AdmobDashboard.showInterstitialAd
                                            cap placement) w n s))
                = AdMob_prepareInterstitial unit
                    (AdmobDashboard.settings_testMode s)
                  :: match w (S n) AdMob_showInterstitial with
                     | Resolved _ => [AdMob_showInterstitial]
                     | Rejected _ => []
                     end)
    /\ (AdmobDashboard.settings_enabled s = false ->
        exec (AdmobDashboard.showBannerAd cap pos placement) w n s
        = ([], s, Returned tt)
        /\ exec (AdmobDashboard.showInterstitialAd cap placement) w n s
           = ([], s, Returned tt)
        /\ exec (AdmobDashboard.showRewardedAd cap placement) w n s
           = ([], s, Returned (Settled None))).
Proof.
  intros cap s pos placement w n.
  unfold AdmobDashboard.showBannerAd, AdmobDashboard.showInterstitialAd,
    AdmobDashboard.showRewardedAd, NativeApp.isNativeApp.
  cbn [bind get exec].
  destruct (isNativePlatform cap); cbn [negb orb];
    [|cbn; repeat split; try contradiction; reflexivity].
  destruct (AdmobDashboard.settings_enabled s); cbn [negb];
    [|cbn; repeat split; try contradiction; try discriminate; reflexivity].
  split; [|split; [|discriminate]].
  - intros o.
    destruct (AdmobDashboard.getAdUnit cap s "banner" placement) as [unit|];
      cbn; [|contradiction].
    destruct (w n _); cbn; intros [H|[]]; injection H as <-; auto.
  - destruct (AdmobDashboard.getAdUnit cap s "interstitial" placement)
      as [unit|]; cbn; [|contradiction].
    destruct (w n _) as [[]|e] eqn:E1; cbn; [|intros [H|[]]; discriminate].
    destruct (w (S n) AdMob_showInterstitial) as [[]|e]; cbn;
      intros _; repeat split; eauto.
Qed.

(** With settings cached and a banner configured. *)
Lemma dashboard_ads_follow_the_settings_witness :
  let cap := {| isNativePlatform := true; getPlatform := "android" |} in
  let s :=
    {| AdmobDashboard.isInitialized := true;
       AdmobDashboard.cachedSettings :=
         Some {| AdmobDashboard.enabled := true;
                 AdmobDashboard.testMode := false;
                 AdmobDashboard.ads :=
                   [NativeBannerAdSlot.ad sample_config] |} |} in
  let o :=
    {| adId := "ca-app-pub-3940256099942544/6300978111";
       adSize := ADAPTIVE_BANNER; position := BOTTOM_CENTER;
       margin := Some 0%Z; isTesting := false |} in
  calls (trace_of (exec (AdmobDashboard.showBannerAd cap bottom
                           (Some "watch_screen_bottom_banner")) all_ok 0 s))
  = [AdMob_showBanner o]
  /\ AdmobDashboard.settings_enabled s = true.
Proof.
  cbv zeta. split; [reflexivity|].
  apply (proj1 (dashboard_ads_follow_the_settings
                  {| isNativePlatform := true; getPlatform := "android" |}
                  {| AdmobDashboard.isInitialized := true;
                     AdmobDashboard.cachedSettings :=
                       Some {| AdmobDashboard.enabled := true;
                               AdmobDashboard.testMode := false;
                               AdmobDashboard.ads :=
                                 [NativeBannerAdSlot.ad sample_config] |} |}
                  bottom (Some "watch_screen_bottom_banner") all_ok 0%nat)
               {| adId := "ca-app-pub-3940256099942544/6300978111";
                  adSize := ADAPTIVE_BANNER; position := BOTTOM_CENTER;
                  margin := Some 0%Z; isTesting := false |}).
  simpl. auto.
Defined.

Ltac finish_initialize :=
  split;
  [ intros b Hin; simpl in Hin;
    repeat match goal with
           | H : _ \/ _ |- _ => destruct H as [H|H]
           end;
    try discriminate; try contradiction;
    match goal with
    | H : AdMob_initialize _ = AdMob_initialize _ |- _ => injection H as <-
    end; auto
  | split;
    [ intros H; try discriminate; auto; right; eexists; simpl; eauto
    | reflexivity ] ].

(** X15: the dashboard-driven [initializeAdMob] calls the SDK's
    [initialize] only on a native platform, only while the flag is unset
    and only when the settings it has just fetched do not disable ads; the
    testing flag it passes is the cached test mode (true when nothing is
    cached).  The flag is set afterwards only if it was set before or the
    SDK call succeeded. *)
Theorem dashboard_initialize_respects_settings :
  forall (cap : CapacitorEnv) (w : oracle) (n : nat)
         (s : AdmobDashboard.State),
    let run := exec (AdmobDashboard.initializeAdMob cap) w n s in
    (forall b,
        In (AdMob_initialize b) (calls (trace_of run)) ->
        isNativePlatform cap = true
        /\ AdmobDashboard.isInitialized s = false
        /\ b = AdmobDashboard.settings_testMode (state_of run)
        /\ match AdmobDashboard.cachedSettings (state_of run) with
           | Some c => AdmobDashboard.enabled c = true
           | None => True
           end)
    /\ (AdmobDashboard.isInitialized (state_of run) = true ->
        AdmobDashboard.isInitialized s = true
        \/ exists b, In (AdMob_initialize b) (calls_ok (trace_of run)))
    /\ completion_of run = Returned tt.
Proof.
  intros cap w n s run. subst run.
  unfold AdmobDashboard.initializeAdMob, AdmobDashboard.fetchSettings,
    AdmobDashboard.settings_testMode, NativeApp.isNativeApp.
  destruct (isNativePlatform cap) eqn:Enat; cbn; [|finish_initialize].
  destruct s as [flag cache]. destruct flag; cbn; [finish_initialize|].
  destruct (w n select_app_ad_settings) as [settingsData|e1]; cbn.
  - destruct (w (S n) (select_app_ads (NativeApp.getPlatform cap)))
      as [adsData|e2]; cbn.
    + destruct (AdmobDashboard.parse_settings
                  match settingsData with Some rows => rows | None => [] end
                  (true, false)) as [[en tm]|]; cbn.
      * destruct en; cbn; [|finish_initialize].
        destruct (w (S (S n)) (AdMob_initialize tm)) as [[]|e3]; cbn;
          finish_initialize.
      * destruct cache as [[[|] tm0 ads0]|]; cbn;
          try match goal with
              | |- context [w ?k ?l] => destruct (w k l) as [[]|e3]; cbn
              end;
          finish_initialize.
    + destruct cache as [[[|] tm0 ads0]|]; cbn;
        try match goal with
            | |- context [w ?k ?l] => destruct (w k l) as [[]|e3]; cbn
            end;
        finish_initialize.
  - destruct cache as [[[|] tm0 ads0]|]; cbn;
      try match goal with
          | |- context [w ?k ?l] => destruct (w k l) as [[]|e3]; cbn
          end;
      finish_initialize.
Qed.

(** The first start on Android with every call succeeding. *)
Lemma dashboard_initialize_witness :
  let run := exec (AdmobDashboard.initializeAdMob android) all_ok 0
                  AdmobDashboard.initial in
  calls (trace_of run)
  = [select_app_ad_settings; select_app_ads "android"; AdMob_initialize false]
  /\ false = AdmobDashboard.settings_testMode (state_of run).
Proof.
  cbv zeta. split; [reflexivity|].
  apply (proj1 (dashboard_initialize_respects_settings android all_ok 0%nat
                  AdmobDashboard.initial) false).
  simpl. auto.
Defined.

(** ** Interstitial and rewarded ads *)

(** X16: in both ad services the interstitial and rewarded-ad
    functions give up at the first failure: once a call has failed no
    further call is made.  Hence an interstitial is shown only after its
    [prepareInterstitial] succeeded, and a rewarded ad only after the
    reward listener was registered and [prepareRewardVideoAd] succeeded,
    in that order. *)
Theorem ad_service_stops_at_first_failure :
  forall (cap : CapacitorEnv) (placement : option string) (w : oracle)
         (n : nat) (s : AdmobService.State) (d : AdmobDashboard.State),
    let i1 := trace_of (exec (AdmobService.showInterstitialAd cap) w n s) in
    let r1 := trace_of (exec (AdmobService.showRewardedAd cap) w n s) in
    let i2 :=
      trace_of (exec (AdmobDashboard.showInterstitialAd cap placement) w n d) in
    let r2 :=
      trace_of (exec (AdmobDashboard.showRewardedAd cap placement) w n d) in
    (nothing_after_failure i1 = true /\ nothing_after_failure r1 = true
     /\ nothing_after_failure i2 = true /\ nothing_after_failure r2 = true)
    /\ (In AdMob_showInterstitial (calls i1) ->
        exists rest,
          calls_ok i1 =
            AdMob_prepareInterstitial
              AdmobService.AD_UNITS_android_interstitial true
            :: rest)
    /\ (In AdMob_showRewardVideoAd (calls r1) ->
        exists rest,
          calls_ok r1 =
            AdMob_addListener "Rewarded"
            :: AdMob_prepareRewardVideoAd
                 AdmobService.AD_UNITS_android_rewarded true
            :: rest)
    /\ (In AdMob_showRewardVideoAd (calls r2) ->
        exists unit rest,
          AdmobDashboard.getAdUnit cap d "rewarded" placement = Some unit
          /\ calls_ok r2 =
               AdMob_addListener "Rewarded"
               :: AdMob_prepareRewardVideoAd
                    unit (AdmobDashboard.settings_testMode d)
               :: rest).
Proof.
  intros cap placement w n s d i1 r1 i2 r2. subst i1 r1 i2 r2.
  unfold AdmobService.showInterstitialAd, AdmobService.showRewardedAd,
    AdmobDashboard.showInterstitialAd, AdmobDashboard.showRewardedAd,
    NativeApp.isNativeApp.
  destruct (isNativePlatform cap); cbn;
    [|repeat split; contradiction].
  split; [|split; [|split]].
  - destruct (AdmobDashboard.settings_enabled d); cbn;
      destruct (AdmobDashboard.getAdUnit cap d "interstitial" placement);
      destruct (AdmobDashboard.getAdUnit cap d "rewarded" placement);
      split_run; cbn; auto.
  - split_run; cbn; intros H;
      repeat match goal with
             | H : _ \/ _ |- _ => destruct H as [H|H]
             end; try discriminate; try contradiction; eauto.
  - split_run; cbn; intros H;
      repeat match goal with
             | H : _ \/ _ |- _ => destruct H as [H|H]
             end; try discriminate; try contradiction; eauto.
  - destruct (AdmobDashboard.settings_enabled d); cbn; [|contradiction].
    destruct (AdmobDashboard.getAdUnit cap d "rewarded" placement) as [unit|];
      cbn; [|contradiction].
    split_run; cbn; intros H;
      repeat match goal with
             | H : _ \/ _ |- _ => destruct H as [H|H]
             end; try discriminate; try contradiction; eauto.
Qed.

(** An interstitial on Android with every call succeeding. *)
Lemma ad_service_stops_at_first_failure_witness :
  exists rest,
    calls_ok (trace_of (exec (AdmobService.showInterstitialAd android)
                             all_ok 0 AdmobService.initial))
    = AdMob_prepareInterstitial AdmobService.AD_UNITS_android_interstitial true
      :: rest.
Proof.
  apply (proj1 (proj2 (ad_service_stops_at_first_failure android None all_ok
                         0%nat AdmobService.initial AdmobDashboard.initial))).
  simpl. auto.
Defined.

(** ** The AdMob hooks *)

(** X17: unlike the ad services, the hooks' [showInterstitial] does
    not depend on the preparation.  In the hook with built-in units it
    always ends with a call of the SDK's [showInterstitial]: also off a
    native platform, where that is its only call, and also when the
    preparation was skipped or failed.  In the settings-driven hook the
    same holds on a native platform with ads enabled; off a native
    platform or with ads disabled that hook makes no call. *)
Theorem hook_showInterstitial_shows_unprepared :
  forall (cap : CapacitorEnv) (placement : option string)
         (w : oracle) (n : nat),
    (forall (h s : AdMobHookStatic.Hook),
        let tr := trace_of (exec (AdMobHookStatic.showInterstitial cap h)
                                 w n s) in
        (exists before,
            calls tr = before ++ [AdMob_showInterstitial]
            /\ (before = []
                \/ before = [AdMob_prepareInterstitial
                               (AdMobHookStatic.config_interstitial cap) true]))
        /\ (isNativePlatform cap = false ->
            calls tr = [AdMob_showInterstitial])
        /\ (AdMobHookStatic.isInitialized h = false ->
            calls tr = [AdMob_showInterstitial]))
    /\ (forall (h s : AdMobHook.Hook),
           let tr := trace_of (exec (AdMobHook.showInterstitial cap h placement)
                                    w n s) in
           (isNativePlatform cap = true ->
            AdMobHook.config_enabled h = true ->
            exists before,
              calls tr = before ++ [AdMob_showInterstitial]
              /\ (AdMobHook.isInitialized h = false -> before = []))
           /\ (isNativePlatform cap && AdMobHook.config_enabled h = false ->
               calls tr = [])).
Proof.
  intros cap placement w n. split.
  - intros h s tr. subst tr.
    unfold AdMobHookStatic.showInterstitial,
      AdMobHookStatic.prepareInterstitial, NativeApp.isNativeApp.
    destruct (isNativePlatform cap); destruct (AdMobHookStatic.isInitialized h);
      destruct (AdMobHookStatic.isInterstitialLoaded h);
      split_run; cbn;
      (split; [|split; [intros; try discriminate; reflexivity
                       |intros; try discriminate; reflexivity]]);
      first [ exists []; split; [reflexivity|auto]
            | eexists [_]; split; [reflexivity|auto] ].
  - intros h s tr. subst tr.
    unfold AdMobHook.showInterstitial, AdMobHook.prepareInterstitial,
      NativeApp.isNativeApp.
    destruct (isNativePlatform cap); destruct (AdMobHook.config_enabled h);
      cbn [negb orb andb];
      (split; [intros; try discriminate|intros; try discriminate]);
      try reflexivity.
    destruct (AdMobHook.isInitialized h);
      destruct (AdMobHook.isInterstitialLoaded h);
      try destruct (AdMobHook.getAdUnit cap h "interstitial" placement);
      split_run; cbn;
      first [ exists []; split; [reflexivity|auto]
            | eexists [_]; split; [reflexivity|intros; discriminate] ].
Qed.

(** In a desktop browser the hook with built-in units still asks the
    SDK to show an interstitial. *)
Lemma hook_showInterstitial_witness :
  let cap := {| isNativePlatform := false; getPlatform := "web" |} in
  calls (trace_of (exec (AdMobHookStatic.showInterstitial
                           cap AdMobHookStatic.mounted)
                        all_ok 0 AdMobHookStatic.mounted))
  = [AdMob_showInterstitial].
Proof.
  cbv zeta.
  apply (proj1 (proj2 (proj1 (hook_showInterstitial_shows_unprepared
                  {| isNativePlatform := false; getPlatform := "web" |}
                  None all_ok 0%nat)
               AdMobHookStatic.mounted AdMobHookStatic.mounted))).
  reflexivity.
Defined.

(** ** The banner slot of components/ads *)

Lemma existsb_find_none {A} (f : A -> bool) (l : list A) :
  (forall a, In a l -> f a = false) -> find f l = None.
Proof.
  induction l as [|a l IH]; simpl; intros H; auto.
  rewrite (H a (or_introl eq_refl)). apply IH. auto.
Qed.

(** X18: the banner slot and the hook disagree about the placement
    ['all'].  When ads are configured and the only active banner ads that
    make the slot decide to show are registered for ['all'] (none for the
    slot's own placement), the slot reserves its space ([shouldShow]) and
    calls [showBanner], which finds no unit for the placement and makes no
    SDK call. *)
Theorem banner_slot_reserves_space_for_all_placement :
  forall (cap : CapacitorEnv) (h s : AdMobHook.Hook) (c : AdMobHook.AdMobConfig)
         (placement : string) (pos : Position) (w : oracle) (n : nat),
    isNativePlatform cap = true ->
    AdMobHook.isInitialized h = true ->
    AdMobHook.config h = Some c ->
    AdMobHook.enabled c = true ->
    placement <> "" ->
    (exists ad, In ad (AdMobHook.ads c)
                /\ ad_type ad = "banner" /\ ad_placement ad = "all"
                /\ is_active ad = true) ->
    (forall ad, In ad (AdMobHook.ads c) -> ad_type ad = "banner" ->
                is_active ad = true -> ad_placement ad <> placement) ->
    exec (AdsBannerSlot.slot_effect cap h placement pos) w n s
    = ([EAct (setState "shouldShow" "true");
        EAct (console_log "No banner ad configured for placement:")],
       s, Returned tt).
Proof.
  intros cap h s c placement pos w n Hnat Hinit Hcfg Hen Hpl
         (ad & Hin & Hty & Hall & Hact) Hnone.
  unfold AdsBannerSlot.slot_effect, AdsBannerSlot.hasAd, AdsBannerSlot.no_ads,
    AdMobHook.showBanner, AdMobHook.isAdsEnabled, AdMobHook.config_enabled,
    AdMobHook.getAdUnit, NativeApp.isNativeApp.
  rewrite Hnat, Hinit, Hcfg, Hen. cbn [negb orb].
  assert (Hhas : existsb
                   (fun ad0 =>
                      String.eqb (ad_type ad0) "banner"
                      && (String.eqb (ad_placement ad0) placement
                          || String.eqb (ad_placement ad0) "all")
                      && is_active ad0) (AdMobHook.ads c) = true).
  { apply existsb_exists. exists ad. split; auto.
    rewrite Hty, Hall, Hact. cbn. now rewrite orb_true_r. }
  rewrite Hhas. cbn [orb].
  assert (Hfind : find (AdmobDashboard.ad_matches "banner" (Some placement))
                       (AdMobHook.ads c) = None).
  { apply existsb_find_none. intros a Ha.
    unfold AdmobDashboard.ad_matches, AdmobDashboard.no_placement.
    apply String.eqb_neq in Hpl. rewrite Hpl. cbn [orb].
    destruct (String.eqb (ad_type a) "banner") eqn:Et; auto.
    destruct (is_active a) eqn:Eact; [|now rewrite andb_false_r].
    apply String.eqb_eq in Et.
    pose proof (Hnone a Ha Et Eact) as Hne.
    apply String.eqb_neq in Hne. now rewrite Hne. }
  destruct c as [en tm aid iid l]. cbn in *.
  destruct l as [|a l]; [destruct Hin|].
  rewrite Hfind. reflexivity.
Qed.

(** One banner registered for every placement. *)
Lemma banner_slot_witness :
  let cap := {| isNativePlatform := true; getPlatform := "android" |} in
  let c :=
    {| AdMobHook.enabled := true; AdMobHook.testMode := true;
       AdMobHook.androidAppId := "ca-app-pub-3940256099942544~3347511713";
       AdMobHook.iosAppId := "ca-app-pub-3940256099942544~1458002511";
       AdMobHook.ads :=
         [{| ad_name := "everywhere"; ad_type := "banner";
             ad_unit_id := "ca-app-pub-3940256099942544/6300978111";
             ad_placement := "all"; is_active := true;
             is_test_mode := true |}] |} in
  let h :=
    {| AdMobHook.isInitialized := true; AdMobHook.isBannerVisible := false;
       AdMobHook.isInterstitialLoaded := false;
       AdMobHook.isRewardedLoaded := false; AdMobHook.config := Some c |} in
  calls (trace_of (exec (AdsBannerSlot.slot_effect cap h "default_banner" bottom)
                        all_ok 0 h)) = [].
Proof.
  cbv zeta.
  erewrite (banner_slot_reserves_space_for_all_placement
              {| isNativePlatform := true; getPlatform := "android" |});
    [reflexivity|reflexivity|reflexivity|reflexivity|reflexivity
    |discriminate
    |eexists; simpl; split; [left; reflexivity|auto]
    |simpl; intros ad [<-|[]] _ _; discriminate].
Defined.

(** ** Purchase outcomes *)

(** X19: how a purchase ends when the balance covers the price.  In
    the VIP panel, a procedure call that succeeded is followed by the
    success toast, the closing of the panel, the clearing of the selection
    and the two refreshes; a call that failed (rejected, or answered with
    an error) is followed by the error log and the failure toast only, and
    the panel stays open.  The Subscriptions page does the same with its
    own toasts and dialog.  In every case the handler resets its busy
    marker last, and returns normally. *)
Theorem purchase_outcomes :
  forall (user : User) (plan : MembershipPlan) (walletBalance : number)
         (w : oracle) (n : nat),
    (price plan <= walletBalance)%Q ->
    let ok := succeeded _ (w n (purchase_rpc user plan)) in
    exec (MobileVIPPanel.handlePurchase (Some plan) (Some user) walletBalance)
         w n tt
    = ([EAct (setState "processingPurchase" "true");
        ECall (purchase_rpc user plan) ok]
       ++ (if ok then
             [EAct (toast "VIP Activated!" default_variant);
              EAct (onOpenChange false);
              EAct (setState "selectedPlan" "null");
              EAct (spawn "fetchWalletBalance");
              EAct (spawn "checkCurrentMembership")]
           else
             [EAct (console_error "Error subscribing:");
              EAct (toast "Failed" destructive)])
       ++ [EAct (setState "processingPurchase" "false")],
       tt, Returned tt)
    /\ exec (Subscriptions.handleConfirmPurchase (Some plan) (Some user)
               walletBalance) w n tt
       = ([EAct (setState "selectedPlan" (plan_id plan));
           ECall (purchase_rpc user plan) ok]
          ++ (if ok then
                [EAct (toast "Subscription Successful!" default_variant);
                 EAct (setState "confirmDialogOpen" "false");
                 EAct (spawn "checkCurrentMembership");
                 EAct (spawn "fetchWalletBalance")]
              else
                [EAct (console_error "Error subscribing:");
                 EAct (toast "Subscription Failed" destructive)])
          ++ [EAct (setState "selectedPlan" "null")],
          tt, Returned tt).
Proof.
  intros user plan walletBalance w n Hle ok. subst ok.
  apply lt_false_iff in Hle.
  unfold MobileVIPPanel.handlePurchase, Subscriptions.handleConfirmPurchase.
  rewrite Hle. cbn.
  destruct (w n (purchase_rpc user plan)) as [[err|]|e]; cbn;
    split; reflexivity.
Qed.

(** A purchase the server refuses. *)
Lemma purchase_outcomes_witness :
  let user := {| user_id := "u-1" |} in
  let plan := {| plan_id := "vip-month"; plan_name := "VIP"; price := 5 |} in
  let w : oracle := failing_at [0%nat] {| message := "declined" |} all_ok in
  trace_of (exec (MobileVIPPanel.handlePurchase (Some plan) (Some user) 20)
                 w 0 tt)
  = [EAct (setState "processingPurchase" "true");
     ECall (purchase_rpc user plan) false;
     EAct (console_error "Error subscribing:");
     EAct (toast "Failed" destructive);
     EAct (setState "processingPurchase" "false")].
Proof.
  cbv zeta.
  rewrite (proj1 (purchase_outcomes
                    {| user_id := "u-1" |}
                    {| plan_id := "vip-month"; plan_name := "VIP"; price := 5 |}
                    20 (failing_at [0%nat] {| message := "declined" |} all_ok)
                    0%nat ltac:(unfold Qle; simpl; lia))).
  reflexivity.
Defined.

(** Reduce a click on the Pay button to the one case in which it acts. *)
Ltac unfold_pay_click :=
  unfold VIPPanelView.onPayClick, VIPPanelView.payDisabled,
    MobileVIPPanel.handlePurchase;
  destruct (VIPPanelView.selectedPlan _) as [sel|]; cbn -[lt];
    [|try tauto; try reflexivity];
  match goal with
  | |- context [if ?b || _ then _ else _] =>
      destruct b; cbn -[lt]; [try tauto; try reflexivity|]
  end;
  match goal with
  | |- context [lt ?a ?b] =>
      let E := fresh "E" in
      destruct (lt a b) eqn:E; cbn -[lt]; [try tauto; try reflexivity|]
  end;
  match goal with
  | |- context [match ?user with Some _ => _ | None => _ end] =>
      destruct user as [u|]; cbn -[lt]; [|try tauto; try reflexivity]
  end;
  match goal with
  | E : lt _ _ = false |- _ => try rewrite E
  end; cbn -[lt].

(** X20: the VIP panel's plan cards and Pay button.  A click on a
    plan card selects that plan exactly when a user is signed in and the
    plan is not the current membership; without a user it opens the
    sign-in dialog instead and selects nothing.  The Pay button acts only
    while it is enabled, and then the purchase procedure is called for the
    selected plan; so the handler's own insufficient-balance toast is
    never reached through the button.  After a top-up the panel holds
    the new balance with the plan still selected, and the button is
    enabled exactly when that balance covers the price and no purchase is
    running. *)
Theorem vip_panel_click_paths :
  forall (membership_type : option string) (user : option User)
         (plan : MembershipPlan) (processingPurchase : bool)
         (p : VIPPanelView.Panel) (w : oracle) (n : nat),
    let clicked :=
      state_of (exec (VIPPanelView.onPlanClick membership_type user plan)
                     w n p) in
    let pay := exec (VIPPanelView.onPayClick processingPurchase user p) w n tt in
    (VIPPanelView.selectedPlan clicked =
       if match membership_type with
          | Some t => String.eqb t (plan_name plan)
          | None => false
          end
       then VIPPanelView.selectedPlan p
       else match user with
            | Some _ => Some plan
            | None => VIPPanelView.selectedPlan p
            end)
    /\ (user = None -> VIPPanelView.selectedPlan clicked
                       = VIPPanelView.selectedPlan p)
    /\ ~ In (EAct (toast "Insufficient Balance" destructive)) (trace_of pay)
    /\ (forall l, In l (calls (trace_of pay)) ->
                  exists u selected,
                    user = Some u
                    /\ VIPPanelView.selectedPlan p = Some selected
                    /\ l = purchase_rpc u selected
                    /\ processingPurchase = false
                    /\ (price selected <= VIPPanelView.walletBalance p)%Q)
    /\ completion_of pay = Returned tt
    /\ (forall newBalance selected,
           let topped :=
             state_of (exec (VIPPanelView.handleQRPaymentSuccess newBalance)
                            w n p) in
           VIPPanelView.walletBalance topped = newBalance
           /\ VIPPanelView.selectedPlan topped = VIPPanelView.selectedPlan p
           /\ VIPPanelView.showQRPayment topped = false
           /\ (VIPPanelView.payDisabled processingPurchase
                 (VIPPanelView.walletBalance topped) selected = false
               <-> processingPurchase = false
                   /\ (price selected <= newBalance)%Q)).
Proof.
  intros membership_type user plan processingPurchase p w n clicked pay.
  subst clicked pay.
  split; [|split; [|split; [|split; [|split]]]].
  - unfold VIPPanelView.onPlanClick, VIPPanelView.handleSelectPlan.
    destruct (match membership_type with
              | Some t => String.eqb t (plan_name plan)
              | None => false
              end); destruct user; reflexivity.
  - intros ->. unfold VIPPanelView.onPlanClick, VIPPanelView.handleSelectPlan.
    destruct (match membership_type with
              | Some t => String.eqb t (plan_name plan)
              | None => false
              end); reflexivity.
  - unfold_pay_click.
    destruct (w n (purchase_rpc u sel)) as [[err|]|e]; cbn;
      intuition discriminate.
  - intros l. unfold_pay_click. apply lt_false_iff in E.
    destruct (w n (purchase_rpc u sel)) as [[err|]|e]; cbn;
      intros [<-|[]]; eauto 10.
  - unfold_pay_click.
    destruct (w n (purchase_rpc u sel)) as [[err|]|e]; reflexivity.
  - intros newBalance selected. cbn -[lt].
    repeat split; try reflexivity.
    + unfold VIPPanelView.payDisabled in H.
      now apply orb_false_iff in H as [H _].
    + unfold VIPPanelView.payDisabled in H.
      apply orb_false_iff in H as [_ H]. now apply lt_false_iff.
    + intros [-> Hle]. unfold VIPPanelView.payDisabled. cbn -[lt].
      now apply lt_false_iff.
Qed.

(** A signed-in user paying for the selected plan. *)
Lemma vip_panel_click_paths_witness :
  let plan := {| plan_id := "vip-month"; plan_name := "VIP"; price := 5 |} in
  let p := {| VIPPanelView.selectedPlan := Some plan;
              VIPPanelView.showAuthDialog := false;
              VIPPanelView.showQRPayment := false;
              VIPPanelView.walletBalance := 20 |} in
  exists u selected,
    Some {| user_id := "u-1" |} = Some u
    /\ VIPPanelView.selectedPlan p = Some selected
    /\ purchase_rpc {| user_id := "u-1" |} plan = purchase_rpc u selected
    /\ false = false
    /\ (price selected <= VIPPanelView.walletBalance p)%Q.
Proof.
  cbv zeta.
  apply (proj1 (proj2 (proj2 (proj2
           (vip_panel_click_paths None (Some {| user_id := "u-1" |})
              {| plan_id := "vip-month"; plan_name := "VIP"; price := 5 |}
              false
              {| VIPPanelView.selectedPlan :=
                   Some {| plan_id := "vip-month"; plan_name := "VIP";
                           price := 5 |};
                 VIPPanelView.showAuthDialog := false;
                 VIPPanelView.showQRPayment := false;
                 VIPPanelView.walletBalance := 20 |}
              all_ok 0%nat))))).
  simpl. auto.
Defined.

Lemma find_plan_id (plans : list MembershipPlan) (planId : string)
      (plan : MembershipPlan) :
  find (fun p => String.eqb (plan_id p) planId) plans = Some plan ->
  In plan plans /\ plan_id plan = planId.
Proof.
  intros H. apply find_some in H as [Hin E].
  now apply String.eqb_eq in E.
Qed.

(** X21: from the Subscribe button to the purchase.  [handleSubscribe]
    opens the confirmation dialog only for a signed-in user and a plan of
    the list with the clicked id; a visitor is sent to the sign-in page
    and an unknown id does nothing, both leaving the page state as it
    was.  Confirming then calls the purchase procedure with the clicked
    plan id, the user's id and that plan's price, when the balance covers
    it. *)
Theorem subscribe_then_confirm :
  forall (plans : list MembershipPlan) (user : option User) (planId : string)
         (walletBalance : number) (w : oracle) (n : nat)
         (s : SubscriptionsPage.Page),
    let click :=
      exec (SubscriptionsPage.handleSubscribe plans user planId) w n s in
    calls (trace_of click) = []
    /\ completion_of click = Returned tt
    /\ (user = None ->
        state_of click = s
        /\ trace_of click = [EAct (toast "Login Required" destructive);
                             EAct (navigate "/auth")])
    /\ ((forall p, In p plans -> plan_id p <> planId) ->
        state_of click = s)
    /\ (forall u, user = Some u ->
        SubscriptionsPage.confirmDialogOpen (state_of click) = true ->
        SubscriptionsPage.confirmDialogOpen s = false ->
        exists plan,
          In plan plans /\ plan_id plan = planId
          /\ SubscriptionsPage.confirmPlanDetails (state_of click) = Some plan
          /\ ((price plan <= walletBalance)%Q ->
              calls (trace_of
                       (exec (Subscriptions.handleConfirmPurchase
                                (SubscriptionsPage.confirmPlanDetails
                                   (state_of click))
                                user walletBalance) w n tt))
              = [supabase_rpc "purchase_membership_with_wallet"
                   {| p_user_id := user_id u;
                      p_plan_id := planId;
                      p_amount := price plan |}])).
Proof.
  intros plans user planId walletBalance w n s click. subst click.
  unfold SubscriptionsPage.handleSubscribe.
  remember Subscriptions.handleConfirmPurchase as confirm eqn:Hconfirm.
  destruct user as [u|]; cbn.
  - destruct (find (fun p => String.eqb (plan_id p) planId) plans)
      as [plan|] eqn:F; cbn.
    + apply find_plan_id in F as [Hin Hid].
      repeat match goal with |- _ /\ _ => split end; auto.
      * discriminate.
      * intros Hnone. now apply Hnone in Hin.
      * intros u' Hu _ _. injection Hu as <-.
        exists plan. repeat split; auto.
        intros Hle. subst confirm.
        pose proof (handleConfirmPurchase_behaviour u plan walletBalance w n)
          as [Hcalls _].
        rewrite (Hcalls Hle). unfold purchase_rpc. now rewrite Hid.
    + repeat match goal with |- _ /\ _ => split end; auto.
      * discriminate.
      * intros u' _ Hopen Hclosed. congruence.
  - repeat match goal with |- _ /\ _ => split end; auto.
    intros u' Hu. discriminate.
Qed.

(** A signed-in user subscribing to the second plan. *)
Lemma subscribe_then_confirm_witness :
  let plans :=
    [{| plan_id := "basic"; plan_name := "Basic"; price := 3 |};
     {| plan_id := "vip"; plan_name := "VIP"; price := 9 |}] in
  let user := {| user_id := "u-1" |} in
  let s := {| SubscriptionsPage.confirmPlanDetails := None;
              SubscriptionsPage.confirmDialogOpen := false |} in
  exists plan,
    In plan plans /\ plan_id plan = "vip"
    /\ SubscriptionsPage.confirmPlanDetails
         (state_of (exec (SubscriptionsPage.handleSubscribe plans (Some user)
                            "vip") all_ok 0 s)) = Some plan.
Proof.
  cbv zeta.
  destruct (proj2 (proj2 (proj2 (proj2
             (subscribe_then_confirm
                [{| plan_id := "basic"; plan_name := "Basic"; price := 3 |};
                 {| plan_id := "vip"; plan_name := "VIP"; price := 9 |}]
                (Some {| user_id := "u-1" |}) "vip" 10 all_ok 0%nat
                {| SubscriptionsPage.confirmPlanDetails := None;
                   SubscriptionsPage.confirmDialogOpen := false |}))))
             {| user_id := "u-1" |} eq_refl eq_refl eq_refl)
    as (plan & Hin & Hid & Hset & _).
  exists plan. auto.
Defined.

(** ** Loading the ad slot's configuration *)

(** X22: [fetchAdConfig] ends in exactly one of two ways.  Either it
    stores the native configuration, which happens only when both queries
    succeeded, an ad row came back and the settings do not disable ads
    (missing settings count as enabled); or it ends by asking for the web
    ad of the placement.  In both cases it returns normally and its last
    step clears [isLoading].  Off a native platform the mount effect goes
    straight to the web ad. *)
Theorem fetchAdConfig_outcome :
  forall (cap : CapacitorEnv) (placement : string) (w : oracle) (n : nat),
    let run := exec (fetchAdConfig cap placement) w n tt in
    let tr := trace_of run in
    completion_of run = Returned tt
    /\ last tr (EAct (setState "isLoading" "true"))
       = EAct (setState "isLoading" "false")
    /\ (forall name,
           In (EAct (setState "adConfig" name)) tr ->
           calls tr = [select_slot_ad placement (getPlatform cap);
                       select_global_settings]
           /\ no_failure tr = true
           /\ exists adRow settingsData,
                w n (select_slot_ad placement (getPlatform cap))
                = Resolved (Some adRow)
                /\ w (S n) select_global_settings = Resolved settingsData
                /\ settings_enabled (settings_of settingsData) = true
                /\ name = ad_name adRow)
    /\ ((forall name, ~ In (EAct (setState "adConfig" name)) tr) ->
        exists before, calls tr = before ++ [select_web_ad placement])
    /\ (isNativePlatform cap = false ->
        calls (trace_of (exec (mount_effect cap placement) w n tt))
        = [select_web_ad placement]).
Proof.
  intros cap placement w n run tr. subst tr run.
  unfold mount_effect, fetchAdConfig, fetchWebAd.
  repeat match goal with |- _ /\ _ => split end.
  - split_run; reflexivity.
  - split_run; reflexivity.
  - intros name. split_run; cbn; intros H;
      repeat match goal with
             | H : _ \/ _ |- _ => destruct H as [H|H]
             end; try discriminate; try contradiction.
    all: injection H as <-; repeat split; eauto 10.
  - split_run; cbn; intros Hnone;
      first [ eexists [_; _]; reflexivity
            | eexists [_]; reflexivity
            | exfalso; eapply Hnone; simpl; eauto 10 ].
  - intros Hweb. rewrite Hweb. split_run; reflexivity.
Qed.

(** No ad row for the placement: the web ad is asked for. *)
Lemma fetchAdConfig_outcome_witness :
  exists before,
    calls (trace_of (exec (fetchAdConfig android "watch_screen_bottom_banner")
                          all_ok 0 tt))
    = before ++ [select_web_ad "watch_screen_bottom_banner"].
Proof.
  apply (proj1 (proj2 (proj2 (proj2
           (fetchAdConfig_outcome android "watch_screen_bottom_banner"
              all_ok 0%nat))))).
  simpl. intros name H.
  repeat match goal with
         | H : _ \/ _ |- _ => destruct H as [H|H]
         end; try discriminate; contradiction.
Defined.

(** ** The ad slot as a state machine *)

Section SlotInvariants.

Variable slotPosition : Position.
Variable pluginAvailable : bool.

Lemma calls_in_order_run_effect c :
  calls_in_order slotPosition pluginAvailable c ->
  calls_in_order slotPosition pluginAvailable
    (run_effect slotPosition pluginAvailable c).
Proof.
  intros (Hall & Hcfg & Hfirst).
  destruct (run_effect_cases slotPosition pluginAvailable c)
    as [->|[(k & -> & _ & Hp & Hs & _)
           |(cfg & k & -> & _ & Hp & _ & Hc & _)]].
  - exact (conj Hall (conj Hcfg Hfirst)).
  - unfold calls_in_order. cbn [slot inflight invoked].
    destruct (invoked c) as [|l ls] eqn:E.
    + destruct Hfirst as [Hf _]. congruence.
    + split; [|split].
      * apply Forall_app. split; auto. constructor; [now left|constructor].
      * intros _. apply Hcfg. discriminate.
      * exact Hfirst.
  - unfold calls_in_order. cbn [slot inflight invoked].
    split; [|split].
    + apply Forall_app. split; auto.
      constructor; [right; now exists cfg|constructor].
    + intros _. split; [congruence|exact Hp].
    + destruct (invoked c) as [|l ls]; cbn; [discriminate|exact Hfirst].
Qed.

Lemma calls_in_order_reachable c :
  reachable slotPosition pluginAvailable c ->
  calls_in_order slotPosition pluginAvailable c.
Proof.
  intros Hr. pose proof (well_formed_reachable _ _ _ Hr) as Hwf. revert Hwf.
  induction Hr as [|c cfg Hr IH|c b Hr IH|c i w Hr IH]; intros Hwf.
  - repeat split; cbn; auto; congruence.
  - pose proof (IH (well_formed_reachable _ _ _ Hr)) as (Hall & Hcfg & Hfirst).
    apply calls_in_order_run_effect.
    unfold calls_in_order, with_slot. cbn [slot inflight invoked].
    split; [exact Hall|]. split.
    + intros Hne. split; [discriminate|now apply Hcfg].
    + exact Hfirst.
  - pose proof (IH (well_formed_reachable _ _ _ Hr)) as (Hall & Hcfg & Hfirst).
    unfold onIntersection.
    destruct (Bool.eqb b (isInView (slot c)));
      [exact (conj Hall (conj Hcfg Hfirst))|].
    apply calls_in_order_run_effect.
    unfold calls_in_order, with_slot. cbn [slot inflight invoked].
    exact (conj Hall (conj Hcfg Hfirst)).
  - pose proof (well_formed_reachable _ _ _ Hr) as (Hwall & _ & _).
    pose proof (IH (well_formed_reachable _ _ _ Hr)) as (Hall & Hcfg & Hfirst).
    unfold onSettled.
    destruct (nth_error (inflight c) i) as [[l k]|] eqn:Enth;
      [|exact (conj Hall (conj Hcfg Hfirst))].
    pose proof (nth_error_In _ _ Enth) as Hin.
    assert (Hne : invoked c <> []).
    { intros E. rewrite E in Hfirst. destruct Hfirst as [_ Hnil].
      rewrite Hnil in Hin. destruct Hin. }
    assert (Hafter :
              calls_in_order slotPosition pluginAvailable
                (start (k (w i l))
                   {| slot := slot c;
                      inflight :=
                        firstn i (inflight c) ++ skipn (S i) (inflight c);
                      invoked := invoked c |})).
    { rewrite Forall_forall in Hwall.
      destruct (Hwall _ Hin) as [[Hl Hk]|[[o Hl] Hk]];
        unfold start; cbn [slot inflight invoked]; cbn in Hk;
        rewrite Hk; unfold with_slot, calls_in_order;
        cbn [slot inflight invoked];
        (split; [exact Hall|]);
        destruct (succeeded l (w i l)); cbn;
        (split; [exact Hcfg|]);
        destruct (invoked c); auto; congruence. }
    destruct (Bool.eqb _ _); [exact Hafter|].
    now apply calls_in_order_run_effect.
Qed.

End SlotInvariants.



(** ** Pagination of the desktop grid *)

Local Open Scope Z_scope.

Ltac decide_comparisons :=
  repeat match goal with
         | |- context [Z.gtb ?a ?b] => rewrite (Z.gtb_ltb a b)
         | |- context [Z.eqb ?a ?b] => destruct (Z.eqb_spec a b); try lia
         | |- context [Z.ltb ?a ?b] => destruct (Z.ltb_spec a b); try lia
         | |- context [Z.leb ?a ?b] => destruct (Z.leb_spec a b); try lia
         end.

Ltac check_items :=
  cbn -[Z.eqb Z.ltb Z.leb Z.gtb]; decide_comparisons;
  cbn -[Z.eqb Z.ltb Z.leb Z.gtb]; decide_comparisons;
  repeat match goal with |- _ /\ _ => split end;
  try reflexivity; try lia; try congruence;
  try (repeat constructor; lia).

(** X24: the pagination bar for a current page inside [1, totalPages].
    The links start with page 1 and end with the last page, every link
    leads to a page that exists, exactly the current page is drawn active,
    neighbouring links are consecutive pages and an ellipsis stands
    exactly where pages are left out, and the bar never has more than
    seven entries. *)
Theorem pagination_items_cover_the_range :
  forall totalPages currentPage : Z,
    1 <= currentPage <= totalPages ->
    let items := PaginatedGrid.renderPaginationItems totalPages currentPage in
    hd_error (PaginatedGrid.pages items) = Some 1
    /\ last (PaginatedGrid.pages items) 0 = totalPages
    /\ Forall (fun p => 1 <= p <= totalPages) (PaginatedGrid.pages items)
    /\ PaginatedGrid.active_pages items = [currentPage]
    /\ PaginatedGrid.gaps_marked items = true
    /\ (List.length items <= 7)%nat.
Proof.
  intros totalPages currentPage [Hlo Hhi] items. subst items.
  unfold PaginatedGrid.renderPaginationItems, PaginatedGrid.links_between.
  destruct (Z.leb_spec totalPages 5) as [Hsmall|Hlarge].
  - assert (Ht : totalPages = 1 \/ totalPages = 2 \/ totalPages = 3
                 \/ totalPages = 4 \/ totalPages = 5) by lia.
    destruct Ht as [->|[->|[->|[->| ->]]]];
      change (Z.to_nat (1 - 1 + 1)) with 1%nat;
      change (Z.to_nat (2 - 1 + 1)) with 2%nat;
      change (Z.to_nat (3 - 1 + 1)) with 3%nat;
      change (Z.to_nat (4 - 1 + 1)) with 4%nat;
      change (Z.to_nat (5 - 1 + 1)) with 5%nat;
      check_items.
  - destruct (Z.max_spec 2 (currentPage - 1)) as [[Hs ->]|[Hs ->]];
      destruct (Z.min_spec (totalPages - 1) (currentPage + 1))
        as [[Hm ->]|[Hm ->]].
    + (* the window runs from the page before to the page before the last *)
      assert (Hc : currentPage = totalPages - 2 \/ currentPage = totalPages - 1
                   \/ currentPage = totalPages) by lia.
      destruct Hc as [->|[->| ->]].
      * replace (totalPages - 1 - (totalPages - 2 - 1) + 1) with 3 by lia.
        change (Z.to_nat 3) with 3%nat. check_items.
      * replace (totalPages - 1 - (totalPages - 1 - 1) + 1) with 2 by lia.
        change (Z.to_nat 2) with 2%nat. check_items.
      * replace (totalPages - 1 - (totalPages - 1) + 1) with 1 by lia.
        change (Z.to_nat 1) with 1%nat. check_items.
    + replace (currentPage + 1 - (currentPage - 1) + 1) with 3 by lia.
      change (Z.to_nat 3) with 3%nat. check_items.
    + lia.
    + assert (Hc : currentPage = 1 \/ currentPage = 2 \/ currentPage = 3)
        by lia.
      destruct Hc as [->|[->| ->]];
        change (Z.to_nat (1 + 1 - 2 + 1)) with 1%nat;
        change (Z.to_nat (2 + 1 - 2 + 1)) with 2%nat;
        change (Z.to_nat (3 + 1 - 2 + 1)) with 3%nat;
        check_items.
Qed.

(** Page 7 of 20. *)
Lemma pagination_items_witness :
  PaginatedGrid.renderPaginationItems 20 7
  = [ PaginatedGrid.PaginationLink 1 false;
      PaginatedGrid.PaginationEllipsis;
      PaginatedGrid.PaginationLink 6 false;
      PaginatedGrid.PaginationLink 7 true;
      PaginatedGrid.PaginationLink 8 false;
      PaginatedGrid.PaginationEllipsis;
      PaginatedGrid.PaginationLink 20 false ]
  /\ PaginatedGrid.gaps_marked (PaginatedGrid.renderPaginationItems 20 7)
     = true.
Proof.
  split; [reflexivity|].
  apply (pagination_items_cover_the_range 20 7). lia.
Defined.

Lemma Math_ceil_div_bounds (a b : Z) :
  0 < b ->
  b * (PaginatedGrid.Math_ceil_div a b - 1) < a
  <= b * PaginatedGrid.Math_ceil_div a b.
Proof.
  intros Hb. unfold PaginatedGrid.Math_ceil_div.
  pose proof (Z.div_mod (- a) b ltac:(lia)) as Hdm.
  pose proof (Z.mod_pos_bound (- a) b Hb) as Hmod.
  nia.
Qed.

(** X25: the pages partition the results.  With [count] results and a
    positive page size, the query ranges of pages 1 to [totalPages] start
    at 0, follow one another without gap or overlap, each hold a page
    size of indices, and together contain every result index; the last
    page is not empty.  The Previous and Next arrows never leave
    [1, totalPages].  The page size is 24 for a window 768 to 1279 wide
    and 35 otherwise. *)
Theorem pages_partition_the_results :
  forall (itemsPerPage count : Z),
    0 < itemsPerPage -> 0 <= count ->
    let totalPages := PaginatedGrid.totalPages_of (Some count) itemsPerPage in
    PaginatedGrid.range_from itemsPerPage 1 = 0
    /\ (forall p,
           PaginatedGrid.range_from itemsPerPage (p + 1)
           = PaginatedGrid.range_to itemsPerPage p + 1
           /\ PaginatedGrid.range_to itemsPerPage p
              - PaginatedGrid.range_from itemsPerPage p + 1 = itemsPerPage)
    /\ (forall i, 0 <= i < count ->
                  exists p, 1 <= p <= totalPages
                            /\ PaginatedGrid.range_from itemsPerPage p <= i
                               <= PaginatedGrid.range_to itemsPerPage p)
    /\ (0 < count ->
        1 <= totalPages
        /\ PaginatedGrid.range_from itemsPerPage totalPages < count)
    /\ (count = 0 -> totalPages = 0)
    /\ (forall currentPage p,
           1 <= currentPage <= totalPages ->
           PaginatedGrid.onPrevious currentPage = Some p
           \/ PaginatedGrid.onNext totalPages currentPage = Some p ->
           1 <= p <= totalPages)
    /\ (forall width,
           let pageSize :=
             PaginatedGrid.ITEMS_PER_PAGE (PaginatedGrid.checkIsTablet width) in
           0 < pageSize
           /\ (pageSize = 24 <-> 768 <= width <= 1279)
           /\ (pageSize = 35 <-> ~ 768 <= width <= 1279)).
Proof.
  intros itemsPerPage count Hipp Hcount totalPages.
  pose proof (Math_ceil_div_bounds count itemsPerPage Hipp) as Hceil.
  subst totalPages.
  unfold PaginatedGrid.totalPages_of, PaginatedGrid.range_to,
    PaginatedGrid.range_from.
  set (total := PaginatedGrid.Math_ceil_div count itemsPerPage) in *.
  repeat match goal with |- _ /\ _ => split end.
  - lia.
  - intros p. split; ring.
  - intros i Hi. exists (i / itemsPerPage + 1).
    pose proof (Z.div_mod i itemsPerPage ltac:(lia)) as Hdm.
    pose proof (Z.mod_pos_bound i itemsPerPage Hipp) as Hmod.
    pose proof (Z.div_pos i itemsPerPage ltac:(lia) Hipp) as Hq.
    repeat split; try nia.
  - intros Hpos. split; nia.
  - intros Hzero. nia.
  - intros currentPage p Hc.
    unfold PaginatedGrid.onPrevious, PaginatedGrid.onNext.
    rewrite Z.gtb_ltb.
    destruct (Z.ltb_spec 1 currentPage) as [Hp|Hp],
             (Z.ltb_spec currentPage total) as [Hn|Hn];
      intros [E|E]; try discriminate; injection E as <-; lia.
  - intros width. unfold PaginatedGrid.ITEMS_PER_PAGE,
      PaginatedGrid.checkIsTablet, PaginatedGrid.MIN_TABLET_WIDTH,
      PaginatedGrid.MAX_TABLET_WIDTH.
    rewrite Z.geb_leb.
    destruct (Z.leb_spec 768 width), (Z.leb_spec width 1279); cbn;
      repeat split; intros; try lia; try discriminate.
Qed.

(** 100 titles on a desktop. *)
Lemma pages_partition_witness :
  PaginatedGrid.totalPages_of (Some 100) (PaginatedGrid.ITEMS_PER_PAGE false) = 3
  /\ PaginatedGrid.range_from 35 3 < 100.
Proof.
  split; [reflexivity|].
  apply (pages_partition_the_results 35 100); lia.
Defined.

(** ** The hero banner's slide index *)

Lemma rem_step_forward (len i : Z) :
  0 <= i < len ->
  Z.rem (i + 1) len = if i =? len - 1 then 0 else i + 1.
Proof.
  intros Hi. rewrite Z.rem_mod_nonneg by lia.
  destruct (Z.eqb_spec i (len - 1)) as [E|E].
  - replace (i + 1) with len by lia. apply Z_mod_same_full.
  - apply Z.mod_small. lia.
Qed.

Lemma rem_step_backward (len i : Z) :
  0 <= i < len ->
  Z.rem (i - 1 + len) len = if i =? 0 then len - 1 else i - 1.
Proof.
  intros Hi. rewrite Z.rem_mod_nonneg by lia.
  destruct (Z.eqb_spec i 0) as [E|E].
  - replace (i - 1 + len) with (len - 1) by lia. apply Z.mod_small. lia.
  - replace (i - 1 + len) with (i - 1 + 1 * len) by lia.
    rewrite Z_mod_plus_full. apply Z.mod_small. lia.
Qed.

(** X26: with at least one slide and the index inside the slides,
    stepping forward or backward keeps the index inside the slides and
    wraps around at either end; the two steps undo each other.  A jump
    to a given index is taken as it is. *)
Theorem slide_index_wraps_around :
  forall (slides_length currentIndex : Z),
    0 <= currentIndex < slides_length ->
    let forward :=
      HeroBanner.handleSlideChange slides_length HeroBanner.next currentIndex in
    let backward :=
      HeroBanner.handleSlideChange slides_length HeroBanner.prev currentIndex in
    forward = (if currentIndex =? slides_length - 1 then 0
               else currentIndex + 1)
    /\ backward = (if currentIndex =? 0 then slides_length - 1
                   else currentIndex - 1)
    /\ 0 <= forward < slides_length
    /\ 0 <= backward < slides_length
    /\ HeroBanner.handleSlideChange slides_length HeroBanner.prev forward
       = currentIndex
    /\ HeroBanner.handleSlideChange slides_length HeroBanner.next backward
       = currentIndex
    /\ (forall index,
           HeroBanner.handleSlideChange slides_length (HeroBanner.goto index)
             currentIndex = index).
Proof.
  intros len i Hi forward backward. subst forward backward.
  unfold HeroBanner.handleSlideChange.
  rewrite (rem_step_forward len i Hi), (rem_step_backward len i Hi).
  assert (Hf : 0 <= (if i =? len - 1 then 0 else i + 1) < len)
    by (destruct (Z.eqb_spec i (len - 1)); lia).
  assert (Hb : 0 <= (if i =? 0 then len - 1 else i - 1) < len)
    by (destruct (Z.eqb_spec i 0); lia).
  rewrite (rem_step_backward len _ Hf), (rem_step_forward len _ Hb).
  repeat match goal with |- _ /\ _ => split end; auto; try lia.
  - destruct (Z.eqb_spec i (len - 1));
      match goal with
      | |- context [Z.eqb ?a ?b] => destruct (Z.eqb_spec a b); lia
      end.
  - destruct (Z.eqb_spec i 0);
      match goal with
      | |- context [Z.eqb ?a ?b] => destruct (Z.eqb_spec a b); lia
      end.
Qed.

(** The last of five slides. *)
Lemma slide_index_witness :
  HeroBanner.handleSlideChange 5 HeroBanner.next 4 = 0
  /\ HeroBanner.handleSlideChange 5 HeroBanner.prev
       (HeroBanner.handleSlideChange 5 HeroBanner.next 4) = 4.
Proof.
  split; [reflexivity|].
  apply (slide_index_wraps_around 5 4). lia.
Defined.

Local Close Scope Z_scope.

(** ** Pinch-to-zoom *)

Local Open Scope Q_scope.

Lemma Math_max_cases (a b : number) :
  (JsMath.Math_max a b = a /\ b <= a) \/ (JsMath.Math_max a b = b /\ a < b).
Proof.
  unfold JsMath.Math_max. destruct (lt a b) eqn:E.
  - right. split; auto. now apply lt_true_iff.
  - left. split; auto. now apply lt_false_iff.
Qed.

Lemma Math_min_cases (a b : number) :
  (JsMath.Math_min a b = a /\ a <= b) \/ (JsMath.Math_min a b = b /\ b < a).
Proof.
  unfold JsMath.Math_min. destruct (lt b a) eqn:E.
  - right. split; auto. now apply lt_true_iff.
  - left. split; auto. now apply lt_false_iff.
Qed.

(** [Math.min(Math.max(x, lo), hi)] with [lo <= hi] lies in [lo, hi] and
    leaves a value of that interval alone. *)
Lemma clamp_between (x lo hi : number) :
  lo <= hi ->
  let c := JsMath.Math_min (JsMath.Math_max x lo) hi in
  lo <= c <= hi /\ (lo <= x <= hi -> c = x).
Proof.
  intros Hle c. subst c.
  destruct (Math_max_cases x lo) as [[-> H1]|[-> H1]];
    [destruct (Math_min_cases x hi) as [[-> H2]|[-> H2]]
    |destruct (Math_min_cases lo hi) as [[-> H2]|[-> H2]]];
    (split; [split; lra|intros [Ha Hb]; try reflexivity; lra]).
Qed.

Lemma clamp_fixed (x lo hi : number) :
  lo <= hi -> lo <= x <= hi ->
  JsMath.Math_min (JsMath.Math_max x lo) hi = x.
Proof.
  intros Hle Hx. now apply (clamp_between x lo hi Hle).
Qed.

(** X27: [applyTransform] does nothing without a video or a container;
    otherwise, for a container of non-negative size, the zoom it sets has
    a scale between 1 and 4 and a translation that keeps the scaled video
    over the container: at most half the overflow in each direction, so
    none at scale 1.  A scale already between 1 and 4 is taken as it is,
    and applying the function to its own result changes nothing.  When
    the last finger lifts, the zoom is either reset to 1x or stays with a
    scale of at least 1.1. *)
Theorem applyTransform_keeps_video_in_bounds :
  forall (rect : PinchToZoom.Rect) (newScale newTranslateX newTranslateY : number)
         (z : PinchToZoom.Zoom),
    0 <= PinchToZoom.width rect -> 0 <= PinchToZoom.height rect ->
    PinchToZoom.applyTransform true (Some rect) newScale
      newTranslateX newTranslateY = Some z ->
    let overflowX :=
      (PinchToZoom.width rect * PinchToZoom.scale z - PinchToZoom.width rect)
      / 2 in
    let overflowY :=
      (PinchToZoom.height rect * PinchToZoom.scale z - PinchToZoom.height rect)
      / 2 in
    1 <= PinchToZoom.scale z <= 4
    /\ (- overflowX <= PinchToZoom.translateX z <= overflowX)
    /\ (- overflowY <= PinchToZoom.translateY z <= overflowY)
    /\ (1 <= newScale <= 4 -> PinchToZoom.scale z = newScale)
    /\ (newScale <= 1 ->
        PinchToZoom.scale z == 1
        /\ PinchToZoom.translateX z == 0 /\ PinchToZoom.translateY z == 0)
    /\ PinchToZoom.applyTransform true (Some rect) (PinchToZoom.scale z)
         (PinchToZoom.translateX z) (PinchToZoom.translateY z) = Some z
    /\ (forall s x y,
           PinchToZoom.applyTransform false (Some rect) s x y = None
           /\ PinchToZoom.applyTransform true None s x y = None)
    /\ (let lifted := PinchToZoom.handleTouchEnd_all_lifted z in
        lifted = PinchToZoom.initial
        \/ (lifted = z /\ (11 # 10) <= PinchToZoom.scale z <= 4)).
Proof.
  intros [w h] newScale tx ty z Hw Hh Hz overflowX overflowY.
  unfold PinchToZoom.applyTransform in Hz. cbn [negb] in Hz.
  cbn [PinchToZoom.width PinchToZoom.height] in *.
  unfold PinchToZoom.MIN_SCALE, PinchToZoom.MAX_SCALE in Hz.
  destruct (clamp_between newScale 1 4 ltac:(lra)) as [Hs Hsame].
  assert (Hone : newScale <= 1 ->
                 JsMath.Math_min (JsMath.Math_max newScale 1) 4 == 1).
  { intros Hle.
    destruct (Math_max_cases newScale 1) as [[-> ?]|[-> ?]];
      [destruct (Math_min_cases newScale 4) as [[-> ?]|[-> ?]]
      |destruct (Math_min_cases 1 4) as [[-> ?]|[-> ?]]]; lra. }
  set (s := JsMath.Math_min (JsMath.Math_max newScale 1) 4) in *.
  assert (Hpx : 0 <= w * (s - 1)) by (apply Qmult_le_0_compat; lra).
  assert (Hpy : 0 <= h * (s - 1)) by (apply Qmult_le_0_compat; lra).
  assert (Ex : (w * s - w) / 2 == (w * s - w) * (1 # 2)) by field.
  assert (Ey : (h * s - h) / 2 == (h * s - h) * (1 # 2)) by field.
  set (ox := (w * s - w) / 2) in *.
  set (oy := (h * s - h) / 2) in *.
  destruct (Math_max_cases 0 ox) as [[Hmx Hmx']|[Hmx Hmx']];
    destruct (Math_max_cases 0 oy) as [[Hmy Hmy']|[Hmy Hmy']].
  all: rewrite Hmx, Hmy in Hz.
  all: match type of Hz with
       | Some {| PinchToZoom.scale := _;
                 PinchToZoom.translateX :=
                   JsMath.Math_min (JsMath.Math_max _ (- ?mx)) ?mx;
                 PinchToZoom.translateY :=
                   JsMath.Math_min (JsMath.Math_max _ (- ?my)) ?my |} = _ =>
           destruct (clamp_between tx (- mx) mx ltac:(lra)) as [Hx _];
           destruct (clamp_between ty (- my) my ltac:(lra)) as [Hy _];
           pose proof (clamp_fixed _ (- mx) mx ltac:(lra) Hx) as Fx;
           pose proof (clamp_fixed _ (- my) my ltac:(lra) Hy) as Fy
       end.
  all: injection Hz as <-; subst overflowX overflowY;
       cbn [PinchToZoom.scale PinchToZoom.translateX PinchToZoom.translateY];
       fold ox; fold oy.
  all: repeat match goal with |- _ /\ _ => split end;
       try lra; try (intros; apply Hsame; lra).
  all: try (intros Hle; specialize (Hone Hle);
            assert (ox == 0) by (rewrite Ex; nra);
            assert (oy == 0) by (rewrite Ey; nra);
            repeat split; lra).
  all: try (intros; split; reflexivity).
  all: try (unfold PinchToZoom.handleTouchEnd_all_lifted, PinchToZoom.resetZoom;
            cbn [PinchToZoom.scale];
            destruct (lt s (11 # 10)) eqn:Esnap;
            [now left|right; apply lt_false_iff in Esnap; split; [reflexivity|lra]]).
  all: unfold PinchToZoom.applyTransform; cbn [negb];
       cbn [PinchToZoom.width PinchToZoom.height];
       unfold PinchToZoom.MIN_SCALE, PinchToZoom.MAX_SCALE;
       rewrite (clamp_fixed s 1 4) by lra;
       fold ox; fold oy;
       rewrite Hmx, Hmy;
       rewrite Fx, Fy; reflexivity.
Qed.

(** A pinch to six times the size on a 400 by 300 container, dragged
    far to the right. *)
Lemma applyTransform_witness :
  PinchToZoom.applyTransform true
    (Some {| PinchToZoom.width := 400; PinchToZoom.height := 300 |})
    6 5000 0
  = Some {| PinchToZoom.scale := 4;
            PinchToZoom.translateX := (400 * 4 - 400) / 2;
            PinchToZoom.translateY := 0 |}
  /\ 1 <= 4 <= 4.
Proof.
  split; [reflexivity|].
  apply (applyTransform_keeps_video_in_bounds
           {| PinchToZoom.width := 400; PinchToZoom.height := 300 |}
           6 5000 0
           {| PinchToZoom.scale := 4;
              PinchToZoom.translateX := (400 * 4 - 400) / 2;
              PinchToZoom.translateY := 0 |});
    [unfold Qle; simpl; lia | unfold Qle; simpl; lia | reflexivity].
Defined.

Local Close Scope Q_scope.

(** ** The hooks keep failures to themselves *)

Ltac unfold_hooks :=
  unfold AdMobHook.initialize, AdMobHook.showBanner, AdMobHook.hideBanner,
    AdMobHook.prepareInterstitial, AdMobHook.showInterstitial,
    AdMobHook.prepareRewarded, AdMobHook.showRewarded,
    AdMobHook.setIsInitialized, AdMobHook.setIsBannerVisible,
    AdMobHook.setIsInterstitialLoaded, AdMobHook.setIsRewardedLoaded,
    AdMobHookStatic.initialize, AdMobHookStatic.showBanner,
    AdMobHookStatic.hideBanner, AdMobHookStatic.prepareInterstitial,
    AdMobHookStatic.showInterstitial, AdMobHookStatic.prepareRewarded,
    AdMobHookStatic.showRewarded,
    AdMobHookStatic.setIsInitialized, AdMobHookStatic.setIsBannerVisible,
    AdMobHookStatic.setIsInterstitialLoaded,
    AdMobHookStatic.setIsRewardedLoaded,
    AdsBannerSlot.slot_effect, AdsBannerSlot.slot_cleanup in *.

(** X28: no function of the two AdMob hooks, nor the banner slot's
    effect and cleanup built on them, can throw: every SDK failure is
    caught and logged inside.  Off a native platform none of them calls
    the SDK, with the one exception of [showInterstitial] in the hook
    with built-in units.  Both hooks set [isInitialized] only after the
    SDK's [initialize] succeeded, and call it at most once per call and
    never while the flag is set. *)
Theorem hooks_contain_failures :
  forall (cap : CapacitorEnv) (placement : option string) (pos : Position)
         (slotPlacement : string),
    (forall h : AdMobHook.Hook,
        never_throws (AdMobHook.initialize cap h)
        /\ never_throws (AdMobHook.showBanner cap h pos placement)
        /\ never_throws (AdMobHook.hideBanner cap)
        /\ never_throws (AdMobHook.prepareInterstitial cap h placement)
        /\ never_throws (AdMobHook.showInterstitial cap h placement)
        /\ never_throws (AdMobHook.prepareRewarded cap h placement)
        /\ never_throws (AdMobHook.showRewarded cap h placement)
        /\ never_throws (AdsBannerSlot.slot_effect cap h slotPlacement pos)
        /\ never_throws (AdsBannerSlot.slot_cleanup cap h))
    /\ (forall h : AdMobHookStatic.Hook,
           never_throws (AdMobHookStatic.initialize cap h)
           /\ never_throws (AdMobHookStatic.showBanner cap h pos)
           /\ never_throws (AdMobHookStatic.hideBanner cap)
           /\ never_throws (AdMobHookStatic.prepareInterstitial cap h)
           /\ never_throws (AdMobHookStatic.showInterstitial cap h)
           /\ never_throws (AdMobHookStatic.prepareRewarded cap h)
           /\ never_throws (AdMobHookStatic.showRewarded cap h))
    /\ (isNativePlatform cap = false ->
        forall (w : oracle) (n : nat),
          (forall h s : AdMobHook.Hook,
              Forall (fun p => calls (trace_of (exec p w n s)) = [])
                [AdMobHook.initialize cap h;
                 AdMobHook.showBanner cap h pos placement;
                 AdMobHook.hideBanner cap;
                 AdMobHook.prepareInterstitial cap h placement;
                 AdMobHook.showInterstitial cap h placement;
                 AdMobHook.prepareRewarded cap h placement;
                 AdsBannerSlot.slot_effect cap h slotPlacement pos]
              /\ exec (AdMobHook.showRewarded cap h placement) w n s
                 = ([], s, Returned (Settled None)))
          /\ (forall h s : AdMobHookStatic.Hook,
                 Forall (fun p => calls (trace_of (exec p w n s)) = [])
                   [AdMobHookStatic.initialize cap h;
                    AdMobHookStatic.showBanner cap h pos;
                    AdMobHookStatic.hideBanner cap;
                    AdMobHookStatic.prepareInterstitial cap h;
                    AdMobHookStatic.prepareRewarded cap h]
                 /\ exec (AdMobHookStatic.showRewarded cap h) w n s
                    = ([], s, Returned (Settled None))))
    /\ (forall (w : oracle) (n : nat),
           (forall h s : AdMobHook.Hook,
               let run := exec (AdMobHook.initialize cap h) w n s in
               (List.length (calls (trace_of run)) <= 1)%nat
               /\ (AdMobHook.isInitialized h = true -> trace_of run = [])
               /\ (AdMobHook.isInitialized (state_of run) = true ->
                   AdMobHook.isInitialized s = true
                   \/ exists b, calls_ok (trace_of run) = [AdMob_initialize b]))
           /\ (forall h s : AdMobHookStatic.Hook,
                  let run := exec (AdMobHookStatic.initialize cap h) w n s in
                  (List.length (calls (trace_of run)) <= 1)%nat
                  /\ (AdMobHookStatic.isInitialized h = true ->
                      trace_of run = [])
                  /\ (AdMobHookStatic.isInitialized (state_of run) = true ->
                      AdMobHookStatic.isInitialized s = true
                      \/ calls_ok (trace_of run) = [AdMob_initialize true]))).
Proof.
  intros cap placement pos slotPlacement.
  split; [|split; [|split]].
  - intros h. do 2 unfold_hooks.
    repeat match goal with |- _ /\ _ => split end; prove_safe.
  - intros h. do 2 unfold_hooks.
    repeat match goal with |- _ /\ _ => split end; prove_safe.
  - intros Hweb w n. do 2 unfold_hooks. unfold NativeApp.isNativeApp.
    rewrite Hweb. cbn [negb orb].
    split; intros h s; (split; [|reflexivity]);
      repeat first [apply Forall_nil | apply Forall_cons];
      try reflexivity.
    destruct (AdMobHook.config h); reflexivity.
  - intros w n. unfold_hooks. unfold NativeApp.isNativeApp.
    split; intros h s; cbv zeta.
    + destruct (AdMobHook.config h) as [c|] eqn:Ecfg; cbn;
        [|repeat split; auto; lia].
      destruct (isNativePlatform cap); cbn; [|repeat split; auto; lia].
      destruct (AdMobHook.isInitialized h); cbn; [repeat split; auto; lia|].
      destruct (AdMobHook.enabled c); cbn; [|repeat split; auto; lia].
      destruct (w n (AdMob_initialize (AdMobHook.isTestMode h))) as [[]|e];
        cbn; repeat split; auto; try lia; try discriminate; eauto.
    + destruct (isNativePlatform cap); cbn; [|repeat split; auto; lia].
      destruct (AdMobHookStatic.isInitialized h); cbn;
        [repeat split; auto; lia|].
      destruct (w n (AdMob_initialize true)) as [[]|e]; cbn;
        repeat split; auto; try lia; try discriminate.
Qed.

(** In a desktop browser. *)
Lemma hooks_contain_failures_witness :
  let web := {| isNativePlatform := false; getPlatform := "web" |} in
  exec (AdMobHook.showRewarded web AdMobHook.mounted None) all_ok 0
       AdMobHook.mounted
  = ([], AdMobHook.mounted, Returned (Settled None)).
Proof.
  cbv zeta.
  apply (proj1 (proj2 (proj2
           (hooks_contain_failures
              {| isNativePlatform := false; getPlatform := "web" |}
              None bottom "default_banner")))
           eq_refl all_ok 0%nat).
Defined.

(** ** Restoring edge-to-edge *)

(** X29: [initEdgeToEdge] sets, in this order, the overlay, on Android
    the transparent background, and the dark style, and gives up at the
    first of them that fails.  The edge-to-edge variant of
    [showStatusBar], on Android with the fullscreen plugin loaded, runs it
    after the immersive mode was switched off and 100 ms have passed,
    also when switching off failed. *)
Theorem edge_to_edge_is_restored :
  forall (cap : CapacitorEnv) (w : oracle) (n : nat)
         (s : NativeStatusBar.State),
    let init := exec (NativeStatusBarEdge.initEdgeToEdge cap) w n s in
    let steps :=
      [StatusBar_setOverlaysWebView true]
      ++ (if NativeStatusBar.on_android cap
          then [StatusBar_setBackgroundColor "#00000000"] else [])
      ++ [StatusBar_setStyle Style_Dark] in
    (calls (trace_of init) =
       if isNativePlatform cap
       then firstn (S (List.length (calls_ok (trace_of init)))) steps
       else [])
    /\ nothing_after_failure (trace_of init) = true
    /\ state_of init = s
    /\ completion_of init = Returned tt
    /\ (isNativePlatform cap = true ->
        NativeStatusBar.on_android cap = true ->
        NativeStatusBar.FullscreenPlugin s = true ->
        let ok := succeeded _ (w n Fullscreen_deactivateImmersiveMode) in
        trace_of (exec (NativeStatusBarEdge.showStatusBar cap) w n s)
        = [ECall Fullscreen_deactivateImmersiveMode ok;
           EAct (console_log
                   (if ok
                    then "[StatusBar] Deactivated immersive mode (shows all system bars)"
                    else "[StatusBar] Deactivate immersive call failed:"));
           EAct (setTimeout_resolve 100)]
          ++ trace_of (exec (NativeStatusBarEdge.initEdgeToEdge cap) w (S n) s)).
Proof.
  intros cap w n s init steps. subst init steps.
  repeat match goal with |- _ /\ _ => split end.
  1-4: unfold NativeStatusBarEdge.initEdgeToEdge, NativeStatusBarEdge.isNative,
         NativeStatusBarEdge.on_android;
       destruct (isNativePlatform cap); cbn; try reflexivity;
       destruct (NativeStatusBar.on_android cap); split_run; reflexivity.
  intros Hnat Handroid Hplugin ok. subst ok.
  unfold NativeStatusBarEdge.showStatusBar, NativeStatusBarEdge.initEdgeToEdge,
    NativeStatusBarEdge.isNative, NativeStatusBarEdge.on_android,
    NativeStatusBarEdge.loadFullscreenPlugin,
    NativeStatusBar.loadFullscreenPlugin.
  rewrite Hnat, Handroid. destruct s as [plugin]. cbn in Hplugin. subst plugin.
  split_run; reflexivity.
Qed.

(** On an Android device whose plugin fails to leave immersive mode. *)
Lemma edge_to_edge_is_restored_witness :
  calls (trace_of (exec (NativeStatusBarEdge.showStatusBar android)
                        (failing_at [0%nat] {| message := "busy" |} all_ok) 0
                        {| NativeStatusBar.FullscreenPlugin := true |}))
  = [Fullscreen_deactivateImmersiveMode;
     StatusBar_setOverlaysWebView true;
     StatusBar_setBackgroundColor "#00000000";
     StatusBar_setStyle Style_Dark].
Proof.
  rewrite (proj2 (proj2 (proj2 (proj2
             (edge_to_edge_is_restored android
                (failing_at [0%nat] {| message := "busy" |} all_ok) 0%nat
                {| NativeStatusBar.FullscreenPlugin := true |}))))
             eq_refl eq_refl eq_refl).
  reflexivity.
Defined.
